(** * BMS-FinanceFlow: transfer pricing and transaction lifecycle

    A shallow embedding of the server side of the money-transfer
    application: the FX service (class [FxService]), the storage layer
    (class [DatabaseStorage]), the tables and zod schemas of the shared
    schema and the route handlers of [registerRoutes] that deal with
    rates and quotes, beneficiaries, transactions, the dashboard and the
    admin pages.

    JavaScript numbers are IEEE 754 binary64 values; they are modelled by
    [spec_float] of the Standard Library with [prec = 53] and
    [emax = 1024], whose operations round to nearest, ties to even, as
    JavaScript's do.  Tables stored by PostgreSQL are lists of rows,
    [Record<string, number>] objects are finite maps, and the asynchronous
    methods are computations of a state-and-exception monad over the
    database, the clock, the network and an event log. *)

From Stdlib Require Import ZArith Lia List Bool Ascii String.
From Stdlib Require Import Floats.SpecFloat.
From Stdlib Require Import DecimalString Sorting.Sorted Sorting.Permutation.
From Stdlib Require DecimalPos DecimalN.
From stdpp Require Import gmap strings list fin_maps.

Import ListNotations.
Local Open Scope string_scope.
Local Open Scope Z_scope.

(** ** JavaScript numbers *)

Module JsNumber.

Definition number : Type := spec_float.

Definition prec : Z := 53.
Definition emax : Z := 1024.

Definition add : number -> number -> number := SFadd prec emax.
Definition mul : number -> number -> number := SFmul prec emax.

(** [x > y], [x < y] and [x === y] on numbers; every comparison with
    NaN is false. *)
Definition gt (x y : number) : bool := SFltb y x.
Definition lt (x y : number) : bool := SFltb x y.
Definition strict_eq (x y : number) : bool := SFeqb x y.

(** ToBoolean on a number: false for [+0], [-0] and [NaN]. *)
Definition truthy (x : number) : bool :=
  match x with
  | S754_zero _ | S754_nan => false
  | _ => true
  end.

(** The double nearest to the rational [n / d] (ties to even), with
    sign [s].  This is how a decimal literal of the program text, or a
    decimal string given to [Number], becomes a number. *)
Definition of_ratio (s : bool) (n d : positive) : number :=
  let '(mz, ez, lz) := SFdiv_core_binary prec emax (Zpos n) 0 (Zpos d) 0 in
  binary_round_aux prec emax s mz ez lz.

(** [of_decimal s m e] is the double nearest to [m * 10^e], with sign [s]. *)
Definition of_decimal (s : bool) (m : N) (e : Z) : number :=
  match m with
  | N0 => S754_zero s
  | Npos p =>
      match e with
      | Zneg k => of_ratio s p (Pos.pow 10 k)
      | Z0 => of_ratio s p 1
      | Zpos k => of_ratio s (p * Pos.pow 10 k) 1
      end
  end.

(** A literal with [k] fractional digits: [lit 499 2] is [4.99]. *)
Definition lit (digits : N) (k : nat) : number :=
  of_decimal false digits (- Z.of_nat k).

(** The exact value of a finite number is [m * 2^e]; [value_ge m e b]
    decides [m * 2^e >= b] for an integer [b]. *)
Definition value_ge (m : positive) (e : Z) (b : Z) : bool :=
  match e with
  | Zneg k => b * 2 ^ Zpos k <=? Zpos m
  | _ => b <=? Zpos m * 2 ^ e
  end.

(** The integer [n] for which [n / 100 - m * 2^e] is as close to zero as
    possible, the larger one when there are two (step 11 of
    [Number.prototype.toFixed] with two fraction digits). *)
Definition nearest_cents (m : positive) (e : Z) : Z :=
  match e with
  | Zneg k => (200 * Zpos m + 2 ^ Zpos k) / 2 ^ (Zpos k + 1)
  | _ => 100 * (Zpos m * 2 ^ e)
  end.

(** [Number(x.toFixed(2))].  [toFixed] returns ["NaN"] and
    ["Infinity"] for values that are not finite and the ordinary
    [ToString] of [x] from [10^21] on, and [Number] reads each of these
    back as [x]; below [10^21] it prints the nearest number of
    hundredths, with the sign of [x] in front when [x < 0], and
    [Number] reads that decimal as the nearest double.  [-0] is not
    below zero and prints as ["0.00"]. *)
Definition toFixed2 (x : number) : number :=
  match x with
  | S754_nan => S754_nan
  | S754_infinity s => S754_infinity s
  | S754_zero _ => S754_zero false
  | S754_finite s m e =>
      if value_ge m e (10 ^ 21) then x
      else of_decimal s (Z.to_N (nearest_cents m e)) (-2)
  end.

(** *** [Number] applied to a string (StringToNumber)

    Strings are sequences of ASCII characters, so the white space that is
    trimmed is the ASCII white space. *)

Definition is_space (c : ascii) : bool :=
  let n := nat_of_ascii c in
  ((9 <=? n)%nat && (n <=? 13)%nat) || (n =? 32)%nat.

Fixpoint trim_start (cs : list ascii) : list ascii :=
  match cs with
  | c :: r => if is_space c then trim_start r else cs
  | [] => []
  end.

Definition trim (cs : list ascii) : list ascii :=
  rev (trim_start (rev (trim_start cs))).

(** The value of a digit in a given radix, if it is one. *)
Definition digit_value (radix : N) (c : ascii) : option N :=
  let n := N_of_ascii c in
  let v :=
    if (48 <=? n)%N && (n <=? 57)%N then Some (n - 48)%N
    else if (97 <=? n)%N && (n <=? 102)%N then Some (n - 87)%N
    else if (65 <=? n)%N && (n <=? 70)%N then Some (n - 55)%N
    else None in
  match v with
  | Some d => if (d <? radix)%N then Some d else None
  | None => None
  end.

(** Reads the longest run of digits: the value accumulated so far, the
    number of digits read, and what is left. *)
Fixpoint read_digits (radix : N) (acc : N) (cnt : nat) (cs : list ascii)
  : N * nat * list ascii :=
  match cs with
  | c :: r =>
      match digit_value radix c with
      | Some d => read_digits radix (acc * radix + d)%N (S cnt) r
      | None => (acc, cnt, cs)
      end
  | [] => (acc, cnt, [])
  end.

Definition read_sign (cs : list ascii) : bool * list ascii :=
  match cs with
  | "+"%char :: r => (false, r)
  | "-"%char :: r => (true, r)
  | _ => (false, cs)
  end.

(** ExponentPart, or nothing; [None] when the rest is not one. *)
Definition read_exponent (cs : list ascii) : option Z :=
  match cs with
  | [] => Some 0
  | c :: r =>
      if (Ascii.eqb c "e" || Ascii.eqb c "E")%bool then
        let '(neg, r1) := read_sign r in
        match read_digits 10 0 0 r1 with
        | (_, O, _) => None
        | (v, _, []) => Some (if neg then - Z.of_N v else Z.of_N v)
        | _ => None
        end
      else None
  end.

(** StrUnsignedDecimalLiteral. *)
Definition unsigned_decimal (s : bool) (cs : list ascii) : number :=
  if String.eqb (string_of_list_ascii cs) "Infinity" then S754_infinity s
  else
    let '(ip, ni, r1) := read_digits 10 0 0 cs in
    let '(mant, nf, r2) :=
      match r1 with
      | "."%char :: r =>
          let '(m, n, r') := read_digits 10 ip 0 r in (m, n, r')
      | _ => (ip, O, r1)
      end in
    match (ni + nf)%nat with
    | O => S754_nan
    | _ =>
        match read_exponent r2 with
        | Some ex => of_decimal s mant (ex - Z.of_nat nf)
        | None => S754_nan
        end
    end.

(** A literal in radix 2, 8 or 16, after its prefix. *)
Definition radix_literal (radix : N) (cs : list ascii) : number :=
  match read_digits radix 0 0 cs with
  | (_, O, _) => S754_nan
  | (v, _, []) => of_decimal false v 0
  | _ => S754_nan
  end.

Definition StringToNumber (str : string) : number :=
  match trim (list_ascii_of_string str) with
  | [] => S754_zero false
  | "0"%char :: c :: r =>
      if (Ascii.eqb c "x" || Ascii.eqb c "X")%bool then radix_literal 16 r
      else if (Ascii.eqb c "o" || Ascii.eqb c "O")%bool then radix_literal 8 r
      else if (Ascii.eqb c "b" || Ascii.eqb c "B")%bool then radix_literal 2 r
      else unsigned_decimal false ("0"%char :: c :: r)
  | cs => let '(s, r) := read_sign cs in unsigned_decimal s r
  end.

End JsNumber.

(** ** Numbers as strings: [toString] and [toFixed] *)

Module JsString.

Import JsNumber.

(** The decimal digits of a natural number. *)
Definition digits (n : N) : string := NilZero.string_of_uint (N.to_uint n).

Fixpoint zeros (k : nat) : string :=
  match k with
  | O => ""
  | S k' => String "0" (zeros k')
  end.

(** The exact value of the finite double [m * 2^e] as a fraction. *)
Definition numerator (m : positive) (e : Z) : Z :=
  match e with
  | Zneg _ => Zpos m
  | _ => Zpos m * 2 ^ e
  end.

Definition denominator (e : Z) : Z :=
  match e with
  | Zneg k => 2 ^ Zpos k
  | _ => 1
  end.

(** The least [j] from [j] on with [q <= p * 10^j]. *)
Fixpoint first_scale (fuel : nat) (j p q : Z) : Z :=
  match fuel with
  | O => j
  | S fuel' => if q <=? p * 10 ^ j then j else first_scale fuel' (j + 1) p q
  end.

(** The [n] with [10^(n-1) <= p / q < 10^n]. *)
Definition decimal_exponent (p q : Z) : Z :=
  if q <=? p then Z.of_nat (String.length (digits (Z.to_N (p / q))))
  else 1 - first_scale 400 1 p q.

(** The candidates with [k] digits for the double [x = p / q]: the
    [k]-digit integers [s] next to [p / q / 10^(n-k)] whose decimal
    [s * 10^(n-k)] reads back as [x]; of two the closer one, the even one
    at a tie. *)
Definition candidate (x : number) (p q n k : Z) : option (Z * Z) :=
  let num := if n <=? k then p * 10 ^ (k - n) else p in
  let den := if n <=? k then q else q * 10 ^ (n - k) in
  let lo := num / den in
  let rem := num mod den in
  let hi := lo + 1 in
  let reads_back (s : Z) := SFeqb (of_decimal false (Z.to_N s) (n - k)) x in
  let up := if hi =? 10 ^ k then (10 ^ (k - 1), n + 1) else (hi, n) in
  match reads_back lo && (10 ^ (k - 1) <=? lo), reads_back hi with
  | true, true =>
      if 2 * rem <? den then Some (lo, n)
      else if den <? 2 * rem then Some up
      else if Z.even lo then Some (lo, n) else Some up
  | true, false => Some (lo, n)
  | false, true => Some up
  | false, false => None
  end.

Fixpoint shortest (fuel : nat) (x : number) (p q n k : Z) : Z * Z :=
  match fuel with
  | O => (p / q, n)
  | S fuel' =>
      match candidate x p q n k with
      | Some sn => sn
      | None => shortest fuel' x p q n (k + 1)
      end
  end.

(** Steps 6 to 10 of [Number::toString]: [s] has the digits, [n] places
    the decimal point. *)
Definition layout (s n : Z) : string :=
  let ds := digits (Z.to_N s) in
  let k := Z.of_nat (String.length ds) in
  if (k <=? n) && (n <=? 21) then ds ++ zeros (Z.to_nat (n - k))
  else if (0 <? n) && (n <=? 21) then
    substring 0 (Z.to_nat n) ds ++ "." ++ substring (Z.to_nat n) (Z.to_nat (k - n)) ds
  else if (-6 <? n) && (n <=? 0) then "0." ++ zeros (Z.to_nat (- n)) ++ ds
  else
    let e := n - 1 in
    let exponent := (if e <? 0 then "-" else "+") ++ digits (Z.to_N (Z.abs e)) in
    if k =? 1 then ds ++ "e" ++ exponent
    else substring 0 1 ds ++ "." ++ substring 1 (Z.to_nat (k - 1)) ds ++ "e" ++ exponent.

(** [x.toString()] *)
Definition toString (x : number) : string :=
  match x with
  | S754_nan => "NaN"
  | S754_zero _ => "0"
  | S754_infinity s => if s then "-Infinity" else "Infinity"
  | S754_finite s m e =>
      let p := numerator m e in
      let q := denominator e in
      let '(d, n) := shortest 17 (S754_finite false m e) p q (decimal_exponent p q) 1 in
      (if s then "-" else "") ++ layout d n
  end.

(** [x.toFixed(2)] *)
Definition toFixed (x : number) : string :=
  match x with
  | S754_nan => "NaN"
  | S754_zero _ => "0.00"
  | S754_infinity s => if s then "-Infinity" else "Infinity"
  | S754_finite s m e =>
      if value_ge m e (10 ^ 21) then toString x
      else
        let ds := digits (Z.to_N (nearest_cents m e)) in
        let k := String.length ds in
        let padded := zeros (3 - k) ++ ds in
        let len := String.length padded in
        (if s then "-" else "") ++
        substring 0 (len - 2) padded ++ "." ++ substring (len - 2) 2 padded
  end.

End JsString.

Import JsNumber.

(** ** Rows of the relational store (the [pgTable]s of the shared schema)

    Identifiers are the UUID strings PostgreSQL generates, timestamps are
    milliseconds since the epoch, and the [decimal] columns carry the text
    they were given (drizzle reads and writes them as strings). *)

Module Beneficiary.
Record t : Type := mk {
  id : string;
  userId : string;
  name : string;
  accountNumber : string;
  country : string;
  currency : string;
  createdAt : Z;
  updatedAt : Z
}.
End Beneficiary.

Module Transaction.
Record t : Type := mk {
  id : string;
  userId : string;
  beneficiaryId : string;
  sourceAmount : string;
  sourceCurrency : string;
  targetAmount : string;
  targetCurrency : string;
  exchangeRate : string;
  baseFee : string;
  exchangeFee : string;
  totalFee : string;
  purpose : string;
  status : string;
  isHighRisk : bool;
  adminNotes : option string;
  createdAt : Z;
  updatedAt : Z
}.
End Transaction.

(** A [Record<string, number>] of exchange rates. *)
Abbreviation RateTable := (gmap string number).

Module FxRate.
Record t : Type := mk {
  id : string;
  baseCurrency : string;
  rates : RateTable;
  lastUpdated : Z
}.
End FxRate.

Record Db : Type := mkDb {
  beneficiaries : list Beneficiary.t;
  transactions : list Transaction.t;
  fxRates : list FxRate.t
}.

(** ** The world a request runs in *)

Variant Table : Type := TBeneficiaries | TTransactions | TFxRates.

(** What a request does to the outside: statements sent to the database
    and HTTP requests sent to the rate provider. *)
Variant Event : Type :=
  | Select (t : Table)
  | Insert (t : Table)
  | Update (t : Table)
  | Delete (t : Table)
  | HttpGet (url : string).

(** The body of a provider response as [response.json()] and the two
    property reads [data.success] and [data.rates] see it: text that is not
    JSON, the JSON value [null], or a value whose [success] is truthy or
    not and whose [rates] is an object or is missing. *)
Variant JsonBody : Type :=
  | NotJson
  | JsonNull
  | JsonData (success : bool) (rates : option RateTable).

Record HttpResponse : Type := mkHttpResponse {
  ok : bool;
  statusCode : Z;
  body : JsonBody
}.

Variant FetchOutcome : Type :=
  | NetworkFailure
  | Responded (r : HttpResponse).

Record World : Type := mkWorld {
  db : Db;
  (** [new Date().getTime()] *)
  clock : Z;
  (** [new Date(now.getFullYear(), 0, 1).getTime()] in the server's time zone *)
  startOfYear : Z;
  (** the rate provider, by URL *)
  network : string -> FetchOutcome;
  (** [gen_random_uuid()]: the identifiers still to be handed out *)
  uuids : nat -> string;
  issued : nat;
  events : list Event
}.

Definition with_db (d : Db) (w : World) : World :=
  mkWorld d (clock w) (startOfYear w) (network w) (uuids w) (issued w) (events w).

Definition with_event (e : Event) (w : World) : World :=
  mkWorld (db w) (clock w) (startOfYear w) (network w) (uuids w) (issued w)
          (events w ++ [e]).

Definition with_issued (n : nat) (w : World) : World :=
  mkWorld (db w) (clock w) (startOfYear w) (network w) (uuids w) n (events w).

(** ** Exceptions and the monad of asynchronous methods *)

Variant Exn : Type :=
  | FetchFailed
  | ApiError (status : Z)
  | JsonSyntaxError
  | TypeError
  | InvalidApiResponse
  | RateNotAvailable (fromCurrency toCurrency : string)
  | ZodError.

Variant Outcome (A : Type) : Type :=
  | Returned (a : A)
  | Thrown (e : Exn).
Arguments Returned {A} a.
Arguments Thrown {A} e.

Definition M (A : Type) : Type := World -> Outcome A * World.

Definition ret {A} (a : A) : M A := fun w => (Returned a, w).

Definition throw {A} (e : Exn) : M A := fun w => (Thrown e, w).

Definition bind {A B} (m : M A) (k : A -> M B) : M B :=
  fun w =>
    match m w with
    | (Returned a, w') => k a w'
    | (Thrown e, w') => (Thrown e, w')
    end.

(** [try { m } catch (error) { h error }]: the handler starts from the
    world the failed block left behind. *)
Definition try_catch {A} (m : M A) (h : Exn -> M A) : M A :=
  fun w =>
    match m w with
    | (Returned a, w') => (Returned a, w')
    | (Thrown e, w') => h e w'
    end.

Notation "'let*' x := m 'in' k" := (bind m (fun x => k))
  (at level 10, x name, m at level 100, k at level 200).
Notation "m >> k" := (bind m (fun _ => k))
  (at level 90, right associativity).

Definition get_db : M Db := fun w => (Returned (db w), w).
Definition put_db (d : Db) : M unit := fun w => (Returned tt, with_db d w).
Definition emit (e : Event) : M unit := fun w => (Returned tt, with_event e w).
Definition new_Date : M Z := fun w => (Returned (clock w), w).
Definition year_start : M Z := fun w => (Returned (startOfYear w), w).
Definition gen_random_uuid : M string :=
  fun w => (Returned (uuids w (issued w)), with_issued (S (issued w)) w).

(** [await fetch(url)] *)
Definition fetch (url : string) : M HttpResponse :=
  emit (HttpGet url) >>
  fun w =>
    match network w url with
    | NetworkFailure => (Thrown FetchFailed, w)
    | Responded r => (Returned r, w)
    end.

(** [await response.json()] followed by the reads of [data.success] and
    [data.rates]; reading a property of [null] throws. *)
Definition response_json (r : HttpResponse) : M (bool * option RateTable) :=
  match body r with
  | NotJson => throw JsonSyntaxError
  | JsonNull => throw TypeError
  | JsonData success rates => ret (success, rates)
  end.

(** ** Query helpers

    Statements always succeed: the checks PostgreSQL makes by itself
    (foreign keys, column widths, the precision and scale of a [numeric],
    the shape of a [uuid]) are not part of the model, and neither is the
    rounding of a [numeric] to its scale.  A property that needs a
    statement to be accepted says so in its hypotheses, or is stated for
    the rows and answers that are returned. *)

(** [ORDER BY key DESC]; rows with equal keys stay in insertion order. *)
Fixpoint insert_desc {A} (key : A -> Z) (x : A) (l : list A) : list A :=
  match l with
  | [] => [x]
  | y :: r => if key x <? key y then y :: insert_desc key x r else x :: y :: r
  end.

Definition orderByDesc {A} (key : A -> Z) (l : list A) : list A :=
  fold_right (insert_desc key) [] l.

(** [const [row] = await ...]: the first row, or [undefined]. *)
Definition first_row {A} (l : list A) : option A :=
  match l with
  | x :: _ => Some x
  | [] => None
  end.

(** An ASCII letter in lower case, for [ILIKE]. *)
Definition lower (c : ascii) : ascii :=
  let n := nat_of_ascii c in
  if ((65 <=? n)%nat && (n <=? 90)%nat)%bool then ascii_of_nat (n + 32) else c.

(** SQL [LIKE]: [%] stands for any run of characters, [_] for any one
    character and a backslash takes the next character literally. *)
Fixpoint like (p t : list ascii) : bool :=
  match p with
  | [] => match t with [] => true | _ :: _ => false end
  | c :: p' =>
      if Ascii.eqb c "%" then
        (fix star (t : list ascii) : bool :=
           like p' t || match t with [] => false | _ :: t' => star t' end) t
      else if Ascii.eqb c "_" then
        match t with [] => false | _ :: t' => like p' t' end
      else if Ascii.eqb c "\" then
        match p' with
        | [] => false
        | c' :: p'' =>
            match t with
            | [] => false
            | d :: t' => Ascii.eqb c' d && like p'' t'
            end
        end
      else
        match t with
        | [] => false
        | d :: t' => Ascii.eqb c d && like p' t'
        end
  end.

(** [ilike(column, pattern)] *)
Definition ilike (text pattern : string) : bool :=
  like (map lower (list_ascii_of_string pattern))
       (map lower (list_ascii_of_string text)).

(** ** The storage layer (class [DatabaseStorage]) *)

Module storage.

(** *** Beneficiaries *)

Definition getBeneficiaryById (id : string) : M (option Beneficiary.t) :=
  emit (Select TBeneficiaries) >>
  let* d := get_db in
  ret (first_row
         (filter (fun b => String.eqb (Beneficiary.id b) id) (beneficiaries d))).

(** [Partial<InsertBeneficiary>]: the columns a request may change. *)
Record BeneficiaryPatch : Type := mkPatch {
  p_name : option string;
  p_accountNumber : option string;
  p_country : option string;
  p_currency : option string
}.

Definition apply_patch (p : BeneficiaryPatch) (now : Z) (b : Beneficiary.t)
  : Beneficiary.t :=
  Beneficiary.mk (Beneficiary.id b) (Beneficiary.userId b)
    (default (Beneficiary.name b) (p_name p))
    (default (Beneficiary.accountNumber b) (p_accountNumber p))
    (default (Beneficiary.country b) (p_country p))
    (default (Beneficiary.currency b) (p_currency p))
    (Beneficiary.createdAt b) now.

Definition updateBeneficiary (id : string) (beneficiary : BeneficiaryPatch)
  : M (option Beneficiary.t) :=
  emit (Update TBeneficiaries) >>
  let* now := new_Date in
  let* d := get_db in
  let hit b := String.eqb (Beneficiary.id b) id in
  let rows :=
    map (fun b => if hit b then apply_patch beneficiary now b else b)
        (beneficiaries d) in
  put_db (mkDb rows (transactions d) (fxRates d)) >>
  ret (first_row (filter hit rows)).

Definition deleteBeneficiary (id : string) : M bool :=
  emit (Delete TBeneficiaries) >>
  let* d := get_db in
  let hit b := String.eqb (Beneficiary.id b) id in
  let rowCount := length (filter hit (beneficiaries d)) in
  put_db (mkDb (filter (fun b => negb (hit b)) (beneficiaries d))
               (transactions d) (fxRates d)) >>
  ret (0 <? Z.of_nat rowCount).

(** *** Transactions *)

Definition getTransactionsByUserId (userId : string) (limit : option nat)
  : M (list Transaction.t) :=
  emit (Select TTransactions) >>
  let* d := get_db in
  ret (firstn (default 50%nat limit)
         (orderByDesc Transaction.createdAt
            (filter (fun t => String.eqb (Transaction.userId t) userId)
                    (transactions d)))).


(** [InsertTransaction & { userId: string }] *)
Record NewTransaction : Type := mkNew {
  n_userId : string;
  n_beneficiaryId : string;
  n_sourceAmount : string;
  n_sourceCurrency : string;
  n_targetAmount : string;
  n_targetCurrency : string;
  n_exchangeRate : string;
  n_baseFee : string;
  n_exchangeFee : string;
  n_totalFee : string;
  n_purpose : string
}.

Definition createTransaction (transaction : NewTransaction) : M Transaction.t :=
  (* Calculate if transaction is high risk (>$10,000 equivalent) *)
  let sourceAmount := StringToNumber (n_sourceAmount transaction) in
  let isHighRisk := gt sourceAmount (lit 10000 0) in
  emit (Insert TTransactions) >>
  let* id := gen_random_uuid in
  let* now := new_Date in
  let* d := get_db in
  let newTransaction :=
    Transaction.mk id (n_userId transaction) (n_beneficiaryId transaction)
      (n_sourceAmount transaction) (n_sourceCurrency transaction)
      (n_targetAmount transaction) (n_targetCurrency transaction)
      (n_exchangeRate transaction) (n_baseFee transaction)
      (n_exchangeFee transaction) (n_totalFee transaction)
      (n_purpose transaction)
      (if gt sourceAmount (lit 10000 0) then "pending" else "completed")
      isHighRisk None now now in
  put_db (mkDb (beneficiaries d) (transactions d ++ [newTransaction]) (fxRates d)) >>
  ret newTransaction.

(** drizzle leaves a column alone when its new value is [undefined]. *)
Definition set_status (status : string) (adminNotes : option string) (now : Z)
    (t : Transaction.t) : Transaction.t :=
  Transaction.mk (Transaction.id t) (Transaction.userId t)
    (Transaction.beneficiaryId t) (Transaction.sourceAmount t)
    (Transaction.sourceCurrency t) (Transaction.targetAmount t)
    (Transaction.targetCurrency t) (Transaction.exchangeRate t)
    (Transaction.baseFee t) (Transaction.exchangeFee t) (Transaction.totalFee t)
    (Transaction.purpose t) status (Transaction.isHighRisk t)
    (match adminNotes with
     | Some n => Some n
     | None => Transaction.adminNotes t
     end)
    (Transaction.createdAt t) now.

Definition updateTransactionStatus (id status : string) (adminNotes : option string)
  : M (option Transaction.t) :=
  emit (Update TTransactions) >>
  let* now := new_Date in
  let* d := get_db in
  let hit t := String.eqb (Transaction.id t) id in
  let rows :=
    map (fun t => if hit t then set_status status adminNotes now t else t)
        (transactions d) in
  put_db (mkDb (beneficiaries d) rows (fxRates d)) >>
  ret (first_row (filter hit rows)).

Definition searchTransactions (userId query : string) (dateRange : option string)
  : M (list Transaction.t) :=
  let owned t := String.eqb (Transaction.userId t) userId in
  if negb (String.eqb query "") then
    (* Join with beneficiaries to search by name *)
    emit (Select TTransactions) >>
    let* d := get_db in
    let joined :=
      flat_map
        (fun t =>
           map (fun _ => t)
             (filter
                (fun b =>
                   String.eqb (Transaction.beneficiaryId t) (Beneficiary.id b)
                   && (owned t
                       && ilike (Beneficiary.name b) ("%" +:+ query +:+ "%")))
                (beneficiaries d)))
        (transactions d) in
    ret (orderByDesc Transaction.createdAt joined)
  else
    let* whereClause :=
      match dateRange with
      | Some range =>
          if String.eqb range "" then ret owned
          else
            let* now := new_Date in
            let* dateThreshold :=
              if String.eqb range "30days" then
                ret (now - 30 * 24 * 60 * 60 * 1000)
              else if String.eqb range "90days" then
                ret (now - 90 * 24 * 60 * 60 * 1000)
              else if String.eqb range "year" then year_start
              else ret 0 in
            ret (fun t => owned t && (dateThreshold <=? Transaction.createdAt t))
      | None => ret owned
      end in
    emit (Select TTransactions) >>
    let* d := get_db in
    ret (orderByDesc Transaction.createdAt (filter whereClause (transactions d))).

(** *** FX rates *)

Definition getLatestFxRates : M (option FxRate.t) :=
  emit (Select TFxRates) >>
  let* d := get_db in
  ret (first_row (firstn 1 (orderByDesc FxRate.lastUpdated (fxRates d)))).

Definition updateFxRates (rates : RateTable) : M FxRate.t :=
  emit (Insert TFxRates) >>
  let* id := gen_random_uuid in
  let* now := new_Date in
  let* d := get_db in
  let updated := FxRate.mk id "USD" rates now in
  put_db (mkDb (beneficiaries d) (transactions d) (fxRates d ++ [updated])) >>
  ret updated.

(** *** The other queries *)

Definition getBeneficiariesByUserId (userId : string) : M (list Beneficiary.t) :=
  emit (Select TBeneficiaries) >>
  let* d := get_db in
  ret (orderByDesc Beneficiary.createdAt
         (filter (fun b => String.eqb (Beneficiary.userId b) userId)
                 (beneficiaries d))).

(** [InsertBeneficiary & { userId: string }] *)
Record NewBeneficiary : Type := mkNewBeneficiary {
  nb_name : string;
  nb_accountNumber : string;
  nb_country : string;
  nb_currency : string;
  nb_userId : string
}.

Definition createBeneficiary (beneficiary : NewBeneficiary) : M Beneficiary.t :=
  emit (Insert TBeneficiaries) >>
  let* id := gen_random_uuid in
  let* now := new_Date in
  let* d := get_db in
  let newBeneficiary :=
    Beneficiary.mk id (nb_userId beneficiary) (nb_name beneficiary)
      (nb_accountNumber beneficiary) (nb_country beneficiary)
      (nb_currency beneficiary) now now in
  put_db (mkDb (beneficiaries d ++ [newBeneficiary]) (transactions d) (fxRates d)) >>
  ret newBeneficiary.

Definition getAllTransactions (limit : option nat) : M (list Transaction.t) :=
  emit (Select TTransactions) >>
  let* d := get_db in
  ret (firstn (default 100%nat limit)
         (orderByDesc Transaction.createdAt (transactions d))).

Definition getHighRiskTransactions : M (list Transaction.t) :=
  emit (Select TTransactions) >>
  let* d := get_db in
  ret (orderByDesc Transaction.createdAt
         (filter (fun t => Bool.eqb (Transaction.isHighRisk t) true)
                 (transactions d))).

(** The number of rows of [transactions] *)
Definition getTransactionCount : M nat :=
  emit (Select TTransactions) >>
  let* d := get_db in
  ret (length (transactions d)).

End storage.

(** ** The FX service (class [FxService]) *)

Module fxService.

Definition baseUrl : string := "https://api.exchangerate-api.com/v4/latest".

(** 15 minutes in milliseconds *)
Definition cacheDuration : Z := 15 * 60 * 1000.

Definition isCacheValid (lastUpdated : Z) : M bool :=
  let* now := new_Date in
  let timeDiff := now - lastUpdated in
  ret (timeDiff <? cacheDuration).

(** Fallback rates in case API is unavailable *)
Definition getFallbackRates : RateTable :=
  list_to_map
    [ ("EUR", lit 8547 4);
      ("GBP", lit 7834 4);
      ("JPY", lit 14925 2);
      ("KRW", lit 132500 2);
      ("CAD", lit 13500 4);
      ("AUD", lit 15234 4);
      ("CHF", lit 8923 4);
      ("CNY", lit 72456 4);
      ("INR", lit 831245 4);
      ("MXN", lit 178934 4) ].

(** The part of [getCurrentRates] after the cache check: fetch fresh
    rates from the API and cache them. *)
Definition fetchFreshRates (baseCurrency : string) : M RateTable :=
  let* response := fetch (baseUrl +:+ "/" +:+ baseCurrency) in
  if negb (ok response) then throw (ApiError (statusCode response))
  else
    let* data := response_json response in
    let '(data_success, data_rates) := data in
    if negb data_success && bool_decide (is_Some data_rates) then
      throw InvalidApiResponse
    else
      let rates := default getFallbackRates data_rates in
      storage.updateFxRates rates >>
      ret rates.

Definition getCurrentRates (baseCurrency : string) : M RateTable :=
  try_catch
    (let* cachedRates := storage.getLatestFxRates in
     match cachedRates with
     | Some cached =>
         let* valid := isCacheValid (FxRate.lastUpdated cached) in
         if valid then ret (FxRate.rates cached)
         else fetchFreshRates baseCurrency
     | None => fetchFreshRates baseCurrency
     end)
    (fun error =>
       (* Return cached rates if available, otherwise fallback rates *)
       let* cachedRates := storage.getLatestFxRates in
       match cachedRates with
       | Some cached => ret (FxRate.rates cached)
       | None => ret getFallbackRates
       end).

(** [rates[toCurrency]] reads an own property of the table for every key
    that does not name a member of [Object.prototype]; no currency code
    does, and the keys that do are left out of the model. *)
Definition getExchangeRate (fromCurrency toCurrency : string) : M number :=
  if String.eqb fromCurrency toCurrency then ret (lit 1 0)
  else
    let* rates := getCurrentRates fromCurrency in
    match rates !! toCurrency with
    | Some rate =>
        if truthy rate then ret rate
        else throw (RateNotAvailable fromCurrency toCurrency)
    | None => throw (RateNotAvailable fromCurrency toCurrency)
    end.

Definition convertAmount (amount : number) (fromCurrency toCurrency : string)
  : M number :=
  let* rate := getExchangeRate fromCurrency toCurrency in
  ret (toFixed2 (mul amount rate)).

Record Fees : Type := mkFees {
  baseFee : number;
  exchangeFee : number;
  totalFee : number
}.

Definition calculateFees (amount : number) : Fees :=
  let baseFee := lit 499 2 in
  let exchangeFeePercent := lit 5 3 in
  let exchangeFee := toFixed2 (mul amount exchangeFeePercent) in
  let totalFee := toFixed2 (add baseFee exchangeFee) in
  mkFees baseFee exchangeFee totalFee.

End fxService.

(** ** Request validation (the zod schemas of the shared schema) *)

(** A property of a request body: a string, or a JSON value of another
    kind. *)
Variant Json : Type :=
  | JString (s : string)
  | JOther.

(** The body of a beneficiary request, property by property; [None] is a
    property that is not there. *)
Record BeneficiaryBody : Type := mkBody {
  body_name : option Json;
  body_accountNumber : option Json;
  body_country : option Json;
  body_currency : option Json
}.

(** An optional [z.string()] with a check on its length; the outer option
    is [None] when validation fails. *)
Definition optional_string (check : nat -> bool) (v : option Json)
  : option (option string) :=
  match v with
  | None => Some None
  | Some (JString s) => if check (String.length s) then Some (Some s) else None
  | Some JOther => None
  end.

(** [insertBeneficiarySchema.partial()]: [name] of at least 2 characters,
    [accountNumber] of at least 5, [country] of exactly 2 and [currency]
    of exactly 3, each of them optional. *)
Definition validate_partial_beneficiary (b : BeneficiaryBody)
  : option storage.BeneficiaryPatch :=
  match optional_string (fun n => (2 <=? n)%nat) (body_name b),
        optional_string (fun n => (5 <=? n)%nat) (body_accountNumber b),
        optional_string (fun n => (n =? 2)%nat) (body_country b),
        optional_string (fun n => (n =? 3)%nat) (body_currency b) with
  | Some n, Some a, Some c, Some k => Some (storage.mkPatch n a c k)
  | _, _, _, _ => None
  end.

(** [insertBeneficiarySchema.partial().parse(body)] *)
Definition parse_partial_beneficiary (b : BeneficiaryBody)
  : M storage.BeneficiaryPatch :=
  match validate_partial_beneficiary b with
  | Some data => ret data
  | None => throw ZodError
  end.

(** A required [z.string()] with a check on its length. *)
Definition required_string (check : nat -> bool) (v : option Json) : option string :=
  match v with
  | Some (JString s) => if check (String.length s) then Some s else None
  | _ => None
  end.

(** [insertBeneficiarySchema]: the same four checks, every property
    required. *)
Definition validate_beneficiary (b : BeneficiaryBody)
  : option (string * string * string * string) :=
  match required_string (fun n => (2 <=? n)%nat) (body_name b),
        required_string (fun n => (5 <=? n)%nat) (body_accountNumber b),
        required_string (fun n => (n =? 2)%nat) (body_country b),
        required_string (fun n => (n =? 3)%nat) (body_currency b) with
  | Some n, Some a, Some c, Some k => Some (n, a, c, k)
  | _, _, _, _ => None
  end.

(** [insertBeneficiarySchema.parse(body)] *)
Definition parse_beneficiary (b : BeneficiaryBody)
  : M (string * string * string * string) :=
  match validate_beneficiary b with
  | Some data => ret data
  | None => throw ZodError
  end.

(** What [insertTransactionSchema.parse(body)] returns when it returns:
    the columns of [transactions] a client may send, all of them strings.
    The checks the schema derives from the columns are those of the schema
    generator; [sourceCurrency] is taken to be given. *)
Record InsertTransaction : Type := mkInsertTransaction {
  it_beneficiaryId : string;
  it_sourceAmount : string;
  it_sourceCurrency : string;
  it_targetAmount : string;
  it_targetCurrency : string;
  it_exchangeRate : string;
  it_baseFee : string;
  it_exchangeFee : string;
  it_totalFee : string;
  it_purpose : string
}.

(** The two checks [insertTransactionSchema] adds by hand: [sourceAmount]
    is a positive number, [purpose] is not empty. *)
Definition isNaN (x : number) : bool :=
  match x with
  | S754_nan => true
  | _ => false
  end.

Definition positive_amount (val : string) : bool :=
  negb (isNaN (StringToNumber val)) && gt (StringToNumber val) (lit 0 0).

(** ** Route handlers ([registerRoutes]) *)

(** [req.user], as [authenticateToken] leaves it. *)
Record AuthUser : Type := mkAuthUser {
  user_id : string;
  user_email : string;
  user_isAdmin : bool
}.

Variant Payload : Type :=
  | Message (message : string)
  | MessageError (message : string) (error : Exn)
  | BeneficiaryJson (b : option Beneficiary.t)
  | TransactionJson (t : Transaction.t)
  | TransactionsJson (l : list Transaction.t).

Record Reply : Type := mkReply {
  code : Z;
  json : Payload
}.

(** The answer of one of the other routes: a JSON document with its
    status code, or a refusal with a message, with the [message] of an
    exception, or with both. *)
Variant Response (A : Type) : Type :=
  | Sent (code : Z) (document : A)
  | Refused (code : Z) (message : string)
  | RefusedWith (code : Z) (error : Exn)
  | RefusedBecause (code : Z) (message : string) (error : Exn).
Arguments Sent {A} code document.
Arguments Refused {A} code message.
Arguments RefusedWith {A} code error.
Arguments RefusedBecause {A} code message error.

Definition status_of {A} (r : Response A) : Z :=
  match r with
  | Sent c _ | Refused c _ | RefusedWith c _ | RefusedBecause c _ _ => c
  end.

Record RatesDocument : Type := mkRatesDocument {
  doc_rates : RateTable;
  doc_lastUpdated : Z
}.

Record Conversion : Type := mkConversion {
  cv_sourceAmount : number;
  cv_sourceCurrency : string;
  cv_targetAmount : number;
  cv_targetCurrency : string;
  cv_exchangeRate : number;
  cv_fees : fxService.Fees;
  cv_totalCost : number
}.

Record DashboardStats : Type := mkDashboardStats {
  ds_totalSent : string;
  ds_transactionCount : nat;
  ds_beneficiaryCount : nat;
  ds_recentTransactions : list Transaction.t
}.

(** A parameter of the query string is missing when it is not there or
    empty. *)
Definition missing (q : option string) : bool :=
  match q with
  | Some s => String.eqb s ""
  | None => true
  end.

Module routes.

(** [PUT /api/beneficiaries/:id] *)
Definition putBeneficiary (user : AuthUser) (id : string) (body : BeneficiaryBody)
  : M Reply :=
  try_catch
    (let* beneficiaryData := parse_partial_beneficiary body in
     (* Verify beneficiary belongs to user *)
     let* existingBeneficiary := storage.getBeneficiaryById id in
     match existingBeneficiary with
     | Some existing =>
         if negb (String.eqb (Beneficiary.userId existing) (user_id user)) then
           ret (mkReply 404 (Message "Beneficiary not found"))
         else
           let* updatedBeneficiary := storage.updateBeneficiary id beneficiaryData in
           ret (mkReply 200 (BeneficiaryJson updatedBeneficiary))
     | None => ret (mkReply 404 (Message "Beneficiary not found"))
     end)
    (fun error =>
       ret (mkReply 400 (MessageError "Failed to update beneficiary" error))).

(** [DELETE /api/beneficiaries/:id] *)
Definition deleteBeneficiary (user : AuthUser) (id : string) : M Reply :=
  try_catch
    ((* Verify beneficiary belongs to user *)
     let* existingBeneficiary := storage.getBeneficiaryById id in
     match existingBeneficiary with
     | Some existing =>
         if negb (String.eqb (Beneficiary.userId existing) (user_id user)) then
           ret (mkReply 404 (Message "Beneficiary not found"))
         else
           let* deleted := storage.deleteBeneficiary id in
           if deleted then ret (mkReply 200 (Message "Beneficiary deleted successfully"))
           else ret (mkReply 404 (Message "Beneficiary not found"))
     | None => ret (mkReply 404 (Message "Beneficiary not found"))
     end)
    (fun error => ret (mkReply 500 (Message "Failed to delete beneficiary"))).

(** [GET /api/transactions] with [search] or [dateRange] in the query
    string, and without. *)
Definition getTransactions (user : AuthUser) (search dateRange : option string)
    (limit : option nat) : M Reply :=
  try_catch
    (let given (q : option string) :=
       match q with Some s => negb (String.eqb s "") | None => false end in
     let* transactions :=
       if given search || given dateRange then
         storage.searchTransactions (user_id user)
           (if given search then default "" search else "") dateRange
       else storage.getTransactionsByUserId (user_id user) limit in
     ret (mkReply 200 (TransactionsJson transactions)))
    (fun error => ret (mkReply 500 (Message "Failed to fetch transactions"))).

Definition known_statuses : list string :=
  ["pending"; "processing"; "completed"; "failed"].

(** [PUT /api/admin/transactions/:id/status], behind [requireAdmin] *)
Definition putTransactionStatus (user : AuthUser) (id status : string)
    (adminNotes : option string) : M Reply :=
  if negb (user_isAdmin user) then
    ret (mkReply 403 (Message "Admin access required"))
  else
    try_catch
      (if negb (existsb (String.eqb status) known_statuses) then
         ret (mkReply 400 (Message "Invalid status"))
       else
         let* transaction := storage.updateTransactionStatus id status adminNotes in
         match transaction with
         | Some t => ret (mkReply 200 (TransactionJson t))
         | None => ret (mkReply 404 (Message "Transaction not found"))
         end)
      (fun error => ret (mkReply 500 (Message "Failed to update transaction status"))).

(** [requireAdmin] in front of a handler *)
Definition requireAdmin {A} (user : AuthUser) (next : M (Response A))
  : M (Response A) :=
  if negb (user_isAdmin user) then ret (Refused 403 "Admin access required")
  else next.

(** [GET /api/fx/rates] *)
Definition getFxRates : M (Response RatesDocument) :=
  try_catch
    (let* rates := fxService.getCurrentRates "USD" in
     let* now := new_Date in
     ret (Sent 200 (mkRatesDocument rates now)))
    (fun error => ret (Refused 500 "Failed to fetch exchange rates")).

(** [GET /api/fx/convert?amount=..&from=..&to=..] *)
Definition getFxConvert (amount from to : option string) : M (Response Conversion) :=
  try_catch
    (if missing amount || missing from || missing to then
       ret (Refused 400 "Missing required parameters: amount, from, to")
     else
       let amount := StringToNumber (default "" amount) in
       let from := default "" from in
       let to := default "" to in
       let* convertedAmount := fxService.convertAmount amount from to in
       let* exchangeRate := fxService.getExchangeRate from to in
       let fees := fxService.calculateFees amount in
       ret (Sent 200
              (mkConversion amount from convertedAmount to exchangeRate fees
                 (add amount (fxService.totalFee fees)))))
    (fun error => ret (RefusedWith 400 error)).

(** [GET /api/beneficiaries] *)
Definition getBeneficiaries (user : AuthUser) : M (Response (list Beneficiary.t)) :=
  try_catch
    (let* beneficiaries := storage.getBeneficiariesByUserId (user_id user) in
     ret (Sent 200 beneficiaries))
    (fun error => ret (Refused 500 "Failed to fetch beneficiaries")).

(** [POST /api/beneficiaries] *)
Definition postBeneficiary (user : AuthUser) (body : BeneficiaryBody)
  : M (Response Beneficiary.t) :=
  try_catch
    (let* beneficiaryData := parse_beneficiary body in
     let '(name, accountNumber, country, currency) := beneficiaryData in
     let* beneficiary :=
       storage.createBeneficiary
         (storage.mkNewBeneficiary name accountNumber country currency
                                   (user_id user)) in
     ret (Sent 201 beneficiary))
    (fun error => ret (RefusedBecause 400 "Failed to create beneficiary" error)).


(** [POST /api/transactions]; [parsed] is what
    [insertTransactionSchema.parse(req.body)] returns, [None] when it
    throws. *)
Definition postTransaction (user : AuthUser) (parsed : option InsertTransaction)
  : M (Response Transaction.t) :=
  try_catch
    (let* transactionData :=
       match parsed with
       | Some data => ret data
       | None => throw ZodError
       end in
     (* Verify beneficiary belongs to user *)
     let* beneficiary := storage.getBeneficiaryById (it_beneficiaryId transactionData) in
     match beneficiary with
     | Some b =>
         if negb (String.eqb (Beneficiary.userId b) (user_id user)) then
           ret (Refused 400 "Invalid beneficiary")
         else
           (* Get exchange rate and calculate amounts *)
           let currency :=
             if String.eqb (Beneficiary.currency b) "" then "USD"
             else Beneficiary.currency b in
           let sourceAmount := StringToNumber (it_sourceAmount transactionData) in
           let* exchangeRate :=
             fxService.getExchangeRate (it_sourceCurrency transactionData) currency in
           let* targetAmount :=
             fxService.convertAmount sourceAmount
               (it_sourceCurrency transactionData) currency in
           let fees := fxService.calculateFees sourceAmount in
           let* transaction :=
             storage.createTransaction
               (storage.mkNew (user_id user)
                  (it_beneficiaryId transactionData)
                  (it_sourceAmount transactionData)
                  (it_sourceCurrency transactionData)
                  (JsString.toString targetAmount)
                  (Beneficiary.currency b)
                  (JsString.toString exchangeRate)
                  (JsString.toString (fxService.baseFee fees))
                  (JsString.toString (fxService.exchangeFee fees))
                  (JsString.toString (fxService.totalFee fees))
                  (it_purpose transactionData)) in
           ret (Sent 201 transaction)
     | None => ret (Refused 400 "Invalid beneficiary")
     end)
    (fun error => ret (RefusedBecause 400 "Failed to create transaction" error)).

(** [GET /api/dashboard/stats] *)
Definition getDashboardStats (user : AuthUser) : M (Response DashboardStats) :=
  try_catch
    (let* transactions := storage.getTransactionsByUserId (user_id user) None in
     let* beneficiaries := storage.getBeneficiariesByUserId (user_id user) in
     let totalSent :=
       fold_left
         (fun sum t => add sum (StringToNumber (Transaction.sourceAmount t)))
         (filter (fun t => String.eqb (Transaction.status t) "completed") transactions)
         (lit 0 0) in
     ret (Sent 200
            (mkDashboardStats (JsString.toFixed totalSent) (length transactions)
               (length beneficiaries) (firstn 5 transactions))))
    (fun error => ret (Refused 500 "Failed to fetch dashboard stats")).

(** [GET /api/admin/transactions] *)
Definition getAdminTransactions (user : AuthUser) (limit : option nat)
  : M (Response (list Transaction.t)) :=
  requireAdmin user
    (try_catch
       (let* transactions := storage.getAllTransactions limit in
        ret (Sent 200 transactions))
       (fun error => ret (Refused 500 "Failed to fetch transactions"))).

End routes.

(** * Vocabulary of the properties, and the worlds of the examples *)


(** The first row is one with the greatest key. *)
Definition head_is_greatest {A} (key : A -> Z) (l : list A) : Prop :=
  match l with
  | [] => True
  | h :: r => forall y, In y r -> key y <= key h
  end.

(** The row [getLatestFxRates] answers with. *)
Definition latestFxRow (d : Db) : option FxRate.t :=
  first_row (firstn 1 (orderByDesc FxRate.lastUpdated (fxRates d))).

(** The cache holds a row younger than fifteen minutes. *)
Definition cache_fresh (w : World) : bool :=
  match latestFxRow (db w) with
  | Some c => clock w - FxRate.lastUpdated c <? fxService.cacheDuration
  | None => false
  end.

Definition rates_url (baseCurrency : string) : string :=
  fxService.baseUrl +:+ "/" +:+ baseCurrency.

(** The outcomes of the provider request on which [getCurrentRates]
    throws inside its [try] block: no response, a status that is not
    [ok], a body that cannot be read, and the guard
    [!data.success && data.rates]. *)
Definition fetch_throws (o : FetchOutcome) : bool :=
  match o with
  | NetworkFailure => true
  | Responded r =>
      negb (ok r) ||
      match body r with
      | NotJson | JsonNull => true
      | JsonData success rates => negb success && bool_decide (is_Some rates)
      end
  end.


(** What the [catch] block answers with. *)
Definition cached_or_fallback (d : Db) : RateTable :=
  match latestFxRow d with
  | Some c => FxRate.rates c
  | None => fxService.getFallbackRates
  end.

(** A world with an empty cache and a provider that cannot be reached. *)
Definition offline_world : World :=
  mkWorld (mkDb [] [] []) 1700000000000 1672531200000
          (fun _ => NetworkFailure) (fun _ => "00000000-0000-4000-8000-000000000000")
          0 [].

(** A world whose fresh cache holds the table [{ EUR: 0 }]. *)
Definition zero_rate_world : World :=
  mkWorld
    (mkDb [] []
       [FxRate.mk "7d1c8f3a-0000-4000-8000-000000000001" "USD"
                  {[ "EUR" := lit 0 0 ]} 1700000000000])
    1700000060000 1672531200000
    (fun _ => NetworkFailure) (fun _ => "00000000-0000-4000-8000-000000000000")
    0 [].

(** A world whose cache holds the table [{ EUR: 0.9 }], fifteen minutes
    old, and whose provider answers every request in the given way. *)
Definition stale_world (answer : FetchOutcome) : World :=
  mkWorld
    (mkDb [] []
       [FxRate.mk "7d1c8f3a-0000-4000-8000-000000000001" "USD"
                  {[ "EUR" := lit 9 1 ]} 1700000000000])
    1700000900000 1672531200000
    (fun _ => answer) (fun _ => "7d1c8f3a-0000-4000-8000-000000000002")
    0 [].

(** The rows of [transactions] after [UPDATE ... WHERE id = ...]. *)
Definition rows_after_update (id status : string) (adminNotes : option string)
    (w : World) : list Transaction.t :=
  map (fun t => if String.eqb (Transaction.id t) id
                then storage.set_status status adminNotes (clock w) t else t)
      (transactions (db w)).



Definition an_admin : AuthUser := mkAuthUser "admin-1" "admin@example.com" true.

Definition alice : Beneficiary.t :=
  Beneficiary.mk "ben-1" "user-1" "Alice Martin" "ES9121000418" "ES" "EUR"
                 1600000000000 1600000000000.

(** A transfer to Alice made yesterday and one made two hundred days
    ago. *)
Definition recent_transfer : Transaction.t :=
  Transaction.mk "tx-recent" "user-1" "ben-1" "200.00" "USD" "170.00" "EUR"
    "0.85" "4.99" "1" "5.99" "rent" "completed" false None
    (1700000000000 - 1 * 24 * 60 * 60 * 1000)
    (1700000000000 - 1 * 24 * 60 * 60 * 1000).

Definition old_transfer : Transaction.t :=
  Transaction.mk "tx-old" "user-1" "ben-1" "50.00" "USD" "42.50" "EUR"
    "0.85" "4.99" "0.25" "5.24" "gift" "completed" false None
    (1700000000000 - 200 * 24 * 60 * 60 * 1000)
    (1700000000000 - 200 * 24 * 60 * 60 * 1000).

Definition history_world : World :=
  mkWorld (mkDb [alice] [old_transfer; recent_transfer] [])
          1700000000000 1672531200000
          (fun _ => NetworkFailure) (fun _ => "00000000-0000-4000-8000-000000000000")
          0 [].

(** The row [getBeneficiaryById] answers with. *)
Definition target (d : Db) (id : string) : option Beneficiary.t :=
  first_row (filter (fun b => String.eqb (Beneficiary.id b) id) (beneficiaries d)).

(** The target does not exist, or belongs to someone else. *)
Definition not_the_callers (user : AuthUser) (o : option Beneficiary.t) : Prop :=
  match o with
  | Some b => Beneficiary.userId b <> user_id user
  | None => True
  end.

Definition not_found : Reply := mkReply 404 (Message "Beneficiary not found").

(** Alice is a beneficiary of [user-1]; the caller is [user-2]. *)
Definition registry_world : World :=
  mkWorld (mkDb [alice] [] [])
          1700000000000 1672531200000
          (fun _ => NetworkFailure) (fun _ => "00000000-0000-4000-8000-000000000000")
          0 [].

Definition another_user : AuthUser := mkAuthUser "user-2" "u2@example.com" false.

(** Rows in descending order of their key. *)
Definition descending {A} (key : A -> Z) (l : list A) : Prop :=
  StronglySorted (fun a b => key b <= key a) l.

(** [eq(transactions.userId, userId)] *)
Definition owned_by (userId : string) (t : Transaction.t) : bool :=
  String.eqb (Transaction.userId t) userId.

(** The columns of a transaction that are fixed when it is created. *)
Definition frozen (t : Transaction.t) :=
  (Transaction.id t, Transaction.userId t, Transaction.beneficiaryId t,
   Transaction.sourceAmount t, Transaction.sourceCurrency t,
   Transaction.targetAmount t, Transaction.targetCurrency t,
   Transaction.exchangeRate t, Transaction.baseFee t, Transaction.exchangeFee t,
   Transaction.totalFee t, Transaction.purpose t, Transaction.isHighRisk t,
   Transaction.createdAt t).


(** The columns of a beneficiary an update leaves alone. *)
Definition identity_of (b : Beneficiary.t) :=
  (Beneficiary.id b, Beneficiary.userId b, Beneficiary.createdAt b).

(** The four checks of [insertBeneficiarySchema], on a stored row. *)
Definition well_formed (b : Beneficiary.t) : bool :=
  (2 <=? String.length (Beneficiary.name b))%nat
  && (5 <=? String.length (Beneficiary.accountNumber b))%nat
  && (String.length (Beneficiary.country b) =? 2)%nat
  && (String.length (Beneficiary.currency b) =? 3)%nat.

Definition a_principal (id : string) : AuthUser := mkAuthUser id "" false.

(** The row [createTransaction] inserts. *)
Definition created_row (tx : storage.NewTransaction) (w : World) : Transaction.t :=
  Transaction.mk (uuids w (issued w)) (storage.n_userId tx)
    (storage.n_beneficiaryId tx) (storage.n_sourceAmount tx)
    (storage.n_sourceCurrency tx) (storage.n_targetAmount tx)
    (storage.n_targetCurrency tx) (storage.n_exchangeRate tx)
    (storage.n_baseFee tx) (storage.n_exchangeFee tx) (storage.n_totalFee tx)
    (storage.n_purpose tx)
    (if gt (StringToNumber (storage.n_sourceAmount tx)) (lit 10000 0)
     then "pending" else "completed")
    (gt (StringToNumber (storage.n_sourceAmount tx)) (lit 10000 0))
    None (clock w) (clock w).

(** The rows of [beneficiaries] after [UPDATE ... WHERE id = ...]. *)
Definition patched_rows (id : string) (data : storage.BeneficiaryPatch) (w : World)
  : list Beneficiary.t :=
  map (fun b => if String.eqb (Beneficiary.id b) id
                then storage.apply_patch data (clock w) b else b)
      (beneficiaries (db w)).

(** The world after [updateBeneficiary], and after [deleteBeneficiary],
    both following the lookup of the ownership check. *)
Definition after_update (id : string) (data : storage.BeneficiaryPatch) (w : World)
  : World :=
  with_db (mkDb (patched_rows id data w) (transactions (db w)) (fxRates (db w)))
          (with_event (Update TBeneficiaries) (with_event (Select TBeneficiaries) w)).

Definition after_delete (id : string) (w : World) : World :=
  with_db (mkDb (filter (fun b => negb (String.eqb (Beneficiary.id b) id))
                        (beneficiaries (db w)))
                (transactions (db w)) (fxRates (db w)))
          (with_event (Delete TBeneficiaries) (with_event (Select TBeneficiaries) w)).

(** The world after [fetch], and after a table was written to the cache. *)
Definition requested (baseCurrency : string) (w : World) : World :=
  with_event (HttpGet (rates_url baseCurrency)) w.

Definition cached (table : RateTable) (w : World) : World :=
  with_db (mkDb (beneficiaries (db w)) (transactions (db w))
                (fxRates (db w) ++ [FxRate.mk (uuids w (issued w)) "USD" table (clock w)]))
          (with_issued (S (issued w)) (with_event (Insert TFxRates) w)).

(** What [getCurrentRates] makes of the answer of the provider when it
    does not throw. *)
Definition fetched_table (o : FetchOutcome) : RateTable :=
  match o with
  | Responded r =>
      match body r with
      | JsonData _ (Some table) => table
      | _ => fxService.getFallbackRates
      end
  | NetworkFailure => fxService.getFallbackRates
  end.

(** Two worlds with the same clock, provider and tables of beneficiaries
    and transactions. *)
Definition same_surroundings (w w' : World) : Prop :=
  clock w' = clock w /\ startOfYear w' = startOfYear w /\
  network w' = network w /\ uuids w' = uuids w /\
  beneficiaries (db w') = beneficiaries (db w) /\
  transactions (db w') = transactions (db w).

(** The table [getCurrentRates] returns and the world it leaves. *)
Definition current_table (baseCurrency : string) (w : World) : RateTable :=
  if cache_fresh w then cached_or_fallback (db w)
  else if fetch_throws (network w (rates_url baseCurrency)) then
    cached_or_fallback (db w)
  else fetched_table (network w (rates_url baseCurrency)).

Definition after_rates (baseCurrency : string) (w : World) : World :=
  if cache_fresh w then with_event (Select TFxRates) w
  else if fetch_throws (network w (rates_url baseCurrency)) then
    with_event (Select TFxRates)
      (requested baseCurrency (with_event (Select TFxRates) w))
  else
    cached (fetched_table (network w (rates_url baseCurrency)))
           (requested baseCurrency (with_event (Select TFxRates) w)).

(** The rate [getExchangeRate] finds for two different currencies, if it
    finds one. *)
Definition quoted_rate (fromCurrency toCurrency : string) (w : World) : option number :=
  match current_table fromCurrency w !! toCurrency with
  | Some rate => if truthy rate then Some rate else None
  | None => None
  end.

(** What [POST /api/transactions] hands to [createTransaction]: the
    caller, four columns of the request, the currency of the beneficiary
    and the prices computed from the rate. *)
Definition priced_transaction (user : AuthUser) (data : InsertTransaction)
    (b : Beneficiary.t) (rate : number) : storage.NewTransaction :=
  let sourceAmount := StringToNumber (it_sourceAmount data) in
  let fees := fxService.calculateFees sourceAmount in
  storage.mkNew (user_id user) (it_beneficiaryId data) (it_sourceAmount data)
    (it_sourceCurrency data)
    (JsString.toString (toFixed2 (mul sourceAmount rate)))
    (Beneficiary.currency b)
    (JsString.toString rate)
    (JsString.toString (fxService.baseFee fees))
    (JsString.toString (fxService.exchangeFee fees))
    (JsString.toString (fxService.totalFee fees))
    (it_purpose data).

(** The world after [createTransaction]. *)
Definition after_create (tx : storage.NewTransaction) (w : World) : World :=
  with_db (mkDb (beneficiaries (db w))
                (transactions (db w) ++ [created_row tx w])
                (fxRates (db w)))
          (with_issued (S (issued w)) (with_event (Insert TTransactions) w)).

(** [beneficiary.currency || 'USD'] *)
Definition payout_currency (b : Beneficiary.t) : string :=
  if String.eqb (Beneficiary.currency b) "" then "USD" else Beneficiary.currency b.

(** The columns of a request to create a transaction that the server
    reads. *)
Definition request_of (data : InsertTransaction) :=
  (it_beneficiaryId data, it_sourceAmount data, it_sourceCurrency data,
   it_purpose data).

(** A character that stands for itself in a [LIKE] pattern. *)
Definition plain (c : ascii) : bool :=
  negb (Ascii.eqb c "%") && negb (Ascii.eqb c "_") && negb (Ascii.eqb c "\").

(** The text [ILIKE] compares: the characters of a string, letters in
    lower case. *)
Definition lowered (s : string) : list ascii := map lower (list_ascii_of_string s).


(** The [dateThreshold] of a search by date range. *)
Definition date_threshold (range : string) (w : World) : Z :=
  if String.eqb range "30days" then clock w - 30 * 24 * 60 * 60 * 1000
  else if String.eqb range "90days" then clock w - 90 * 24 * 60 * 60 * 1000
  else if String.eqb range "year" then startOfYear w
  else 0.

(** The rows a search answers with. *)
Definition found (userId query : string) (dateRange : option string) (w : World)
  : list Transaction.t :=
  match fst (storage.searchTransactions userId query dateRange w) with
  | Returned rows => rows
  | Thrown _ => []
  end.

(** A decimal digit, and the number a run of decimal digits denotes after
    the digits read so far. *)
Definition is_digit (c : ascii) : bool :=
  match digit_value 10 c with
  | Some _ => true
  | None => false
  end.

Definition digits_value (acc : N) (cs : list ascii) : N :=
  fold_left (fun a c => (a * 10 + (N_of_ascii c - 48))%N) cs acc.

(** [toFixed(2)] prints digits below [10^21] and for what is not a
    finite number its name. *)
Definition below_1e21 (x : number) : bool :=
  match x with
  | S754_finite _ m e => negb (value_ge m e (10 ^ 21))
  | _ => true
  end.

(** A currency code: three capital letters.  No such string names a
    member of [Object.prototype], so for these keys [rates[key]] reads an
    own property of the table or finds nothing. *)
Definition is_capital (c : ascii) : bool :=
  let n := nat_of_ascii c in ((65 <=? n)%nat && (n <=? 90)%nat)%bool.

Definition currency_code (s : string) : bool :=
  ((String.length s =? 3)%nat && forallb is_capital (list_ascii_of_string s))%bool.

(** The names of the members of [Object.prototype]. *)
Definition Object_prototype_names : list string :=
  ["constructor"; "__proto__"; "hasOwnProperty"; "isPrototypeOf";
   "propertyIsEnumerable"; "toLocaleString"; "toString"; "valueOf";
   "__defineGetter__"; "__defineSetter__"; "__lookupGetter__";
   "__lookupSetter__"].

(** The text PostgreSQL prints a [uuid] as: 32 hexadecimal digits in lower
    case, in groups of 8, 4, 4, 4 and 12 separated by hyphens.  Stored
    identifiers have this form, so for an identifier of this form the
    comparison [eq(table.id, id)] is the comparison of the two texts. *)
Definition is_lower_hex (c : ascii) : bool :=
  let n := nat_of_ascii c in
  (((48 <=? n)%nat && (n <=? 57)%nat) || ((97 <=? n)%nat && (n <=? 102)%nat))%bool.

Definition canonical_uuid (s : string) : bool :=
  let cs := list_ascii_of_string s in
  ((length cs =? 36)%nat
   && forallb
        (fun ic : nat * ascii =>
           if existsb (Nat.eqb (fst ic)) [8; 13; 18; 23]%nat
           then Ascii.eqb (snd ic) "-"
           else is_lower_hex (snd ic))
        (combine (seq 0 36) cs))%bool.

(** A registry whose identifiers are UUIDs: Dana is a beneficiary of one
    user, and another user who owns nothing. *)
Definition dana : Beneficiary.t :=
  Beneficiary.mk "5b2c7a10-3f4e-4d6a-9c1b-2e8f0a1d4c77"
    "0c9e4f52-7a1b-4c3d-8e2f-6b5a4d3c2b1a" "Dana Okafor" "NG4521000418" "NG"
    "NGN" 1600000000000 1600000000000.

Definition danas_owner : AuthUser :=
  mkAuthUser "0c9e4f52-7a1b-4c3d-8e2f-6b5a4d3c2b1a" "owner@example.com" false.

Definition a_stranger : AuthUser :=
  mkAuthUser "7d3a1e90-5b2c-4f6a-8d1e-9c0b7a6f5e4d" "stranger@example.com" false.

Definition uuid_registry_world : World :=
  mkWorld (mkDb [dana] [] [])
          1700000000000 1672531200000
          (fun _ => NetworkFailure) (fun _ => "00000000-0000-4000-8000-000000000000")
          0 [].

(** An identifier no row of the examples has. *)
Definition unknown_id : string := "9e8d7c6b-5a49-4382-b716-05f4e3d2c1b0".

(** The number of hundredths [x.toFixed(2)] prints for a finite [x]
    below [10^21]: [cents 5.02] is [502]. *)
Definition cents (x : number) : Z :=
  match x with
  | S754_finite s m e => if s then - nearest_cents m e else nearest_cents m e
  | _ => 0
  end.

(** * Properties *)

(** ** Fees and rounding *)

Section Fees.

Import fxService.

(** Below [10^21] the rounding of [toFixed(2)] picks the number of
    hundredths nearest to the exact value [m * 2^e] of the double, the
    larger one at a tie: with [e = -k], the distance [n - 100 * m / 2^k]
    lies in the interval from [-1/2] (excluded) to [1/2] (included). *)
Lemma nearest_cents_fraction (m k : positive) :
  let n := nearest_cents m (Zneg k) in
  - 2 ^ Zpos k < 2 ^ (Zpos k + 1) * n - 200 * Zpos m <= 2 ^ Zpos k.
Proof.
  cbn zeta. unfold nearest_cents.
  assert (Hk : 0 < 2 ^ Zpos k) by (apply Z.pow_pos_nonneg; lia).
  assert (Hp : 2 ^ (Zpos k + 1) = 2 * 2 ^ Zpos k)
    by (rewrite Z.pow_add_r by lia; change (2 ^ 1) with 2; lia).
  rewrite Hp.
  pose proof (Z.div_mod (200 * Zpos m + 2 ^ Zpos k) (2 * 2 ^ Zpos k)) as Hdm.
  pose proof (Z.mod_pos_bound (200 * Zpos m + 2 ^ Zpos k) (2 * 2 ^ Zpos k)) as Hb.
  lia.
Qed.

Lemma nearest_cents_integer (m : positive) (e : Z) :
  0 <= e -> nearest_cents m e = 100 * (Zpos m * 2 ^ e).
Proof. destruct e; [reflexivity | reflexivity | lia]. Qed.

Lemma toFixed2_finite (s : bool) (m : positive) (e : Z) :
  value_ge m e (10 ^ 21) = false ->
  toFixed2 (S754_finite s m e) =
  of_decimal s (Z.to_N (nearest_cents m e)) (-2).
Proof. intros H. unfold toFixed2. now rewrite H. Qed.

(** ** Rounding to the nearest double, and to hundredths *)

Ltac pow2 :=
  first [lia | apply Z.pow_pos_nonneg; lia | apply Z.pow_nonzero; lia
        | apply Z.lt_le_incl, Z.pow_pos_nonneg; lia].

Lemma digits2_pos_bounds (p : positive) :
  2 ^ (Zpos (digits2_pos p) - 1) <= Zpos p < 2 ^ Zpos (digits2_pos p).
Proof.
  assert (Hstep : forall d, 0 < d ->
             2 ^ (Z.succ d - 1) = 2 * 2 ^ (d - 1) /\ 2 ^ Z.succ d = 2 * 2 ^ d).
  { intros d Hd. split.
    - replace (Z.succ d - 1) with (Z.succ (d - 1)) by lia.
      apply Z.pow_succ_r. lia.
    - apply Z.pow_succ_r. lia. }
  induction p as [p IH | p IH |].
  - change (digits2_pos p~1) with (Pos.succ (digits2_pos p)).
    rewrite Pos2Z.inj_succ, Pos2Z.inj_xI.
    destruct (Hstep (Zpos (digits2_pos p)) ltac:(lia)) as [E1 E2]; rewrite E1, E2; lia.
  - change (digits2_pos p~0) with (Pos.succ (digits2_pos p)).
    rewrite Pos2Z.inj_succ. change (Zpos p~0) with (2 * Zpos p).
    destruct (Hstep (Zpos (digits2_pos p)) ltac:(lia)) as [E1 E2]; rewrite E1, E2; lia.
  - cbn. lia.
Qed.

Lemma Zdigits2_bounds (m : Z) :
  0 < m -> 0 < Zdigits2 m /\ 2 ^ (Zdigits2 m - 1) <= m < 2 ^ Zdigits2 m.
Proof.
  destruct m as [| p | p]; try lia. intros _. cbn [Zdigits2].
  split; [lia | apply digits2_pos_bounds].
Qed.

Lemma Zdigits2_unique (m d : Z) :
  0 < d -> 2 ^ (d - 1) <= m < 2 ^ d -> Zdigits2 m = d.
Proof.
  intros Hd Hm.
  assert (Hpos : 0 < m).
  { assert (0 < 2 ^ (d - 1)) by (apply Z.pow_pos_nonneg; lia). lia. }
  destruct (Zdigits2_bounds m Hpos) as (Hd' & Hlo & Hhi).
  destruct (Z.lt_trichotomy (Zdigits2 m) d) as [Hlt | [Heq | Hgt]]; [| exact Heq |].
  - assert (2 ^ Zdigits2 m <= 2 ^ (d - 1)) by (apply Z.pow_le_mono_r; lia). lia.
  - assert (2 ^ d <= 2 ^ (Zdigits2 m - 1)) by (apply Z.pow_le_mono_r; lia). lia.
Qed.

Lemma shr_1_m (mrs : shr_record) :
  0 <= shr_m mrs -> shr_m (shr_1 mrs) = shr_m mrs / 2.
Proof.
  destruct mrs as [m r s]. cbn [shr_m]. intros Hm.
  destruct m as [| [p | p |] | p]; cbn [shr_1 shr_m];
    Z.to_euclidean_division_equations; lia.
Qed.

Lemma iter_pos_shr_1_m (p : positive) (mrs : shr_record) :
  0 <= shr_m mrs ->
  shr_m (SpecFloat.iter_pos shr_1 p mrs) = shr_m mrs / 2 ^ Zpos p.
Proof.
  revert mrs. induction p as [p IH | p IH |]; intros mrs Hm; cbn [SpecFloat.iter_pos].
  - assert (H1 : 0 <= shr_m (shr_1 mrs))
      by (rewrite shr_1_m by exact Hm; apply Z.div_pos; lia).
    assert (H2 : 0 <= shr_m (SpecFloat.iter_pos shr_1 p (shr_1 mrs)))
      by (rewrite IH by exact H1; apply Z.div_pos; [exact H1 | apply Z.pow_pos_nonneg; lia]).
    rewrite IH by exact H2. rewrite IH by exact H1. rewrite shr_1_m by exact Hm.
    rewrite !Z.div_div by pow2.
    f_equal. rewrite <- Z.pow_add_r by lia. rewrite <- (Z.pow_1_r 2) at 1.
    rewrite <- Z.pow_add_r by lia. f_equal. lia.
  - assert (H2 : 0 <= shr_m (SpecFloat.iter_pos shr_1 p mrs))
      by (rewrite IH by exact Hm; apply Z.div_pos; [exact Hm | apply Z.pow_pos_nonneg; lia]).
    rewrite IH by exact H2. rewrite IH by exact Hm.
    rewrite Z.div_div by pow2.
    f_equal. rewrite <- Z.pow_add_r by lia. f_equal. lia.
  - rewrite shr_1_m by exact Hm. reflexivity.
Qed.

Lemma shr_record_of_loc_m (m : Z) (l : location) : shr_m (shr_record_of_loc m l) = m.
Proof. destruct l as [| []]; reflexivity. Qed.

Lemma shr_fexp_spec (m e : Z) (l : location) :
  0 <= m ->
  let k := Z.max 0 (fexp prec emax (Zdigits2 m + e) - e) in
  snd (shr_fexp prec emax m e l) = e + k /\
  shr_m (fst (shr_fexp prec emax m e l)) = m / 2 ^ k.
Proof.
  intros Hm. cbn zeta. unfold shr_fexp, shr.
  destruct (fexp prec emax (Zdigits2 m + e) - e) as [| p | p] eqn:E; cbn [fst snd].
  - rewrite shr_record_of_loc_m. change (Z.max 0 0) with 0.
    rewrite Z.add_0_r, Z.pow_0_r, Z.div_1_r. auto.
  - rewrite iter_pos_shr_1_m by (rewrite shr_record_of_loc_m; exact Hm).
    rewrite shr_record_of_loc_m. replace (Z.max 0 (Zpos p)) with (Zpos p) by lia. auto.
  - rewrite shr_record_of_loc_m. replace (Z.max 0 (Zneg p)) with 0 by lia.
    rewrite Z.add_0_r, Z.pow_0_r, Z.div_1_r. auto.
Qed.

Lemma round_nearest_even_bounds (m : Z) (l : location) :
  m <= round_nearest_even m l <= m + 1.
Proof.
  unfold round_nearest_even. destruct l as [| []]; try lia.
  destruct (Z.even m); lia.
Qed.

Lemma binary_round_aux_spec (mx ex : Z) (lx : location) :
  0 <= mx ->
  let k1 := Z.max 0 (fexp prec emax (Zdigits2 mx + ex) - ex) in
  exists m1,
    mx / 2 ^ k1 <= m1 <= mx / 2 ^ k1 + 1 /\
    let k2 := Z.max 0 (fexp prec emax (Zdigits2 m1 + (ex + k1)) - (ex + k1)) in
    binary_round_aux prec emax false mx ex lx =
      match m1 / 2 ^ k2 with
      | Z0 => S754_zero false
      | Zpos m =>
          if ex + k1 + k2 <=? emax - prec
          then S754_finite false m (ex + k1 + k2)
          else S754_infinity false
      | Zneg _ => S754_nan
      end.
Proof.
  intros Hm. cbn zeta. unfold binary_round_aux.
  destruct (shr_fexp_spec mx ex lx Hm) as (He1 & Hm0).
  destruct (shr_fexp prec emax mx ex lx) as [mrs' e'] eqn:E1. cbn [fst snd] in He1, Hm0.
  set (m1 := round_nearest_even (shr_m mrs') (loc_of_shr_record mrs')).
  pose proof (round_nearest_even_bounds (shr_m mrs') (loc_of_shr_record mrs')) as Hr.
  fold m1 in Hr. rewrite Hm0 in Hr.
  assert (Hm1 : 0 <= m1).
  { assert (0 <= mx / 2 ^ Z.max 0 (fexp prec emax (Zdigits2 mx + ex) - ex))
      by (apply Z.div_pos; [exact Hm | apply Z.pow_pos_nonneg; lia]). lia. }
  exists m1. split; [exact Hr |].
  destruct (shr_fexp_spec m1 e' loc_Exact Hm1) as (He2 & Hm2).
  destruct (shr_fexp prec emax m1 e' loc_Exact) as [mrs'' e''] eqn:E2.
  cbn [fst snd] in He2, Hm2. subst e'. rewrite Hm2, He2.
  rewrite Z.add_assoc. reflexivity.
Qed.

Lemma pow2_split (a b : Z) : 0 <= a -> 0 <= b -> 2 ^ (a + b) = 2 ^ a * 2 ^ b.
Proof. intros. apply Z.pow_add_r; lia. Qed.

(** Rounding a mantissa of at least 53 bits, away from the ends of the
    exponent range: the result is finite, its exponent is larger by the
    number of bits dropped, and it is off by at most one unit of its last
    place. *)
Lemma binary_round_aux_normal (mx ex : Z) (lx : location) :
  2 ^ 52 <= mx -> -1074 <= ex -> Zdigits2 mx + ex <= 1000 ->
  exists m K,
    binary_round_aux prec emax false mx ex lx = S754_finite false m (ex + K) /\
    Zdigits2 mx - 53 <= K <= Zdigits2 mx - 52 /\
    Zpos m <= 2 ^ 53 /\
    Z.abs (Zpos m * 2 ^ K - mx) <= 2 ^ K.
Proof.
  intros Hlow Hex Hhigh.
  assert (Hpos : 0 < mx) by (assert (0 < 2 ^ 52) by reflexivity; lia).
  destruct (Zdigits2_bounds mx Hpos) as (HD & Hlo & Hhi).
  set (D := Zdigits2 mx) in *.
  assert (HD53 : 53 <= D).
  { destruct (Z.lt_ge_cases D 53) as [Hlt | Hge]; [| exact Hge].
    assert (2 ^ D <= 2 ^ 52) by (apply Z.pow_le_mono_r; lia). lia. }
  destruct (binary_round_aux_spec mx ex lx (Z.lt_le_incl _ _ Hpos)) as (m1 & Hm1 & Hrun).
  cbn zeta in Hrun. fold D in Hm1, Hrun.
  assert (Hk1 : Z.max 0 (fexp prec emax (D + ex) - ex) = D - 53)
    by (unfold fexp, emin, prec, emax; lia).
  rewrite Hk1 in Hm1, Hrun.
  set (P := 2 ^ (D - 53)) in *.
  assert (HP : 0 < P) by (apply Z.pow_pos_nonneg; lia).
  assert (HloP : 2 ^ (D - 1) = 2 ^ 52 * P).
  { unfold P. rewrite <- pow2_split by lia. f_equal. lia. }
  assert (HhiP : 2 ^ D = 2 ^ 53 * P).
  { unfold P. rewrite <- pow2_split by lia. f_equal. lia. }
  pose proof (Z.div_mod mx P ltac:(lia)) as Hdm.
  pose proof (Z.mod_pos_bound mx P HP) as Hmod.
  set (m0 := mx / P) in *. set (r := mx mod P) in *.
  assert (Hm0 : 2 ^ 52 <= m0 < 2 ^ 53) by nia.
  assert (Hcases : m1 < 2 ^ 53 \/ m1 = 2 ^ 53) by lia.
  assert (Hm1P : Z.abs (m1 * P - mx) <= P) by nia.
  destruct Hcases as [Hlt | Heq].
  - assert (Hd1 : Zdigits2 m1 = 53) by (apply Zdigits2_unique; [lia |]; cbn; lia).
    rewrite Hd1 in Hrun.
    assert (Hk2 : Z.max 0 (fexp prec emax (53 + (ex + (D - 53))) - (ex + (D - 53))) = 0)
      by (unfold fexp, emin, prec, emax; lia).
    rewrite Hk2, Z.pow_0_r, Z.div_1_r in Hrun.
    destruct m1 as [| m |]; try lia.
    exists m, (D - 53).
    assert (Hle : (ex + (D - 53) + 0 <=? emax - prec) = true)
      by (apply Z.leb_le; unfold prec, emax; lia).
    rewrite Hle, Z.add_0_r in Hrun.
    split; [exact Hrun |]. split; [lia |]. split; [lia |]. exact Hm1P.
  - assert (Hd1 : Zdigits2 m1 = 54) by (rewrite Heq; reflexivity).
    rewrite Hd1 in Hrun.
    assert (Hk2 : Z.max 0 (fexp prec emax (54 + (ex + (D - 53))) - (ex + (D - 53))) = 1)
      by (unfold fexp, emin, prec, emax; lia).
    rewrite Hk2, Heq in Hrun. change (2 ^ 53 / 2 ^ 1) with (2 ^ 52) in Hrun.
    change (2 ^ 52) with (Zpos (2 ^ 52)%positive) in Hrun at 1.
    cbv iota beta in Hrun.
    exists (2 ^ 52)%positive, (D - 52).
    assert (Hle : (ex + (D - 53) + 1 <=? emax - prec) = true)
      by (apply Z.leb_le; unfold prec, emax; lia).
    rewrite Hle in Hrun.
    replace (ex + (D - 53) + 1) with (ex + (D - 52)) in Hrun by lia.
    split; [exact Hrun |]. split; [lia |]. split; [cbn; lia |].
    assert (HP2 : 2 ^ (D - 52) = 2 * P).
    { unfold P. replace (D - 52) with (1 + (D - 53)) by lia.
      rewrite pow2_split by lia. reflexivity. }
    rewrite HP2. change (Zpos (2 ^ 52)%positive) with (2 ^ 52).
    rewrite Heq in Hm1P. change (2 ^ 53) with (2 * 2 ^ 52) in Hm1P. nia.
Qed.

Lemma div_eucl_div_mod (a b : Z) : Z.div_eucl a b = (a / b, a mod b).
Proof. unfold Z.div, Z.modulo. now destruct (Z.div_eucl a b). Qed.

(** The double nearest to [n / 100], in units of [2^-60]. *)
Lemma hundredths_value (n : positive) :
  Zpos n < 2 ^ 40 ->
  exists my ey,
    lit (Npos n) 2 = S754_finite false my ey /\
    -60 <= ey <= -18 /\
    Z.abs (100 * (Zpos my * 2 ^ (ey + 60)) - Zpos n * 2 ^ 60) <= 2 ^ 49.
Proof.
  intros Hn.
  destruct (Zdigits2_bounds (Zpos n) ltac:(lia)) as (Hd & Hlo & Hhi).
  set (d1 := Zdigits2 (Zpos n)) in *.
  assert (Hd40 : d1 <= 40).
  { destruct (Z.le_gt_cases d1 40) as [Hle | Hgt]; [exact Hle |].
    assert (2 ^ 40 <= 2 ^ (d1 - 1)) by (apply Z.pow_le_mono_r; lia). lia. }
  change (lit (Npos n) 2) with (of_ratio false n 100).
  unfold of_ratio, SFdiv_core_binary. fold d1.
  change (Zdigits2 (Zpos 100)) with 7.
  assert (He' : Z.min (fexp prec emax (d1 + 0 - (7 + 0))) (0 - 0) = d1 - 60)
    by (unfold fexp, emin, prec, emax; lia).
  rewrite He'.
  replace (0 - 0 - (d1 - 60)) with (60 - d1) by lia.
  destruct (60 - d1) as [| s |] eqn:Es; try lia.
  rewrite Z.shiftl_mul_pow2 by lia. rewrite <- Es.
  set (Q := 2 ^ d1) in *. set (R := 2 ^ (60 - d1)).
  assert (HQ : 0 < Q) by (apply Z.pow_pos_nonneg; lia).
  assert (HR : 0 < R) by (apply Z.pow_pos_nonneg; lia).
  assert (HQR : Q * R = 2 ^ 60).
  { unfold Q, R. rewrite <- pow2_split by lia. f_equal. lia. }
  assert (HQ1 : 2 ^ (d1 - 1) * 2 = Q).
  { unfold Q. replace d1 with (d1 - 1 + 1) at 2 by lia.
    rewrite pow2_split by lia. reflexivity. }
  assert (HQ40 : Q <= 2 ^ 40) by (apply Z.pow_le_mono_r; lia).
  rewrite div_eucl_div_mod.
  pose proof (Z.div_mod (Zpos n * R) 100 ltac:(lia)) as Hdm.
  pose proof (Z.mod_pos_bound (Zpos n * R) 100 ltac:(lia)) as Hmod.
  set (q := Zpos n * R / 100) in *. set (r := (Zpos n * R) mod 100) in *.
  assert (Hm' : 2 ^ 59 <= Zpos n * R < 2 ^ 60).
  { change (2 ^ 60) with (2 * 2 ^ 59) in HQR |- *. nia. }
  assert (Hq : 2 ^ 52 <= q < 2 ^ 54).
  { change (2 ^ 59) with 576460752303423488 in Hm'.
    change (2 ^ 60) with 1152921504606846976 in Hm'.
    change (2 ^ 52) with 4503599627370496.
    change (2 ^ 54) with 18014398509481984. lia. }
  assert (Hdq : 53 <= Zdigits2 q <= 54).
  { destruct (Z.lt_ge_cases q (2 ^ 53)) as [Hlt | Hge].
    - rewrite (Zdigits2_unique q 53); [lia | lia | cbn; lia].
    - rewrite (Zdigits2_unique q 54); [lia | lia | cbn; lia]. }
  destruct (binary_round_aux_normal q (d1 - 60) (new_location 100 r))
    as (my & K & Hrun & HK & _ & Herr); [lia | lia | lia |].
  exists my, (d1 - 60 + K). split; [exact Hrun |]. split; [lia |].
  replace (d1 - 60 + K + 60) with (K + d1) by lia.
  rewrite pow2_split by lia. fold Q.
  assert (HK3 : K = 0 \/ K = 1 \/ K = 2) by lia.
  change (2 ^ 49) with (512 * 2 ^ 40). change (2 ^ 60) with (2 ^ 60) in *.
  rewrite <- HQR.
  destruct HK3 as [-> | [-> | ->]];
    [change (2 ^ 0) with 1 in * | change (2 ^ 1) with 2 in * | change (2 ^ 2) with 4 in *];
    nia.
Qed.

Lemma iter_xO_pow2 (m d : positive) :
  Zpos (Pos.iter xO m d) = Zpos m * 2 ^ Zpos d.
Proof.
  induction d as [| d IH] using Pos.peano_ind.
  - change (Pos.iter xO m 1) with (m~0)%positive.
    change (Zpos m~0) with (2 * Zpos m). change (2 ^ 1) with 2. ring.
  - rewrite Pos.iter_succ, Pos2Z.inj_succ, Z.pow_succ_r by lia.
    change (Zpos (Pos.iter xO m d)~0) with (2 * Zpos (Pos.iter xO m d)).
    rewrite IH. ring.
Qed.

Lemma shl_align_down (mx : positive) (ex ez : Z) :
  ez <= ex ->
  Zpos (fst (shl_align mx ex ez)) = Zpos mx * 2 ^ (ex - ez).
Proof.
  intros Hle. unfold shl_align.
  destruct (ez - ex) as [| d | d] eqn:E; cbn [fst]; try lia.
  - replace (ex - ez) with 0 by lia. rewrite Z.pow_0_r. ring.
  - rewrite iter_xO_pow2. replace (ex - ez) with (Zpos d) by lia. reflexivity.
Qed.

Lemma shl_align_same (mx : positive) (ex ez : Z) :
  ex <= ez -> shl_align mx ex ez = (mx, ex).
Proof.
  intros Hle. unfold shl_align. destruct (ez - ex) eqn:E; try reflexivity. lia.
Qed.

(** [4.99 + y] for a double [y] of moderate size, in units of [2^-60]. *)
Lemma fee_sum_value (my : positive) (ey : Z) :
  -60 <= ey <= -18 ->
  Zpos my * 2 ^ (ey + 60) < 2 ^ 95 ->
  exists ms es,
    add (lit 499 2) (S754_finite false my ey) = S754_finite false ms es /\
    -60 <= es <= -16 /\
    Zpos ms <= 2 ^ 53 /\
    Z.abs (Zpos ms * 2 ^ (es + 60)
           - (5618240535144694 * 2 ^ 10 + Zpos my * 2 ^ (ey + 60))) <= 2 ^ 44.
Proof.
  intros Hey HY.
  change (lit 499 2) with (S754_finite false 5618240535144694 (-50)).
  unfold add, SFadd. cbn [cond_Zopp].
  set (ez := Z.min (-50) ey).
  assert (Hez : -60 <= ez <= -50) by (unfold ez; lia).
  pose proof (shl_align_down 5618240535144694 (-50) ez ltac:(lia)) as Ha.
  pose proof (shl_align_down my ey ez ltac:(unfold ez; lia)) as Hb.
  set (a := fst (shl_align 5618240535144694 (-50) ez)) in *.
  set (b := fst (shl_align my ey ez)) in *.
  change (Zpos a + Zpos b) with (Zpos (a + b)).
  cbn [binary_normalize]. unfold binary_round.
  assert (HM : Zpos (a + b) = 5618240535144694 * 2 ^ (-50 - ez) + Zpos my * 2 ^ (ey - ez))
    by (rewrite Pos2Z.inj_add, Ha, Hb; reflexivity).
  set (E := 2 ^ (ez + 60)).
  assert (HE : 0 < E) by (apply Z.pow_pos_nonneg; lia).
  assert (HE10 : 2 ^ (-50 - ez) * E = 2 ^ 10).
  { unfold E. rewrite <- pow2_split by lia. f_equal. lia. }
  assert (HEy : 2 ^ (ey - ez) * E = 2 ^ (ey + 60)).
  { unfold E. rewrite <- pow2_split by (unfold ez; lia). f_equal. lia. }
  assert (HSigma : Zpos (a + b) * E =
                   5618240535144694 * 2 ^ 10 + Zpos my * 2 ^ (ey + 60)).
  { rewrite HM, <- HE10, <- HEy. ring. }
  assert (Hpa : 1 <= 2 ^ (-50 - ez)) by (apply Z.lt_pred_le, Z.pow_pos_nonneg; lia).
  assert (Hpb : 0 < 2 ^ (ey - ez)) by (apply Z.pow_pos_nonneg; unfold ez; lia).
  assert (Hlow : 2 ^ 52 <= Zpos (a + b)).
  { rewrite HM. change (2 ^ 52) with 4503599627370496. nia. }
  destruct (Zdigits2_bounds (Zpos (a + b)) ltac:(lia)) as (HD & Hlo & Hhi).
  cbn [Zdigits2] in HD, Hlo, Hhi.
  set (D := Zpos (digits2_pos (a + b))) in *.
  assert (HD53 : 53 <= D).
  { destruct (Z.lt_ge_cases D 53) as [Hlt | Hge]; [| exact Hge].
    assert (2 ^ D <= 2 ^ 52) by (apply Z.pow_le_mono_r; lia). lia. }
  assert (HD36 : D + ez <= 36).
  { destruct (Z.le_gt_cases (D + ez) 36) as [Hle | Hgt]; [exact Hle |].
    assert (H1 : 2 ^ 96 <= 2 ^ (D - 1 + (ez + 60))) by (apply Z.pow_le_mono_r; lia).
    rewrite pow2_split in H1 by lia. fold E in H1.
    assert (H2 : 2 ^ (D - 1) * E <= Zpos (a + b) * E) by nia.
    rewrite HSigma in H2.
    change (2 ^ 96) with (2 * 2 ^ 95) in H1.
    change (2 ^ 10) with 1024 in H2. change (2 ^ 95) with 39614081257132168796771975168 in *.
    lia. }
  rewrite shl_align_same by (unfold fexp, emin, prec, emax; lia).
  destruct (binary_round_aux_normal (Zpos (a + b)) ez loc_Exact)
    as (ms & K & Hrun & HK & Hms & Herr);
    [exact Hlow | lia | cbn [Zdigits2]; fold D; lia |].
  cbn [Zdigits2] in HK. fold D in HK.
  exists ms, (ez + K). split; [exact Hrun |]. split; [lia |]. split; [exact Hms |].
  replace (ez + K + 60) with (K + (ez + 60)) by lia.
  rewrite pow2_split by lia. fold E. rewrite <- HSigma.
  assert (HKE : 2 ^ K * E <= 2 ^ 44).
  { unfold E. rewrite <- pow2_split by lia. apply Z.pow_le_mono_r; lia. }
  assert (HK0 : 0 < 2 ^ K) by (apply Z.pow_pos_nonneg; lia).
  nia.
Qed.

(** The number of hundredths nearest to a double given in units of
    [2^-60]. *)
Lemma nearest_cents_scaled (ms : positive) (es N : Z) :
  -60 <= es < 0 ->
  Z.abs (100 * (Zpos ms * 2 ^ (es + 60)) - N * 2 ^ 60) < 2 ^ 59 ->
  nearest_cents ms es = N.
Proof.
  intros Hes Herr. destruct es as [| k | k]; try lia.
  unfold nearest_cents.
  set (T := 2 ^ (Zneg k + 60)) in *.
  assert (HT : 0 < T) by (apply Z.pow_pos_nonneg; lia).
  assert (HkT : 2 ^ Zpos k * T = 2 ^ 60).
  { unfold T. rewrite <- pow2_split by lia. f_equal. lia. }
  assert (Hk1 : 2 ^ (Zpos k + 1) = 2 * 2 ^ Zpos k).
  { rewrite Z.pow_add_r by lia. change (2 ^ 1) with 2. ring. }
  rewrite <- (Z.div_mul_cancel_r _ _ T) by (try apply Z.pow_nonzero; lia).
  replace (2 ^ (Zpos k + 1) * T) with (2 * 2 ^ 60)
    by (rewrite Hk1, <- HkT; ring).
  replace ((200 * Zpos ms + 2 ^ Zpos k) * T) with (200 * (Zpos ms * T) + 2 ^ 60)
    by (rewrite <- HkT; ring).
  set (S := Zpos ms * T) in *.
  symmetry.
  apply Z.div_unique with (r := 200 * S + 2 ^ 60 - N * (2 * 2 ^ 60));
    [| ring].
  change (2 ^ 59) with 576460752303423488 in Herr.
  change (2 ^ 60) with 1152921504606846976 in *. lia.
Qed.

Lemma small_is_below_1e21 (m : positive) (e : Z) :
  Zpos m <= 2 ^ 53 -> e < 0 -> value_ge m e (10 ^ 21) = false.
Proof.
  intros Hm He. destruct e as [| k | k]; try lia.
  unfold value_ge. apply Z.leb_gt.
  assert (1 <= 2 ^ Zpos k) by (apply Z.lt_pred_le, Z.pow_pos_nonneg; lia).
  change (2 ^ 53) with 9007199254740992 in Hm.
  change (10 ^ 21) with 1000000000000000000000. nia.
Qed.

(** A number of hundredths below [2^40] is what its double prints. *)
Lemma cents_lit (n : N) : (n < 2 ^ 40)%N -> cents (lit n 2) = Z.of_N n.
Proof.
  intros Hn. destruct n as [| p]; [reflexivity |].
  destruct (hundredths_value p) as (my & ey & Hy & Hey & Herr); [lia |].
  rewrite Hy. cbn [cents]. apply nearest_cents_scaled; [lia |].
  change (Z.of_N (Npos p)) with (Zpos p).
  change (2 ^ 49) with 562949953421312 in Herr.
  change (2 ^ 59) with 576460752303423488. lia.
Qed.

(** In hundredths the total fee is the sum of the two fees: for an
    exchange fee of [n] hundredths, [n] below [2^40], the double sum
    [4.99 + n / 100] rounds to the double of [(499 + n) / 100]. *)
Lemma fee_total_in_hundredths (n : N) :
  (n < 2 ^ 40)%N ->
  toFixed2 (add (lit 499 2) (lit n 2)) = lit (499 + n) 2.
Proof.
  intros Hn. destruct n as [| p]; [vm_compute; reflexivity |].
  destruct (hundredths_value p) as (my & ey & Hy & Hey & Herr); [lia |].
  rewrite Hy.
  assert (Hp : Zpos p < 2 ^ 40) by lia.
  change (2 ^ 40) with 1099511627776 in Hp.
  change (2 ^ 49) with 562949953421312 in Herr.
  change (2 ^ 60) with 1152921504606846976 in Herr.
  destruct (fee_sum_value my ey Hey) as (ms & es & Hsum & Hes & Hms & Herr2).
  { change (2 ^ 95) with 39614081257132168796771975168. lia. }
  rewrite Hsum.
  rewrite toFixed2_finite by (apply small_is_below_1e21; lia).
  assert (Hcents : nearest_cents ms es = 499 + Zpos p).
  { apply nearest_cents_scaled; [lia |].
    change (2 ^ 10) with 1024 in Herr2.
    change (2 ^ 44) with 17592186044416 in Herr2.
    change (2 ^ 59) with 576460752303423488.
    change (2 ^ 60) with 1152921504606846976. lia. }
  rewrite Hcents. reflexivity.
Qed.

Lemma bounded_mantissa (m : positive) (e : Z) :
  bounded prec emax m e = true -> Zpos m < 2 ^ 53 /\ -1074 <= e.
Proof.
  unfold bounded, canonical_mantissa, fexp, emin, prec, emax.
  intros H. apply andb_prop in H. destruct H as [H _].
  apply Z.eqb_eq in H.
  pose proof (digits2_pos_bounds m) as [_ Hd].
  split; [| lia].
  apply Z.lt_le_trans with (1 := Hd).
  apply Z.pow_le_mono_r; lia.
Qed.

(** A positive double that is not above [100000000] has a value of at
    most [10^8]; the value is scaled by [2^1074] to stay an integer. *)
Lemma at_most_1e8 (x : number) :
  valid_binary prec emax x = true ->
  gt x (lit 0 0) = true ->
  gt x (lit 100000000 0) = false ->
  exists m e, x = S754_finite false m e /\
    -1074 <= e <= -26 /\ Zpos m < 2 ^ 53 /\
    Zpos m * 2 ^ (e + 1074) <= 100000000 * 2 ^ 1074.
Proof.
  intros Hv H0 H8.
  destruct x as [s | s | | s m e]; try discriminate.
  - destruct s; discriminate.
  - destruct s; [discriminate |].
    exists m, e. split; [reflexivity |].
    destruct (bounded_mantissa m e Hv) as [Hm He].
    change (lit 100000000 0) with (S754_finite false 6710886400000000 (-26)) in H8.
    unfold gt, SFltb, SFcompare in H8.
    rewrite Z.compare_antisym in H8.
    destruct (Z.compare_spec e (-26)) as [-> | Hlt | Hgt]; cbn [CompOpp] in H8;
      try discriminate.
    + fold (Pos.compare 6710886400000000 m) in H8.
      assert (Hle : Zpos m <= 6710886400000000).
      { destruct (Pos.compare_spec 6710886400000000 m) as [Heq | Hl | Hg].
        - clear - Heq. lia.
        - discriminate.
        - apply Z.lt_le_incl. exact Hg. }
      clear H0 H8 Hv.
      repeat split; try lia.
    + clear H0 H8 Hv. repeat split; try lia.
      assert (Hp : 2 ^ (e + 1074) <= 2 ^ 1047) by (apply Z.pow_le_mono_r; lia).
      assert (HQ : 0 < 2 ^ (e + 1074)) by pow2.
      change (2 ^ 1074) with (2 ^ (27 + 1047)).
      rewrite (pow2_split 27 1047) by lia.
      assert (HP : 0 < 2 ^ 1047) by pow2.
      generalize dependent (2 ^ (e + 1074)). intros Q Hp HQ.
      generalize dependent (2 ^ 1047). intros P HQP HP.
      change (2 ^ 53) with 9007199254740992 in Hm.
      change (2 ^ 27) with 134217728. nia.
Qed.

(** The exchange fee of an amount of at most [10^8] is a whole number of
    hundredths, at most [50000000] of them: the product [amount * 0.005]
    may be rounded, and may be rounded to zero or to a subnormal double,
    and [toFixed(2)] then prints at most ["500000.00"]. *)
Lemma exchange_fee_in_hundredths (m : positive) (e : Z) :
  -1074 <= e <= -26 -> Zpos m < 2 ^ 53 ->
  Zpos m * 2 ^ (e + 1074) <= 100000000 * 2 ^ 1074 ->
  exists n, (n <= 50000000)%N /\
    toFixed2 (mul (S754_finite false m e) (lit 5 3)) = lit n 2.
Proof.
  intros He Hm HA.
  change (lit 5 3) with (S754_finite false 5764607523034235 (-60)).
  unfold mul, SFmul. cbn [xorb].
  rewrite Pos2Z.inj_mul.
  set (mx := Zpos m * 5764607523034235).
  set (ex := e + -60).
  assert (Hpos : 0 < mx) by (subst mx; lia).
  destruct (Zdigits2_bounds mx Hpos) as (HD & Hlo & Hhi).
  set (D := Zdigits2 mx) in *.
  set (Tx := 2 ^ (ex + 1134)).
  assert (HTx : 0 < Tx) by (unfold Tx, ex; pow2).
  set (B := 2 ^ 1074) in *.
  assert (HB : 0 < B) by (unfold B; pow2).
  assert (Hscale : mx * Tx <= 100000000 * B * 5764607523034235).
  { unfold mx, Tx, ex. replace (e + -60 + 1134) with (e + 1074) by lia.
    clearbody B. nia. }
  assert (HDex : D + ex <= 20).
  { destruct (Z.le_gt_cases (D + ex) 20) as [Hle | Hgt]; [exact Hle | exfalso].
    assert (H1 : 2 ^ (80 + 1074) <= 2 ^ (D - 1 + (ex + 1134)))
      by (apply Z.pow_le_mono_r; unfold ex in *; lia).
    rewrite (pow2_split 80 1074), (pow2_split (D - 1) (ex + 1134)) in H1
      by (unfold ex in *; lia).
    fold B in H1. fold Tx in H1.
    change (2 ^ 80) with 1208925819614629174706176 in H1.
    clearbody B Tx. generalize dependent (2 ^ (D - 1)). intros. nia. }
  destruct (binary_round_aux_spec mx ex loc_Exact (Z.lt_le_incl _ _ Hpos))
    as (m1 & Hm1 & Hrun).
  cbn zeta in Hrun. fold D in Hm1, Hrun.
  set (k1 := Z.max 0 (fexp prec emax (D + ex) - ex)) in *.
  assert (Hk1 : 0 <= k1 /\ D - 53 <= k1 /\ -1074 <= ex + k1 <= -33).
  { unfold k1, fexp, emin, prec, emax, ex in *. lia. }
  set (k2 := Z.max 0 (fexp prec emax (Zdigits2 m1 + (ex + k1)) - (ex + k1))) in *.
  set (P1 := 2 ^ k1) in *.
  assert (HP1 : 0 < P1) by (unfold P1; pow2).
  assert (Hm0 : 0 <= mx / P1 < 2 ^ 53).
  { split; [apply Z.div_pos; lia |].
    apply Z.div_lt_upper_bound; [lia |].
    assert (H : 2 ^ D <= 2 ^ (k1 + 53)) by (apply Z.pow_le_mono_r; lia).
    rewrite pow2_split in H by lia. fold P1 in H. lia. }
  assert (Hm1b : 0 <= m1 <= 2 ^ 53) by lia.
  assert (Hd1 : Zdigits2 m1 <= 54).
  { destruct (Z.eq_dec m1 0) as [-> | Hnz]; [cbn; lia |].
    destruct (Zdigits2_bounds m1 ltac:(lia)) as (_ & Hl1 & _).
    destruct (Z.le_gt_cases (Zdigits2 m1) 54) as [Hle | Hgt]; [exact Hle | exfalso].
    assert (2 ^ 54 <= 2 ^ (Zdigits2 m1 - 1)) by (apply Z.pow_le_mono_r; lia).
    change (2 ^ 54) with 18014398509481984 in *.
    change (2 ^ 53) with 9007199254740992 in *. lia. }
  assert (Hk2 : 0 <= k2 <= 1) by (unfold k2, fexp, emin, prec, emax; lia).
  pose proof (Z.div_mod mx P1 ltac:(lia)) as Hdm.
  pose proof (Z.mod_pos_bound mx P1 HP1) as Hmod.
  assert (Hm1P : m1 * P1 <= mx + P1) by nia.
  set (P2 := 2 ^ k2) in *.
  assert (HP2 : 0 < P2) by (unfold P2; pow2).
  pose proof (Z.div_mod m1 P2 ltac:(lia)) as Hdm2.
  pose proof (Z.mod_pos_bound m1 P2 HP2) as Hmod2.
  destruct (m1 / P2) as [| mr | mr] eqn:Hq.
  - rewrite Hrun. exists 0%N. split; [lia | reflexivity].
  - assert (Hle : (ex + k1 + k2 <=? emax - prec) = true)
      by (apply Z.leb_le; unfold prec, emax; lia).
    rewrite Hle in Hrun. rewrite Hrun.
    assert (Hmr : Zpos mr <= 2 ^ 53) by nia.
    rewrite toFixed2_finite by (apply small_is_below_1e21; lia).
    exists (Z.to_N (nearest_cents mr (ex + k1 + k2))). split; [| reflexivity].
    enough (Hn : 0 <= nearest_cents mr (ex + k1 + k2) < 50000001) by lia.
    assert (HT : 2 ^ (60 + 1074) = 2 ^ (- (ex + k1 + k2)) * (Tx * P1 * P2)).
    { unfold Tx, P1, P2. rewrite <- !pow2_split by lia. f_equal. lia. }
    rewrite (pow2_split 60 1074) in HT by lia. fold B in HT.
    assert (HTx1 : Tx * P1 <= 2 ^ 27 * B).
    { unfold Tx, P1, B. rewrite <- !pow2_split by lia.
      apply Z.pow_le_mono_r; lia. }
    destruct (ex + k1 + k2) as [| k | k] eqn:Her; try lia.
    unfold nearest_cents.
    change (- Zneg k) with (Zpos k) in HT.
    rewrite (pow2_split (Zpos k) 1) by lia. change (2 ^ 1) with 2.
    assert (HK : 0 < 2 ^ Zpos k) by pow2.
    split; [apply Z.div_pos; lia |].
    apply Z.div_lt_upper_bound; [lia |].
    enough (Hc : 200 * Zpos mr < 100000001 * 2 ^ Zpos k) by lia.
    change (2 ^ 60) with 1152921504606846976 in HT.
    change (2 ^ 27) with 134217728 in HTx1.
    assert (HP2' : 0 < Tx * P1 * P2) by nia.
    apply Z.mul_lt_mono_pos_r with (p := Tx * P1 * P2); [exact HP2' |].
    assert (Hup : Zpos mr * (Tx * P1 * P2) <= mx * Tx + Tx * P1).
    { assert (H1 : Zpos mr * P2 <= m1) by lia.
      assert (H2 : Zpos mr * P2 * P1 <= m1 * P1)
        by (apply Z.mul_le_mono_nonneg_r; lia).
      assert (H3 : Zpos mr * P2 * P1 * Tx <= (mx + P1) * Tx)
        by (apply Z.mul_le_mono_nonneg_r; lia).
      replace (Zpos mr * (Tx * P1 * P2)) with (Zpos mr * P2 * P1 * Tx) by ring.
      replace (mx * Tx + Tx * P1) with ((mx + P1) * Tx) by ring.
      exact H3. }
    replace (100000001 * 2 ^ Zpos k * (Tx * P1 * P2))
      with (100000001 * (2 ^ Zpos k * (Tx * P1 * P2))) by ring.
    rewrite <- HT.
    replace (200 * Zpos mr * (Tx * P1 * P2))
      with (200 * (Zpos mr * (Tx * P1 * P2))) by ring.
    clear - Hup Hscale HTx1 HB.
    generalize dependent (Zpos mr * (Tx * P1 * P2)).
    generalize dependent (mx * Tx). generalize dependent (Tx * P1).
    clearbody B. intros. lia.
  - exfalso. assert (0 <= m1 / P2) by (apply Z.div_pos; lia). lia.
Qed.

End Fees.

Section FeeQuote.

Import fxService.

(** The scenario of the fee schedule: [calculateFees(200)] is
    [{ baseFee: 4.99, exchangeFee: 1.00, totalFee: 5.99 }]. *)
Example calculateFees_200 :
  calculateFees (lit 200 0) = mkFees (lit 499 2) (lit 100 2) (lit 599 2).
Proof. vm_compute. reflexivity. Qed.

(** C5, as stated, fails.  At [amount = 5] the fee quote is
    [{ baseFee: 4.99, exchangeFee: 0.03, totalFee: 5.02 }], but the
    double sum [4.99 + 0.03] is [5.0200000000000005], so
    [totalFee === baseFee + exchangeFee] is false.  At [amount = 1e18]
    the fee quote is [{ baseFee: 4.99, exchangeFee: 5000000000000000,
    totalFee: 5000000000000005 }]: printed with two decimals the total
    fee is one hundredth more than the base fee plus the exchange
    fee. *)
Lemma calculateFees_total_is_not_the_double_sum :
  (let f := calculateFees (lit 5 0) in
   gt (lit 5 0) (lit 0 0) = true /\
   f = mkFees (lit 499 2) (lit 3 2) (lit 502 2) /\
   add (baseFee f) (exchangeFee f) = S754_finite false 5652017532349973 (-50) /\
   totalFee f = S754_finite false 5652017532349972 (-50) /\
   strict_eq (totalFee f) (add (baseFee f) (exchangeFee f)) = false) /\
  (let f := calculateFees (lit 1000000000000000000 0) in
   gt (lit 1000000000000000000 0) (lit 0 0) = true /\
   f = mkFees (lit 499 2) (lit 5000000000000000 0) (lit 5000000000000005 0) /\
   cents (baseFee f) = 499 /\
   cents (exchangeFee f) = 500000000000000000 /\
   cents (totalFee f) = 500000000000000500 /\
   strict_eq (totalFee f) (add (baseFee f) (exchangeFee f)) = true).
Proof. vm_compute. repeat split; reflexivity. Qed.

(** C5, amended: for every amount, [calculateFees] returns
    [baseFee = 4.99], [exchangeFee = Number((amount * 0.005).toFixed(2))]
    and [totalFee = Number((baseFee + exchangeFee).toFixed(2))]; it is a
    function of the amount alone.  Each rounding takes the number of
    hundredths nearest to the exact value of the double it is given, the
    larger one at a tie.  For every double [amount] with
    [0 < amount <= 100000000] the exchange fee is a whole number [n] of
    hundredths, [n <= 50000000], the total fee is the double nearest to
    [(499 + n) / 100], and printed with two decimals the total fee is
    the base fee plus the exchange fee. *)
Theorem calculateFees_rounds_to_hundredths (amount : number) :
  let f := calculateFees amount in
  baseFee f = lit 499 2 /\
  exchangeFee f = toFixed2 (mul amount (lit 5 3)) /\
  totalFee f = toFixed2 (add (baseFee f) (exchangeFee f)) /\
  (forall s m k,
      mul amount (lit 5 3) = S754_finite s m (Zneg k) ->
      value_ge m (Zneg k) (10 ^ 21) = false ->
      exists n,
        exchangeFee f = of_decimal s (Z.to_N n) (-2) /\
        - 2 ^ Zpos k < 2 ^ (Zpos k + 1) * n - 200 * Zpos m <= 2 ^ Zpos k) /\
  (forall s m k,
      add (baseFee f) (exchangeFee f) = S754_finite s m (Zneg k) ->
      value_ge m (Zneg k) (10 ^ 21) = false ->
      exists n,
        totalFee f = of_decimal s (Z.to_N n) (-2) /\
        - 2 ^ Zpos k < 2 ^ (Zpos k + 1) * n - 200 * Zpos m <= 2 ^ Zpos k) /\
  (valid_binary prec emax amount = true ->
   gt amount (lit 0 0) = true ->
   gt amount (lit 100000000 0) = false ->
   exists n : N,
     (n <= 50000000)%N /\
     exchangeFee f = lit n 2 /\
     totalFee f = lit (499 + n) 2 /\
     cents (baseFee f) = 499 /\
     cents (exchangeFee f) = Z.of_N n /\
     cents (totalFee f) = cents (baseFee f) + cents (exchangeFee f)).
Proof.
  cbn zeta. unfold calculateFees. cbn [baseFee exchangeFee totalFee].
  split; [reflexivity |]. split; [reflexivity |]. split; [reflexivity |].
  split; [| split].
  - intros s m k Hx Hlt. exists (nearest_cents m (Zneg k)). split.
    + rewrite Hx. now apply toFixed2_finite.
    + apply nearest_cents_fraction.
  - intros s m k Hx Hlt. exists (nearest_cents m (Zneg k)). split.
    + rewrite Hx. now apply toFixed2_finite.
    + apply nearest_cents_fraction.
  - intros Hv Hpos Hmax.
    destruct (at_most_1e8 amount Hv Hpos Hmax) as (m & e & -> & He & Hm & Hval).
    destruct (exchange_fee_in_hundredths m e He Hm Hval) as (n & Hn & Hfee).
    assert (Hn40 : (n < 2 ^ 40)%N) by (change (2 ^ 40)%N with 1099511627776%N; lia).
    assert (Hs40 : (499 + n < 2 ^ 40)%N)
      by (change (2 ^ 40)%N with 1099511627776%N; lia).
    exists n. rewrite Hfee, (fee_total_in_hundredths n Hn40).
    rewrite (cents_lit n Hn40), (cents_lit (499 + n) Hs40).
    change (cents (lit 499 2)) with 499.
    repeat split; try assumption; try reflexivity. lia.
Qed.

Lemma calculateFees_rounds_to_hundredths_witness :
  (exists n,
      exchangeFee (calculateFees (lit 5 0)) = of_decimal false (Z.to_N n) (-2) /\
      - 2 ^ 58 < 2 ^ 59 * n - 200 * 7205759403792794 <= 2 ^ 58) /\
  (exists n,
      totalFee (calculateFees (lit 5 0)) = of_decimal false (Z.to_N n) (-2) /\
      - 2 ^ 50 < 2 ^ 51 * n - 200 * 5652017532349973 <= 2 ^ 50) /\
  (exists n : N,
      (n <= 50000000)%N /\
      exchangeFee (calculateFees (lit 5 0)) = lit n 2 /\
      totalFee (calculateFees (lit 5 0)) = lit (499 + n) 2 /\
      cents (baseFee (calculateFees (lit 5 0))) = 499 /\
      cents (exchangeFee (calculateFees (lit 5 0))) = Z.of_N n /\
      cents (totalFee (calculateFees (lit 5 0))) =
        cents (baseFee (calculateFees (lit 5 0))) +
        cents (exchangeFee (calculateFees (lit 5 0)))).
Proof.
  destruct (calculateFees_rounds_to_hundredths (lit 5 0))
    as (_ & _ & _ & He & Ht & Hsum).
  split; [| split].
  - apply (He false 7205759403792794%positive 58%positive); vm_compute; reflexivity.
  - apply (Ht false 5652017532349973%positive 50%positive); vm_compute; reflexivity.
  - apply Hsum; vm_compute; reflexivity.
Defined.

End FeeQuote.

(** ** Creating a transaction *)

Section Creation.

Import storage.

Lemma createTransaction_returns (tx : NewTransaction) (w : World) :
  exists row w',
    createTransaction tx w = (Returned row, w') /\
    transactions (db w') = (transactions (db w) ++ [row])%list /\
    beneficiaries (db w') = beneficiaries (db w) /\
    Transaction.sourceAmount row = n_sourceAmount tx /\
    Transaction.isHighRisk row =
      gt (StringToNumber (n_sourceAmount tx)) (lit 10000 0) /\
    Transaction.status row =
      (if gt (StringToNumber (n_sourceAmount tx)) (lit 10000 0)
       then "pending" else "completed").
Proof.
  eexists. eexists. unfold createTransaction, bind, emit, gen_random_uuid,
    new_Date, get_db, put_db, ret. cbn.
  split; [reflexivity |]. cbn. repeat split; reflexivity.
Qed.



End Creation.

(** ** The newest row of a table *)

Section Ordering.

Context {A : Type} (key : A -> Z).

Lemma insert_desc_In (x y : A) (l : list A) :
  In y (insert_desc key x l) <-> y = x \/ In y l.
Proof.
  induction l as [| h r IH]; cbn.
  - intuition.
  - destruct (key x <? key h); cbn; rewrite ?IH; intuition.
Qed.

Lemma orderByDesc_In (y : A) (l : list A) :
  In y (orderByDesc key l) <-> In y l.
Proof.
  induction l as [| h r IH]; cbn; [tauto |].
  rewrite insert_desc_In, IH. intuition.
Qed.

Lemma insert_desc_head (x : A) (l : list A) :
  head_is_greatest key l -> head_is_greatest key (insert_desc key x l).
Proof.
  destruct l as [| h r]; cbn; [tauto |].
  intros Hh. destruct (key x <? key h) eqn:E; cbn.
  - intros y Hy. apply insert_desc_In in Hy as [-> | Hy]; [lia | auto].
  - intros y [<- | Hy]; [lia |]. specialize (Hh y Hy). lia.
Qed.

Lemma orderByDesc_head (l : list A) : head_is_greatest key (orderByDesc key l).
Proof.
  induction l as [| h r IH]; cbn; [exact I |]. now apply insert_desc_head.
Qed.

Lemma first_row_orderByDesc (l : list A) (c : A) :
  first_row (orderByDesc key l) = Some c ->
  In c l /\ forall y, In y l -> key y <= key c.
Proof.
  intros H. pose proof (orderByDesc_head l) as Hh.
  pose proof (fun y => orderByDesc_In y l) as Hin.
  destruct (orderByDesc key l) as [| h r]; [discriminate |].
  cbn in H. injection H as ->. split.
  - apply Hin. now left.
  - intros y Hy. apply Hin in Hy as [-> | Hy]; [lia | now apply Hh].
Qed.

Lemma first_row_orderByDesc_None (l : list A) :
  first_row (orderByDesc key l) = None <-> l = [].
Proof.
  split.
  - destruct l as [| h r]; [reflexivity |]. intros H.
    pose proof (proj2 (orderByDesc_In h (h :: r)) (or_introl eq_refl)) as Hin.
    destruct (orderByDesc key (h :: r)); [destruct Hin | discriminate].
  - intros ->. reflexivity.
Qed.

Lemma first_row_orderByDesc_app (l : list A) (x : A) :
  (forall y, In y l -> key y < key x) ->
  first_row (orderByDesc key (l ++ [x])) = Some x.
Proof.
  induction l as [| h r IH]; intros Hlt; [reflexivity |].
  specialize (IH (fun y Hy => Hlt y (or_intror Hy))).
  change (orderByDesc key ((h :: r) ++ [x]))
    with (insert_desc key h (orderByDesc key (r ++ [x]))).
  destruct (orderByDesc key (r ++ [x])) as [| x' rest]; [discriminate |].
  injection IH as ->. cbn [insert_desc].
  assert (Hh : (key h <? key x) = true)
    by (apply Z.ltb_lt; apply Hlt; now left).
  now rewrite Hh.
Qed.

End Ordering.

(** ** The rate cache and the pricing engine *)

Section Rates.

Import fxService.

Lemma latestFxRow_first (d : Db) :
  latestFxRow d = first_row (orderByDesc FxRate.lastUpdated (fxRates d)).
Proof.
  unfold latestFxRow. now destruct (orderByDesc FxRate.lastUpdated (fxRates d)).
Qed.

Lemma latestFxRow_newest (d : Db) (c : FxRate.t) :
  latestFxRow d = Some c ->
  In c (fxRates d) /\
  forall c', In c' (fxRates d) -> FxRate.lastUpdated c' <= FxRate.lastUpdated c.
Proof. rewrite latestFxRow_first. apply first_row_orderByDesc. Qed.

Lemma latestFxRow_None (d : Db) : latestFxRow d = None <-> fxRates d = [].
Proof. rewrite latestFxRow_first. apply first_row_orderByDesc_None. Qed.

Lemma getLatestFxRates_run (w : World) :
  storage.getLatestFxRates w =
  (Returned (latestFxRow (db w)), with_event (Select TFxRates) w).
Proof. reflexivity. Qed.

Lemma fetchFreshRates_throws (baseCurrency : string) (w : World) :
  fetch_throws (network w (rates_url baseCurrency)) = true ->
  exists e,
    fetchFreshRates baseCurrency w =
    (Thrown e, with_event (HttpGet (rates_url baseCurrency)) w).
Proof.
  unfold fetchFreshRates, fetch, fetch_throws, bind, emit, rates_url. cbn.
  destruct (network w _) as [| r]; [eauto |].
  destruct (ok r); cbn; [| eauto].
  unfold response_json. destruct (body r) as [| | s rt]; cbn; eauto.
  intros ->. eauto.
Qed.

Lemma fetchFreshRates_returns (baseCurrency : string) (w : World) :
  fetch_throws (network w (rates_url baseCurrency)) = false ->
  exists rates w',
    fetchFreshRates baseCurrency w = (Returned rates, w').
Proof.
  unfold fetchFreshRates, fetch, fetch_throws, bind, emit, rates_url. cbn.
  destruct (network w _) as [| r]; [discriminate |].
  destruct (ok r); cbn; [| discriminate].
  unfold response_json. destruct (body r) as [| | s rt]; cbn; try discriminate.
  intros ->. cbn. eauto.
Qed.

Lemma getCurrentRates_fresh (baseCurrency : string) (w : World) (c : FxRate.t) :
  latestFxRow (db w) = Some c ->
  clock w - FxRate.lastUpdated c < cacheDuration ->
  getCurrentRates baseCurrency w =
  (Returned (FxRate.rates c), with_event (Select TFxRates) w).
Proof.
  intros Hc Hage. unfold getCurrentRates, try_catch, bind.
  rewrite getLatestFxRates_run, Hc. unfold isCacheValid, bind, new_Date, ret. cbn.
  apply Z.ltb_lt in Hage. now rewrite Hage.
Qed.

Lemma getCurrentRates_stale (baseCurrency : string) (w : World) :
  cache_fresh w = false ->
  getCurrentRates baseCurrency w =
  try_catch (fetchFreshRates baseCurrency)
    (fun _ => let* cachedRates := storage.getLatestFxRates in
              match cachedRates with
              | Some cached => ret (FxRate.rates cached)
              | None => ret getFallbackRates
              end)
    (with_event (Select TFxRates) w).
Proof.
  unfold cache_fresh. intros Hstale. unfold getCurrentRates, try_catch, bind.
  rewrite getLatestFxRates_run.
  destruct (latestFxRow (db w)) as [c |]; [| reflexivity].
  unfold isCacheValid, bind, new_Date, ret. cbn. now rewrite Hstale.
Qed.

Lemma getCurrentRates_fallback (baseCurrency : string) (w : World) :
  cache_fresh w = false ->
  fetch_throws (network w (rates_url baseCurrency)) = true ->
  exists w',
    getCurrentRates baseCurrency w = (Returned (cached_or_fallback (db w)), w') /\
    db w' = db w.
Proof.
  intros Hstale Hthrows. rewrite (getCurrentRates_stale _ _ Hstale).
  destruct (fetchFreshRates_throws baseCurrency (with_event (Select TFxRates) w))
    as [e He]; [exact Hthrows |].
  unfold try_catch. rewrite He. unfold bind. rewrite getLatestFxRates_run. cbn.
  unfold cached_or_fallback.
  destruct (latestFxRow (db w)); cbn; eauto.
Qed.

Lemma stale_rows_are_old (w : World) (c : FxRate.t) :
  cache_fresh w = false ->
  In c (fxRates (db w)) ->
  FxRate.lastUpdated c < clock w.
Proof.
  unfold cache_fresh. intros Hstale Hin.
  destruct (latestFxRow (db w)) as [c0 |] eqn:Hc0.
  - apply latestFxRow_newest in Hc0 as [_ Hmax]. specialize (Hmax c Hin).
    apply Z.ltb_ge in Hstale. unfold cacheDuration in Hstale. lia.
  - apply latestFxRow_None in Hc0. rewrite Hc0 in Hin. destruct Hin.
Qed.


Lemma getCurrentRates_total (baseCurrency : string) (w : World) :
  exists table w', getCurrentRates baseCurrency w = (Returned table, w').
Proof.
  destruct (cache_fresh w) eqn:Hfresh.
  - unfold cache_fresh in Hfresh.
    destruct (latestFxRow (db w)) as [c |] eqn:Hc; [| discriminate].
    apply Z.ltb_lt in Hfresh.
    rewrite (getCurrentRates_fresh _ _ _ Hc Hfresh). eauto.
  - destruct (fetch_throws (network w (rates_url baseCurrency))) eqn:Hf.
    + destruct (getCurrentRates_fallback _ _ Hfresh Hf) as (w' & H & _). eauto.
    + rewrite (getCurrentRates_stale _ _ Hfresh).
      destruct (fetchFreshRates_returns baseCurrency (with_event (Select TFxRates) w))
        as (rates & w' & Hr); [exact Hf |].
      unfold try_catch. rewrite Hr. eauto.
Qed.

End Rates.

Section PricingClaims.

Import fxService.

(** The pricing scenario: the cache is empty and the provider answers
    [{ success: true, rates: { EUR: 0.85 } }] for base USD; then
    [getExchangeRate("USD", "EUR")] is [0.85] and
    [convertAmount(200, "USD", "EUR")] is [170]. *)
Example pricing_scenario :
  let w :=
    mkWorld (mkDb [] [] []) 1700000000000 1672531200000
      (fun _ => Responded (mkHttpResponse true 200
                             (JsonData true (Some {[ "EUR" := lit 85 2 ]}))))
      (fun _ => "7d1c8f3a-0000-4000-8000-000000000003") 0 [] in
  fst (getExchangeRate "USD" "EUR" w) = Returned (lit 85 2) /\
  fst (convertAmount (lit 200 0) "USD" "EUR" w) = Returned (lit 170 0).
Proof. vm_compute. split; reflexivity. Qed.

(** C3 on the code: the cache holds the table [{ EUR: 0.9 }], fifteen
    minutes old, and the provider answers [200 OK] with the body
    [{ "success": true }], which has no [rates]: by the contract of the
    rate source a fetch that failed.  [getCurrentRates] does not fall
    back to the cached table.  It returns the built-in table, whose rate
    for EUR is another one, and writes it to the cache as the newest row:
    a second call is answered with the built-in table from the cache and
    the provider is not asked again.  When the provider cannot be reached,
    or answers [500], the same call does return the cached table and
    writes nothing. *)
Theorem malformed_payload_is_not_answered_from_the_cache :
  let w := stale_world (Responded (mkHttpResponse true 200 (JsonData true None))) in
  let w1 := snd (getCurrentRates "USD" w) in
  let w500 := stale_world (Responded (mkHttpResponse false 500 NotJson)) in
  cache_fresh w = false /\
  option_map FxRate.rates (latestFxRow (db w)) = Some {[ "EUR" := lit 9 1 ]} /\
  fst (getCurrentRates "USD" w) = Returned getFallbackRates /\
  getFallbackRates !! "EUR" = Some (lit 8547 4) /\
  option_map FxRate.rates (latestFxRow (db w1)) = Some getFallbackRates /\
  fst (getCurrentRates "USD" w1) = Returned getFallbackRates /\
  events (snd (getCurrentRates "USD" w1)) =
    [Select TFxRates; HttpGet "https://api.exchangerate-api.com/v4/latest/USD";
     Insert TFxRates; Select TFxRates] /\
  fst (getCurrentRates "USD" (stale_world NetworkFailure)) =
    Returned {[ "EUR" := lit 9 1 ]} /\
  db (snd (getCurrentRates "USD" (stale_world NetworkFailure))) =
    db (stale_world NetworkFailure) /\
  fst (getCurrentRates "USD" w500) = Returned {[ "EUR" := lit 9 1 ]} /\
  db (snd (getCurrentRates "USD" w500)) = db w500.
Proof. cbn zeta. repeat split; vm_compute; reflexivity. Qed.

(** C6: for every currency code, [getExchangeRate(X, X)] returns [1]
    and leaves the world as it found it: in particular no statement is
    sent to the database and no request to the rate provider. *)
Theorem getExchangeRate_identity (X : string) (w : World) :
  getExchangeRate X X w = (Returned (lit 1 0), w) /\
  events (snd (getExchangeRate X X w)) = events w.
Proof.
  unfold getExchangeRate. rewrite String.eqb_refl. split; reflexivity.
Qed.

Lemma getExchangeRate_distinct (fromCurrency toCurrency : string) (w : World) :
  fromCurrency <> toCurrency ->
  getExchangeRate fromCurrency toCurrency w =
  match getCurrentRates fromCurrency w with
  | (Returned table, w') =>
      match table !! toCurrency with
      | Some rate =>
          if truthy rate then (Returned rate, w')
          else (Thrown (RateNotAvailable fromCurrency toCurrency), w')
      | None => (Thrown (RateNotAvailable fromCurrency toCurrency), w')
      end
  | (Thrown e, w') => (Thrown e, w')
  end.
Proof.
  intros Hne. unfold getExchangeRate.
  apply String.eqb_neq in Hne. rewrite Hne. unfold bind.
  destruct (getCurrentRates fromCurrency w) as [[table | e] w']; [| reflexivity].
  destruct (table !! toCurrency) as [rate |]; [| reflexivity].
  now destruct (truthy rate).
Qed.

Lemma positive_is_truthy (x : number) : gt x (lit 0 0) = true -> truthy x = true.
Proof. destruct x as [s | s | | s m e]; cbn; congruence. Qed.

Lemma fallback_rates_positive (k : string) (rate : number) :
  getFallbackRates !! k = Some rate -> gt rate (lit 0 0) = true.
Proof.
  unfold getFallbackRates. intros H. apply elem_of_list_to_map_2 in H.
  repeat (apply elem_of_cons in H as [H | H];
          [injection H as -> ->; vm_compute; reflexivity |]).
  now apply elem_of_nil in H.
Qed.

(** An entry that is there but is [0] breaks the invariant of a rate
    table (its values are strictly positive); [getExchangeRate] treats it
    as if it were absent. *)
Lemma getExchangeRate_rejects_a_present_zero :
  exists table w',
    "USD" <> "EUR" /\
    getCurrentRates "USD" zero_rate_world = (Returned table, w') /\
    table !! "EUR" = Some (lit 0 0) /\
    getExchangeRate "USD" "EUR" zero_rate_world =
      (Thrown (RateNotAvailable "USD" "EUR"), w').
Proof.
  eexists. eexists. split; [discriminate |].
  split; [vm_compute; reflexivity |]. split; vm_compute; reflexivity.
Qed.

Lemma currency_code_is_no_member_name (key : string) :
  currency_code key = true -> ~ In key Object_prototype_names.
Proof.
  unfold currency_code. intros H Hin.
  apply andb_true_iff in H as [Hlen _].
  cbn [In Object_prototype_names] in Hin.
  repeat (destruct Hin as [<- | Hin]; [discriminate Hlen |]). exact Hin.
Qed.

(** C4: [from] and [to] are different and [to] is a currency code, so
    that [rates[to]] is a read of the table itself and not of a member
    every object inherits.  Whenever [getCurrentRates(from)] returns a
    table whose entries are strictly positive, as the invariant of a rate
    table has it, [getExchangeRate(from, to)] throws "Exchange rate not
    available" exactly when the table has no entry for [to]; when it has
    one, that entry is what is returned, never a default in its place. *)
Theorem getExchangeRate_unavailable (fromCurrency toCurrency : string) (w : World)
    (table : RateTable) (w' : World) :
  fromCurrency <> toCurrency ->
  currency_code toCurrency = true ->
  getCurrentRates fromCurrency w = (Returned table, w') ->
  (forall k rate, table !! k = Some rate -> gt rate (lit 0 0) = true) ->
  ~ In toCurrency Object_prototype_names /\
  (getExchangeRate fromCurrency toCurrency w =
     (Thrown (RateNotAvailable fromCurrency toCurrency), w') <->
   table !! toCurrency = None) /\
  (forall rate,
      table !! toCurrency = Some rate ->
      getExchangeRate fromCurrency toCurrency w = (Returned rate, w')).
Proof.
  intros Hne Hcode Hrun Hpos.
  split; [now apply currency_code_is_no_member_name |].
  rewrite (getExchangeRate_distinct _ _ _ Hne), Hrun.
  destruct (table !! toCurrency) as [rate |] eqn:Hlook.
  - apply Hpos, positive_is_truthy in Hlook. rewrite Hlook.
    split; [split; discriminate | intros r Hr; congruence].
  - split; [split; auto | intros r Hr; discriminate].
Qed.

Lemma getExchangeRate_unavailable_witness :
  exists w',
    getCurrentRates "USD" offline_world = (Returned getFallbackRates, w') /\
    getFallbackRates !! "EUR" = Some (lit 8547 4) /\
    getExchangeRate "USD" "EUR" offline_world = (Returned (lit 8547 4), w') /\
    getFallbackRates !! "XAU" = None /\
    getExchangeRate "USD" "XAU" offline_world =
      (Thrown (RateNotAvailable "USD" "XAU"), w').
Proof.
  eexists.
  assert (Hrun : getCurrentRates "USD" offline_world =
                 (Returned getFallbackRates, snd (getCurrentRates "USD" offline_world)))
    by (vm_compute; reflexivity).
  split; [exact Hrun |].
  assert (Heur : getFallbackRates !! "EUR" = Some (lit 8547 4))
    by (vm_compute; reflexivity).
  assert (Hxau : getFallbackRates !! "XAU" = None) by (vm_compute; reflexivity).
  split; [exact Heur |].
  split.
  - apply (getExchangeRate_unavailable "USD" "EUR" offline_world getFallbackRates _);
      [discriminate | reflexivity | exact Hrun | exact fallback_rates_positive
      | exact Heur].
  - split; [exact Hxau |].
    apply (getExchangeRate_unavailable "USD" "XAU" offline_world getFallbackRates _);
      [discriminate | reflexivity | exact Hrun | exact fallback_rates_positive
      | exact Hxau].
Defined.



End PricingClaims.

Section ProviderPayload.

Import fxService.

(** A payload without [rates] does not make [getCurrentRates] throw:
    the fallback table takes the place of the rates, is written to the
    cache as a fresh row and is returned. *)
Lemma missing_rates_is_stored (baseCurrency : string) (w : World)
    (status : Z) (success : bool) :
  cache_fresh w = false ->
  network w (rates_url baseCurrency) =
    Responded (mkHttpResponse true status (JsonData success None)) ->
  exists w',
    getCurrentRates baseCurrency w = (Returned getFallbackRates, w') /\
    fxRates (db w') =
      (fxRates (db w) ++
       [FxRate.mk (uuids w (issued w)) "USD" getFallbackRates (clock w)])%list.
Proof.
  intros Hstale Hnet. rewrite (getCurrentRates_stale _ _ Hstale).
  unfold try_catch, fetchFreshRates, fetch, bind, emit. cbn.
  fold (rates_url baseCurrency). rewrite Hnet. cbn.
  rewrite andb_false_r. cbn. eauto.
Qed.

(** C7 on the code: with a stale cache, a [200 OK] response whose body
    is the JSON object [{}] (neither [rates] nor [success]) is handled as
    a successful fetch.  Nothing is thrown, the fallback table is inserted
    into [fx_rates] with the current time and returned, although the cache
    holds a table; the same happens for [{ "success": true }].  A [500]
    response, and a body with [rates] whose [success] is falsy, do throw,
    and the cached table is returned. *)
Theorem missing_rates_payload_is_a_successful_fetch :
  let w := stale_world (Responded (mkHttpResponse true 200 (JsonData false None))) in
  let wtrue := stale_world (Responded (mkHttpResponse true 200 (JsonData true None))) in
  let w500 := stale_world (Responded (mkHttpResponse false 500 NotJson)) in
  let wguard :=
    stale_world (Responded (mkHttpResponse true 200
                              (JsonData false (Some {[ "EUR" := lit 85 2 ]})))) in
  fetch_throws (network w (rates_url "USD")) = false /\
  fst (getCurrentRates "USD" w) = Returned getFallbackRates /\
  fxRates (db (snd (getCurrentRates "USD" w))) =
    [FxRate.mk "7d1c8f3a-0000-4000-8000-000000000001" "USD"
               {[ "EUR" := lit 9 1 ]} 1700000000000;
     FxRate.mk "7d1c8f3a-0000-4000-8000-000000000002" "USD"
               getFallbackRates 1700000900000] /\
  events (snd (getCurrentRates "USD" w)) =
    [Select TFxRates; HttpGet "https://api.exchangerate-api.com/v4/latest/USD";
     Insert TFxRates] /\
  fst (getCurrentRates "USD" wtrue) = Returned getFallbackRates /\
  db (snd (getCurrentRates "USD" wtrue)) = db (snd (getCurrentRates "USD" w)) /\
  fst (getCurrentRates "USD" w500) = Returned {[ "EUR" := lit 9 1 ]} /\
  db (snd (getCurrentRates "USD" w500)) = db w500 /\
  fst (getCurrentRates "USD" wguard) = Returned {[ "EUR" := lit 9 1 ]} /\
  db (snd (getCurrentRates "USD" wguard)) = db wguard.
Proof. vm_compute. repeat split; reflexivity. Qed.

End ProviderPayload.

(** ** The transaction lifecycle *)

Section Lifecycle.

Import storage routes.

Lemma known_status_In (status : string) :
  existsb (String.eqb status) known_statuses = true <-> In status known_statuses.
Proof.
  rewrite existsb_exists. split.
  - intros (x & Hx & He). apply String.eqb_eq in He. now subst.
  - intros H. exists status. split; [exact H | apply String.eqb_refl].
Qed.


Lemma putTransactionStatus_accepts (user : AuthUser) (id status : string)
    (adminNotes : option string) (w : World) :
  user_isAdmin user = true ->
  In status known_statuses ->
  exists reply w',
    putTransactionStatus user id status adminNotes w = (Returned reply, w') /\
    transactions (db w') = rows_after_update id status adminNotes w /\
    beneficiaries (db w') = beneficiaries (db w) /\
    fxRates (db w') = fxRates (db w).
Proof.
  intros Hadmin Hknown. apply known_status_In in Hknown.
  unfold putTransactionStatus. rewrite Hadmin, Hknown. cbn [negb].
  unfold try_catch, updateTransactionStatus, bind, emit, new_Date, get_db,
    put_db, ret. cbn.
  match goal with
  | |- context [first_row ?l] => destruct (first_row l)
  end; eexists; eexists; (split; [reflexivity |]); cbn; auto.
Qed.

Lemma putTransactionStatus_rejects (user : AuthUser) (id status : string)
    (adminNotes : option string) (w : World) :
  user_isAdmin user = false \/ ~ In status known_statuses ->
  exists reply,
    putTransactionStatus user id status adminNotes w = (Returned reply, w) /\
    (code reply = 403 \/ code reply = 400).
Proof.
  intros Hbad. unfold putTransactionStatus.
  destruct (user_isAdmin user) eqn:Hadmin; cbn [negb].
  - destruct Hbad as [Hbad | Hbad]; [discriminate |].
    destruct (existsb (String.eqb status) known_statuses) eqn:Hknown.
    + apply known_status_In in Hknown. contradiction.
    + cbn. eexists. split; [reflexivity | now right].
  - eexists. split; [reflexivity | now left].
Qed.




End Lifecycle.

(** ** Searching transactions *)

Section Search.

Import storage.

(** With a query that is not empty the answer of [searchTransactions]
    does not depend on the date range at all. *)
Lemma search_with_query_any_date_range (userId query : string)
    (range1 range2 : option string) (w : World) :
  query <> "" ->
  searchTransactions userId query range1 w = searchTransactions userId query range2 w.
Proof.
  intros Hq. unfold searchTransactions.
  apply String.eqb_neq in Hq. now rewrite Hq.
Qed.

(** C9 on the code: with a name query, the date range is not applied.
    Searching ["ali"] within ["30days"] returns the transfer made two
    hundred days ago as well, while the same date range without a query
    keeps only the recent one. *)
Theorem search_with_query_ignores_date_range :
  Transaction.createdAt old_transfer < clock history_world - 30 * 24 * 60 * 60 * 1000 /\
  fst (searchTransactions "user-1" "ali" (Some "30days") history_world) =
    Returned [recent_transfer; old_transfer] /\
  fst (searchTransactions "user-1" "ali" None history_world) =
    Returned [recent_transfer; old_transfer] /\
  fst (searchTransactions "user-1" "" (Some "30days") history_world) =
    Returned [recent_transfer] /\
  fst (routes.getTransactions (mkAuthUser "user-1" "u1@example.com" false)
         (Some "ali") (Some "30days") None history_world) =
    Returned (mkReply 200 (TransactionsJson [recent_transfer; old_transfer])).
Proof. vm_compute. repeat split; reflexivity. Qed.

End Search.

(** ** Beneficiaries *)

Section Ownership.

Import storage routes.

Lemma deleteBeneficiary_not_found (user : AuthUser) (id : string) (w : World) :
  not_the_callers user (target (db w) id) ->
  routes.deleteBeneficiary user id w =
  (Returned not_found, with_event (Select TBeneficiaries) w).
Proof.
  unfold not_the_callers, target, routes.deleteBeneficiary, try_catch,
    getBeneficiaryById, bind, emit, get_db, ret. cbn.
  destruct (first_row _) as [b |]; [| reflexivity].
  intros Hne. apply String.eqb_neq in Hne. now rewrite Hne.
Qed.

Lemma putBeneficiary_not_found (user : AuthUser) (id : string)
    (body : BeneficiaryBody) (data : BeneficiaryPatch) (w : World) :
  validate_partial_beneficiary body = Some data ->
  not_the_callers user (target (db w) id) ->
  putBeneficiary user id body w =
  (Returned not_found, with_event (Select TBeneficiaries) w).
Proof.
  intros Hvalid. unfold not_the_callers, target, putBeneficiary, try_catch,
    parse_partial_beneficiary, getBeneficiaryById, bind, emit, get_db, ret.
  rewrite Hvalid. cbn.
  destruct (first_row _) as [b |]; [| reflexivity].
  intros Hne. apply String.eqb_neq in Hne. now rewrite Hne.
Qed.

Lemma putBeneficiary_invalid (user : AuthUser) (id : string)
    (body : BeneficiaryBody) (w : World) :
  validate_partial_beneficiary body = None ->
  putBeneficiary user id body w =
  (Returned (mkReply 400 (MessageError "Failed to update beneficiary" ZodError)), w).
Proof.
  intros Hinvalid. unfold putBeneficiary, try_catch, parse_partial_beneficiary,
    bind, throw, ret. now rewrite Hinvalid.
Qed.

(** C10, as stated, fails for an update whose body does not pass the
    schema: a user sends [{ "country": "USA" }] for a beneficiary of
    somebody else, and for one that does not exist, and is answered with
    [400 Failed to update beneficiary] both times, not with [404]. *)
Lemma invalid_update_is_not_answered_not_found :
  let body := mkBody None None (Some (JString "USA")) None in
  target (db uuid_registry_world) (Beneficiary.id dana) = Some dana /\
  Beneficiary.userId dana <> user_id a_stranger /\
  target (db uuid_registry_world) unknown_id = None /\
  putBeneficiary a_stranger (Beneficiary.id dana) body uuid_registry_world =
    (Returned (mkReply 400 (MessageError "Failed to update beneficiary" ZodError)),
     uuid_registry_world) /\
  putBeneficiary a_stranger unknown_id body uuid_registry_world =
    (Returned (mkReply 400 (MessageError "Failed to update beneficiary" ZodError)),
     uuid_registry_world) /\
  code (mkReply 400 (MessageError "Failed to update beneficiary" ZodError))
    <> code not_found.
Proof.
  cbn zeta. repeat split; try (vm_compute; reflexivity); vm_compute; discriminate.
Qed.

(** C10, amended: the id of the request is a UUID in the form the
    database prints.  When the target beneficiary does not exist or
    belongs to another user, every delete request, and every update
    request whose body passes the schema, is answered with
    [404 Beneficiary not found], the same reply in both cases, and no row
    of the database is changed.  An update request whose body fails the
    schema is answered with [400] before the target is looked up,
    whatever the id and whoever owns the target, and changes nothing
    either. *)
Theorem foreign_beneficiary_is_not_found :
  (forall user id w,
      canonical_uuid id = true ->
      not_the_callers user (target (db w) id) ->
      exists w',
        routes.deleteBeneficiary user id w = (Returned not_found, w') /\
        db w' = db w) /\
  (forall user id body data w,
      canonical_uuid id = true ->
      validate_partial_beneficiary body = Some data ->
      not_the_callers user (target (db w) id) ->
      exists w',
        putBeneficiary user id body w = (Returned not_found, w') /\
        db w' = db w) /\
  (forall user id body w,
      validate_partial_beneficiary body = None ->
      putBeneficiary user id body w =
        (Returned (mkReply 400 (MessageError "Failed to update beneficiary" ZodError)),
         w)).
Proof.
  split; [| split].
  - intros user id w _ H. rewrite (deleteBeneficiary_not_found user id w H). eauto.
  - intros user id body data w _ Hv H.
    rewrite (putBeneficiary_not_found user id body data w Hv H). eauto.
  - exact putBeneficiary_invalid.
Qed.

Lemma foreign_beneficiary_is_not_found_witness :
  (exists w',
      routes.deleteBeneficiary a_stranger (Beneficiary.id dana) uuid_registry_world =
        (Returned not_found, w') /\
      db w' = db uuid_registry_world) /\
  (exists w',
      routes.deleteBeneficiary danas_owner unknown_id uuid_registry_world =
        (Returned not_found, w') /\
      db w' = db uuid_registry_world) /\
  (exists w',
      putBeneficiary a_stranger (Beneficiary.id dana)
        (mkBody (Some (JString "Dana O.")) None None None) uuid_registry_world =
        (Returned not_found, w') /\
      db w' = db uuid_registry_world) /\
  putBeneficiary a_stranger (Beneficiary.id dana)
    (mkBody None None None (Some (JString "NAIRA"))) uuid_registry_world =
    (Returned (mkReply 400 (MessageError "Failed to update beneficiary" ZodError)),
     uuid_registry_world).
Proof.
  destruct foreign_beneficiary_is_not_found as (Hdel & Hput & Hbad).
  split; [| split; [| split]].
  - apply Hdel; [reflexivity |]. vm_compute. discriminate.
  - apply Hdel; [reflexivity |]. vm_compute. exact I.
  - apply (Hput a_stranger (Beneficiary.id dana) _
             (mkPatch (Some "Dana O.") None None None) uuid_registry_world).
    + reflexivity.
    + reflexivity.
    + vm_compute. discriminate.
  - apply Hbad. reflexivity.
Defined.

End Ownership.

(** * Further properties of the storage layer and the routes *)

(** ** Ordered queries *)

Section NewestFirst.

Context {A : Type} (key : A -> Z).

Lemma insert_desc_descending (x : A) (l : list A) :
  descending key l -> descending key (insert_desc key x l).
Proof.
  unfold descending. induction 1 as [| h r Hr IH Hh]; cbn.
  - repeat constructor.
  - destruct (key x <? key h) eqn:E.
    + constructor; [exact IH |].
      apply List.Forall_forall. intros y Hy.
      apply insert_desc_In in Hy as [-> | Hy].
      * apply Z.ltb_lt in E. lia.
      * exact (proj1 (List.Forall_forall _ _) Hh y Hy).
    + apply Z.ltb_ge in E. constructor.
      * now constructor.
      * constructor; [exact E |].
        apply List.Forall_forall. intros y Hy.
        pose proof (proj1 (List.Forall_forall _ _) Hh y Hy) as Hy'.
        cbv beta in Hy'. lia.
Qed.

Lemma orderByDesc_descending (l : list A) : descending key (orderByDesc key l).
Proof.
  induction l as [| h r IH]; cbn.
  - constructor.
  - now apply insert_desc_descending.
Qed.

Lemma insert_desc_Permutation (x : A) (l : list A) :
  Permutation (insert_desc key x l) (x :: l).
Proof.
  induction l as [| h r IH]; cbn; [reflexivity |].
  destruct (key x <? key h); [| reflexivity].
  rewrite IH. apply perm_swap.
Qed.

Lemma orderByDesc_Permutation (l : list A) : Permutation (orderByDesc key l) l.
Proof.
  induction l as [| h r IH]; cbn; [reflexivity |].
  rewrite insert_desc_Permutation. now constructor.
Qed.

Lemma descending_firstn (n : nat) (l : list A) :
  descending key l -> descending key (firstn n l).
Proof.
  unfold descending. intros H. revert n.
  induction H as [| h r Hr IH Hh]; intros [| n]; cbn; try constructor.
  - apply IH.
  - apply List.Forall_forall. intros y Hy.
    apply (proj1 (List.Forall_forall _ _) Hh).
    rewrite <- (firstn_skipn n r). apply in_or_app. now left.
Qed.

Lemma descending_app (l1 l2 : list A) (a b : A) :
  descending key (l1 ++ l2) -> In a l1 -> In b l2 -> key b <= key a.
Proof.
  unfold descending. induction l1 as [| h r IH]; cbn; [tauto |].
  intros H [-> | Ha] Hb.
  - apply StronglySorted_inv in H as [_ Hh].
    apply (proj1 (List.Forall_forall _ _) Hh). apply in_or_app. now right.
  - apply StronglySorted_inv in H as [H _]. now apply IH.
Qed.

(** [LIMIT n] after [ORDER BY key DESC] keeps rows that are at least as
    new as every row it leaves out. *)
Lemma firstn_orderByDesc_newest (n : nat) (l : list A) (a b : A) :
  In a (firstn n (orderByDesc key l)) ->
  In b (skipn n (orderByDesc key l)) ->
  key b <= key a.
Proof.
  intros Ha Hb. apply (descending_app (firstn n (orderByDesc key l))
                                      (skipn n (orderByDesc key l))); auto.
  rewrite firstn_skipn. apply orderByDesc_descending.
Qed.

End NewestFirst.

(** ** Lists of transactions and beneficiaries *)

Section Listings.

Import storage.

Lemma filter_In_iff {A} (f : A -> bool) (x : A) (l : list A) :
  In x (filter f l) <-> In x l /\ f x = true.
Proof.
  rewrite <- !list_elem_of_In, list_elem_of_filter, Is_true_true. tauto.
Qed.



(** X2: [getHighRiskTransactions] lists exactly the rows flagged
    [isHighRisk], of every user, newest first; when [createTransaction]
    has returned a row, that row is on the list right afterwards if and
    only if [Number(sourceAmount) > 10000] for the amount that was
    sent. *)
Theorem created_transaction_on_high_risk_list (tx : NewTransaction) (w : World)
    (row : Transaction.t) (w1 : World) :
  createTransaction tx w = (Returned row, w1) ->
  exists rows,
    getHighRiskTransactions w1 =
      (Returned rows, with_event (Select TTransactions) w1) /\
    (forall t, In t rows <->
               In t (transactions (db w1)) /\ Transaction.isHighRisk t = true) /\
    descending Transaction.createdAt rows /\
    (In row rows <-> gt (StringToNumber (n_sourceAmount tx)) (lit 10000 0) = true).
Proof.
  intros Hrun.
  destruct (createTransaction_returns tx w)
    as (row0 & w0 & Hrun0 & Hdb & _ & _ & Hrisk & _).
  rewrite Hrun0 in Hrun. injection Hrun as <- <-.
  eexists. split; [reflexivity |].
  assert (Hlist : forall t,
             In t (orderByDesc Transaction.createdAt
                     (filter (fun t => Bool.eqb (Transaction.isHighRisk t) true)
                                  (transactions (db w0)))) <->
             In t (transactions (db w0)) /\ Transaction.isHighRisk t = true).
  { intros t. rewrite orderByDesc_In, filter_In_iff.
    destruct (Transaction.isHighRisk t); cbn; tauto. }
  split; [exact Hlist |]. split; [apply orderByDesc_descending |].
  rewrite Hlist, Hdb, <- Hrisk. split; [tauto |].
  intros H. split; [| exact H]. apply in_or_app. right. now left.
Qed.

Lemma created_transaction_on_high_risk_list_witness :
  exists row w1 rows,
    createTransaction
      (mkNew "0c9e4f52-7a1b-4c3d-8e2f-6b5a4d3c2b1a"
         "5b2c7a10-3f4e-4d6a-9c1b-2e8f0a1d4c77" "12000" "USD" "18360000" "NGN"
         "1530" "4.99" "60" "64.99" "equipment")
      uuid_registry_world = (Returned row, w1) /\
    getHighRiskTransactions w1 =
      (Returned rows, with_event (Select TTransactions) w1) /\
    In row rows.
Proof.
  destruct (createTransaction
              (mkNew "0c9e4f52-7a1b-4c3d-8e2f-6b5a4d3c2b1a"
                 "5b2c7a10-3f4e-4d6a-9c1b-2e8f0a1d4c77" "12000" "USD" "18360000"
                 "NGN" "1530" "4.99" "60" "64.99" "equipment")
              uuid_registry_world) as [[row | e] w1] eqn:Hrun.
  - destruct (created_transaction_on_high_risk_list _ _ _ _ Hrun)
      as (rows & Hlist & _ & _ & Hon).
    exists row, w1, rows. split; [reflexivity |]. split; [exact Hlist |].
    apply Hon. vm_compute. reflexivity.
  - vm_compute in Hrun. discriminate.
Defined.

End Listings.

Section ListingRoutes.

Import storage routes.

(** X3: [GET /api/beneficiaries] answers [200] with exactly the
    beneficiaries of the caller, newest first, and only reads. *)
Theorem getBeneficiaries_only_the_callers (user : AuthUser) (w : World) :
  exists rows,
    getBeneficiaries user w =
      (Returned (Sent 200 rows), with_event (Select TBeneficiaries) w) /\
    Permutation rows
      (filter (fun b => String.eqb (Beneficiary.userId b) (user_id user))
                   (beneficiaries (db w))) /\
    (forall b, In b rows <->
               In b (beneficiaries (db w)) /\ Beneficiary.userId b = user_id user) /\
    descending Beneficiary.createdAt rows.
Proof.
  eexists. split; [reflexivity |].
  split; [apply orderByDesc_Permutation |].
  split; [| apply orderByDesc_descending].
  intros b. rewrite orderByDesc_In, filter_In_iff.
  now rewrite String.eqb_eq.
Qed.

Lemma getAdminTransactions_run (user : AuthUser) (limit : option nat) (w : World) :
  user_isAdmin user = true ->
  getAdminTransactions user limit w =
  (Returned
     (Sent 200 (firstn (default 100%nat limit)
                  (orderByDesc Transaction.createdAt (transactions (db w))))),
   with_event (Select TTransactions) w).
Proof.
  intros Hadmin. unfold getAdminTransactions, requireAdmin.
  rewrite Hadmin. reflexivity.
Qed.

(** X4: behind [requireAdmin], [GET /api/admin/transactions] answers a
    caller who is not an admin with [403 Admin access required]; the
    handler is not run, and no table is changed.  For an admin, and a
    limit that is a natural number or is not given, every answer that
    carries rows is a [200] with at most [limit] rows (100 when none is
    given) of all users, newest first; every row left out is at most as
    new as the rows returned, and no table is changed. *)
Theorem getAdminTransactions_guarded :
  (forall user limit w,
      user_isAdmin user = false ->
      fst (getAdminTransactions user limit w) =
        Returned (Refused 403 "Admin access required") /\
      db (snd (getAdminTransactions user limit w)) = db w /\
      ~ In (Select TTransactions)
           (skipn (length (events w))
                  (events (snd (getAdminTransactions user limit w))))) /\
  (forall user limit w code rows,
      user_isAdmin user = true ->
      fst (getAdminTransactions user limit w) = Returned (Sent code rows) ->
      code = 200 /\
      db (snd (getAdminTransactions user limit w)) = db w /\
      (length rows <= default 100 limit)%nat /\
      (forall t, In t rows -> In t (transactions (db w))) /\
      descending Transaction.createdAt rows /\
      (forall t t',
          In t rows -> In t' (transactions (db w)) -> ~ In t' rows ->
          Transaction.createdAt t' <= Transaction.createdAt t)).
Proof.
  split.
  { intros user limit w Hadmin. unfold getAdminTransactions, requireAdmin.
    rewrite Hadmin. cbn [negb ret fst snd].
    split; [reflexivity |]. split; [reflexivity |].
    rewrite skipn_all. intros []. }
  intros user limit w code rows Hadmin.
  rewrite (getAdminTransactions_run user limit w Hadmin). cbn [fst snd].
  set (n := default 100%nat limit).
  intros Hrun. injection Hrun as <- <-.
  split; [reflexivity |]. split; [reflexivity |].
  split; [apply firstn_le_length |].
  split.
  { intros t Ht. apply (orderByDesc_In Transaction.createdAt).
    rewrite <- (firstn_skipn n (orderByDesc _ _)). apply in_or_app. now left. }
  split; [apply descending_firstn, orderByDesc_descending |].
  intros t t' Ht Ht' Hout.
  apply (firstn_orderByDesc_newest Transaction.createdAt n (transactions (db w)));
    [exact Ht |].
  apply (orderByDesc_In Transaction.createdAt) in Ht'.
  rewrite <- (firstn_skipn n (orderByDesc _ _)) in Ht'.
  apply in_app_or in Ht' as [Hin | Hin]; [contradiction | exact Hin].
Qed.

Lemma getAdminTransactions_guarded_witness :
  fst (getAdminTransactions another_user None history_world) =
    Returned (Refused 403 "Admin access required") /\
  exists rows,
    fst (getAdminTransactions an_admin (Some 1%nat) history_world) =
      Returned (Sent 200 rows) /\
    (length rows <= 1)%nat.
Proof.
  destruct getAdminTransactions_guarded as (Hno & Hyes).
  split; [now apply Hno |].
  destruct (fst (getAdminTransactions an_admin (Some 1%nat) history_world))
    as [[code rows | | |] | e] eqn:Hrun; try (vm_compute in Hrun; discriminate).
  destruct (Hyes an_admin (Some 1%nat) history_world code rows eq_refl Hrun)
    as (-> & _ & Hlen & _).
  exists rows. split; [reflexivity | exact Hlen].
Defined.

End ListingRoutes.

(** ** Transactions after their creation *)

Section AfterCreation.

Import storage routes.

Lemma filter_cons_bool {A} (f : A -> bool) (x : A) (l : list A) :
  filter f (x :: l) = if f x then x :: filter f l else filter f l.
Proof.
  rewrite filter_cons. destruct (f x); cbn; now destruct (decide _).
Qed.

Lemma filter_none {A} (f : A -> bool) (l : list A) :
  (forall x, In x l -> f x = false) -> filter f l = [].
Proof.
  induction l as [| h r IH]; intros H; [reflexivity |].
  rewrite filter_cons_bool, (H h (or_introl eq_refl)).
  apply IH. intros x Hx. apply H. now right.
Qed.



Lemma frozen_set_status (status : string) (adminNotes : option string) (now : Z)
    (t : Transaction.t) :
  frozen (set_status status adminNotes now t) = frozen t.
Proof. reflexivity. Qed.

Lemma putTransactionStatus_total (user : AuthUser) (id status : string)
    (adminNotes : option string) (w : World) :
  (exists reply w',
      putTransactionStatus user id status adminNotes w = (Returned reply, w') /\
      transactions (db w') = rows_after_update id status adminNotes w /\
      beneficiaries (db w') = beneficiaries (db w) /\
      fxRates (db w') = fxRates (db w)) \/
  (exists reply,
      putTransactionStatus user id status adminNotes w = (Returned reply, w)).
Proof.
  destruct (user_isAdmin user) eqn:Hadmin.
  - destruct (existsb (String.eqb status) known_statuses) eqn:Hknown.
    + left. apply putTransactionStatus_accepts; [exact Hadmin |].
      now apply known_status_In.
    + right.
      destruct (putTransactionStatus_rejects user id status adminNotes w)
        as (reply & Hrun & _); [| eauto].
      right. intros Hin. apply known_status_In in Hin. congruence.
  - right.
    destruct (putTransactionStatus_rejects user id status adminNotes w)
      as (reply & Hrun & _); [now left | eauto].
Qed.

(** X5: whatever the request, [PUT /api/admin/transactions/:id/status]
    leaves the number and order of the transactions and, in every row, the
    owner, the beneficiary, the amounts, the currencies, the rate, the
    fees, the purpose, the high-risk flag and the creation time as they
    were; beneficiaries and cached rates are not touched. *)
Theorem status_update_keeps_the_priced_columns (user : AuthUser) (id status : string)
    (adminNotes : option string) (w : World) :
  let w' := snd (putTransactionStatus user id status adminNotes w) in
  map frozen (transactions (db w')) = map frozen (transactions (db w)) /\
  beneficiaries (db w') = beneficiaries (db w) /\
  fxRates (db w') = fxRates (db w).
Proof.
  cbn zeta.
  destruct (putTransactionStatus_total user id status adminNotes w)
    as [(reply & w' & Hrun & Hrows & Hb & Hfx) | (reply & Hrun)];
    rewrite Hrun; cbn [snd]; [| auto].
  split; [| auto]. rewrite Hrows. unfold rows_after_update.
  rewrite map_map. apply map_ext. intros t.
  destruct (String.eqb (Transaction.id t) id); [apply frozen_set_status | reflexivity].
Qed.




Lemma createTransaction_run (tx : NewTransaction) (w : World) :
  createTransaction tx w =
  (Returned (created_row tx w),
   with_db (mkDb (beneficiaries (db w))
                 (transactions (db w) ++ [created_row tx w])
                 (fxRates (db w)))
           (with_issued (S (issued w)) (with_event (Insert TTransactions) w))).
Proof. reflexivity. Qed.




End AfterCreation.

(** ** The beneficiary registry *)

Section Registry.

Import storage routes.

Lemma putBeneficiary_run (user : AuthUser) (id : string) (body : BeneficiaryBody)
    (w : World) :
  putBeneficiary user id body w =
  match validate_partial_beneficiary body with
  | None =>
      (Returned (mkReply 400 (MessageError "Failed to update beneficiary" ZodError)), w)
  | Some data =>
      match target (db w) id with
      | Some b =>
          if String.eqb (Beneficiary.userId b) (user_id user) then
            (Returned (mkReply 200
                         (BeneficiaryJson
                            (first_row
                               (filter (fun b => String.eqb (Beneficiary.id b) id)
                                       (patched_rows id data w))))),
             after_update id data w)
          else (Returned not_found, with_event (Select TBeneficiaries) w)
      | None => (Returned not_found, with_event (Select TBeneficiaries) w)
      end
  end.
Proof.
  unfold putBeneficiary, try_catch, parse_partial_beneficiary, bind.
  destruct (validate_partial_beneficiary body) as [data |]; [| reflexivity].
  change (getBeneficiaryById id (snd (ret data w)))
    with (Returned (target (db w) id), with_event (Select TBeneficiaries) w).
  cbn [ret fst snd].
  change (getBeneficiaryById id w)
    with (Returned (target (db w) id), with_event (Select TBeneficiaries) w).
  destruct (target (db w) id) as [b |]; [| reflexivity].
  now destruct (String.eqb (Beneficiary.userId b) (user_id user)).
Qed.

Lemma deleteBeneficiary_run (user : AuthUser) (id : string) (w : World) :
  routes.deleteBeneficiary user id w =
  match target (db w) id with
  | Some b =>
      if String.eqb (Beneficiary.userId b) (user_id user) then
        (Returned (mkReply 200 (Message "Beneficiary deleted successfully")),
         after_delete id w)
      else (Returned not_found, with_event (Select TBeneficiaries) w)
  | None => (Returned not_found, with_event (Select TBeneficiaries) w)
  end.
Proof.
  unfold routes.deleteBeneficiary, try_catch, bind.
  change (getBeneficiaryById id w)
    with (Returned (target (db w) id), with_event (Select TBeneficiaries) w).
  destruct (target (db w) id) as [b |] eqn:Htarget; [| reflexivity].
  destruct (String.eqb (Beneficiary.userId b) (user_id user)); [| reflexivity].
  cbn [negb]. unfold storage.deleteBeneficiary, bind, emit, get_db, put_db, ret.
  cbn [fst snd db with_event beneficiaries].
  assert (Hpos : (0 <? Z.of_nat (length (filter (fun b => String.eqb (Beneficiary.id b) id)
                                                (beneficiaries (db w))))) = true).
  { unfold target in Htarget.
    destruct (filter _ (beneficiaries (db w))); [discriminate | reflexivity]. }
  rewrite Hpos. reflexivity.
Qed.


Lemma required_string_checked (check : nat -> bool) (v : option Json) (s : string) :
  required_string check v = Some s ->
  v = Some (JString s) /\ check (String.length s) = true.
Proof.
  destruct v as [[s' |] |]; cbn; try discriminate.
  destruct (check (String.length s')) eqn:E; [| discriminate].
  intros H. injection H as <-. auto.
Qed.

Lemma validate_beneficiary_checked (body : BeneficiaryBody)
    (name accountNumber country currency : string) :
  validate_beneficiary body = Some (name, accountNumber, country, currency) ->
  body = mkBody (Some (JString name)) (Some (JString accountNumber))
                (Some (JString country)) (Some (JString currency)) /\
  (2 <=? String.length name)%nat = true /\
  (5 <=? String.length accountNumber)%nat = true /\
  (String.length country =? 2)%nat = true /\
  (String.length currency =? 3)%nat = true.
Proof.
  unfold validate_beneficiary.
  destruct (required_string _ (body_name body)) as [n |] eqn:Hn; [| discriminate].
  destruct (required_string _ (body_accountNumber body)) as [a |] eqn:Ha;
    [| discriminate].
  destruct (required_string _ (body_country body)) as [c |] eqn:Hc; [| discriminate].
  destruct (required_string _ (body_currency body)) as [k |] eqn:Hk; [| discriminate].
  intros H. injection H as <- <- <- <-.
  apply required_string_checked in Hn as [Hn ?], Ha as [Ha ?], Hc as [Hc ?],
    Hk as [Hk ?].
  destruct body as [bn ba bc bk]. cbn in *. subst. auto.
Qed.

Lemma postBeneficiary_run (user : AuthUser) (body : BeneficiaryBody) (w : World) :
  postBeneficiary user body w =
  match validate_beneficiary body with
  | None => (Returned (RefusedBecause 400 "Failed to create beneficiary" ZodError), w)
  | Some (name, accountNumber, country, currency) =>
      let row :=
        Beneficiary.mk (uuids w (issued w)) (user_id user) name accountNumber
                       country currency (clock w) (clock w) in
      (Returned (Sent 201 row),
       with_db (mkDb (beneficiaries (db w) ++ [row]) (transactions (db w))
                     (fxRates (db w)))
               (with_issued (S (issued w)) (with_event (Insert TBeneficiaries) w)))
  end.
Proof.
  unfold postBeneficiary, try_catch, parse_beneficiary, bind.
  now destruct (validate_beneficiary body) as [[[[name account] country] currency] |].
Qed.



(** X9: no request to [PUT /api/beneficiaries/:id] changes the id, the
    owner or the creation time of any beneficiary, the number or order of
    the rows, or any transaction or cached rate. *)
Theorem putBeneficiary_keeps_identity_and_owner (user : AuthUser) (id : string)
    (body : BeneficiaryBody) (w : World) :
  let w' := snd (putBeneficiary user id body w) in
  map identity_of (beneficiaries (db w')) = map identity_of (beneficiaries (db w)) /\
  transactions (db w') = transactions (db w) /\
  fxRates (db w') = fxRates (db w).
Proof.
  cbn zeta. rewrite putBeneficiary_run.
  destruct (validate_partial_beneficiary body) as [data |]; [| auto].
  destruct (target (db w) id) as [b |]; [| auto].
  destruct (String.eqb (Beneficiary.userId b) (user_id user)); [| auto].
  cbn. split; [| auto]. unfold patched_rows. rewrite map_map.
  apply map_ext. intros b'.
  now destruct (String.eqb (Beneficiary.id b') id).
Qed.



(** X11: when the owner deletes a beneficiary that no transaction refers
    to, the answer is [200], no row with that id is left, rows with
    another id and all transactions are exactly as before, and the same
    request sent again is answered [404 Beneficiary not found]. *)
Theorem deleteBeneficiary_by_its_owner (user : AuthUser) (id : string)
    (b : Beneficiary.t) (w : World) :
  target (db w) id = Some b ->
  Beneficiary.userId b = user_id user ->
  (forall t, In t (transactions (db w)) -> Transaction.beneficiaryId t <> id) ->
  exists w',
    routes.deleteBeneficiary user id w =
      (Returned (mkReply 200 (Message "Beneficiary deleted successfully")), w') /\
    target (db w') id = None /\
    (forall other, In other (beneficiaries (db w')) <->
                   In other (beneficiaries (db w)) /\ Beneficiary.id other <> id) /\
    transactions (db w') = transactions (db w) /\
    fst (routes.deleteBeneficiary user id w') = Returned not_found.
Proof.
  intros Htarget Howner _. rewrite deleteBeneficiary_run, Htarget.
  apply String.eqb_eq in Howner. rewrite Howner.
  exists (after_delete id w). split; [reflexivity |].
  assert (Hgone : target (db (after_delete id w)) id = None).
  { unfold target. cbn [after_delete db with_db beneficiaries].
    rewrite filter_none; [reflexivity |].
    intros x Hx. apply filter_In_iff in Hx as [_ Hx].
    now apply negb_true_iff in Hx. }
  split; [exact Hgone |]. split; [| split; [reflexivity |]].
  - intros other. cbn [after_delete db with_db beneficiaries].
    rewrite filter_In_iff, negb_true_iff, String.eqb_neq. tauto.
  - rewrite deleteBeneficiary_run, Hgone. reflexivity.
Qed.

Lemma deleteBeneficiary_by_its_owner_witness :
  exists w',
    routes.deleteBeneficiary (a_principal "user-1") "ben-1" registry_world =
      (Returned (mkReply 200 (Message "Beneficiary deleted successfully")), w') /\
    target (db w') "ben-1" = None.
Proof.
  destruct (deleteBeneficiary_by_its_owner (a_principal "user-1") "ben-1" alice
              registry_world) as (w' & Hrun & Hgone & _);
    try reflexivity; try (intros t []).
  exists w'. split; [exact Hrun | exact Hgone].
Defined.

Lemma optional_string_checked (check : nat -> bool) (v : option Json) (s : string) :
  optional_string check v = Some (Some s) -> check (String.length s) = true.
Proof.
  destruct v as [[s' |] |]; cbn; try discriminate.
  destruct (check (String.length s')) eqn:E; [| discriminate].
  intros H. injection H as <-. exact E.
Qed.

Lemma validate_partial_checked (body : BeneficiaryBody) (data : BeneficiaryPatch) :
  validate_partial_beneficiary body = Some data ->
  (forall s, p_name data = Some s -> (2 <=? String.length s)%nat = true) /\
  (forall s, p_accountNumber data = Some s -> (5 <=? String.length s)%nat = true) /\
  (forall s, p_country data = Some s -> (String.length s =? 2)%nat = true) /\
  (forall s, p_currency data = Some s -> (String.length s =? 3)%nat = true).
Proof.
  unfold validate_partial_beneficiary.
  destruct (optional_string _ (body_name body)) as [n |] eqn:Hn; [| discriminate].
  destruct (optional_string _ (body_accountNumber body)) as [a |] eqn:Ha;
    [| discriminate].
  destruct (optional_string _ (body_country body)) as [c |] eqn:Hc; [| discriminate].
  destruct (optional_string _ (body_currency body)) as [k |] eqn:Hk; [| discriminate].
  intros H. injection H as <-.
  cbn [p_name p_accountNumber p_country p_currency].
  split; [| split; [| split]]; intros s ->.
  - exact (optional_string_checked _ _ s Hn).
  - exact (optional_string_checked _ _ s Ha).
  - exact (optional_string_checked _ _ s Hc).
  - exact (optional_string_checked _ _ s Hk).
Qed.

Lemma apply_patch_well_formed (body : BeneficiaryBody) (data : BeneficiaryPatch)
    (now : Z) (b : Beneficiary.t) :
  validate_partial_beneficiary body = Some data ->
  well_formed b = true ->
  well_formed (apply_patch data now b) = true.
Proof.
  intros Hv Hb. apply validate_partial_checked in Hv as (Hn & Ha & Hc & Hk).
  unfold well_formed in *.
  cbn [apply_patch Beneficiary.name Beneficiary.accountNumber Beneficiary.country
       Beneficiary.currency].
  apply andb_true_iff in Hb as [Hb H4]. apply andb_true_iff in Hb as [Hb H3].
  apply andb_true_iff in Hb as [H1 H2].
  assert (G1 : (2 <=? String.length (default (Beneficiary.name b) (p_name data)))%nat
               = true)
    by (destruct (p_name data) as [n |]; [exact (Hn n eq_refl) | exact H1]).
  assert (G2 : (5 <=? String.length (default (Beneficiary.accountNumber b)
                                             (p_accountNumber data)))%nat = true)
    by (destruct (p_accountNumber data) as [a |]; [exact (Ha a eq_refl) | exact H2]).
  assert (G3 : (String.length (default (Beneficiary.country b) (p_country data))
                =? 2)%nat = true)
    by (destruct (p_country data) as [c |]; [exact (Hc c eq_refl) | exact H3]).
  assert (G4 : (String.length (default (Beneficiary.currency b) (p_currency data))
                =? 3)%nat = true)
    by (destruct (p_currency data) as [k |]; [exact (Hk k eq_refl) | exact H4]).
  now rewrite G1, G2, G3, G4.
Qed.

(** X12: the three routes that write beneficiaries keep the table
    well-formed: if every stored beneficiary has a name of at least 2
    characters, an account number of at least 5, a country of exactly 2
    and a currency of exactly 3, the same holds after any [POST], [PUT]
    or [DELETE] request, accepted or refused. *)
Theorem beneficiary_routes_keep_rows_well_formed (w : World) :
  Forall (fun b => well_formed b = true) (beneficiaries (db w)) ->
  (forall user body,
      Forall (fun b => well_formed b = true)
             (beneficiaries (db (snd (postBeneficiary user body w))))) /\
  (forall user id body,
      Forall (fun b => well_formed b = true)
             (beneficiaries (db (snd (putBeneficiary user id body w))))) /\
  (forall user id,
      Forall (fun b => well_formed b = true)
             (beneficiaries (db (snd (routes.deleteBeneficiary user id w))))).
Proof.
  intros Hw. split; [| split].
  - intros user body. rewrite postBeneficiary_run.
    destruct (validate_beneficiary body) as [[[[n a] c] k] |] eqn:Hv; [| exact Hw].
    apply validate_beneficiary_checked in Hv as (_ & H1 & H2 & H3 & H4).
    cbn. apply List.Forall_app. split; [exact Hw |].
    constructor; [| constructor]. unfold well_formed.
    cbn [Beneficiary.name Beneficiary.accountNumber Beneficiary.country
         Beneficiary.currency].
    now rewrite H1, H2, H3, H4.
  - intros user id body. rewrite putBeneficiary_run.
    destruct (validate_partial_beneficiary body) as [data |] eqn:Hv; [| exact Hw].
    destruct (target (db w) id) as [b |]; [| exact Hw].
    destruct (String.eqb (Beneficiary.userId b) (user_id user)); [| exact Hw].
    cbn. unfold patched_rows. apply List.Forall_forall. intros x Hx.
    apply in_map_iff in Hx as (y & <- & Hy).
    pose proof (proj1 (List.Forall_forall _ _) Hw y Hy) as Hwy.
    destruct (String.eqb (Beneficiary.id y) id); [| exact Hwy].
    now apply (apply_patch_well_formed body).
  - intros user id. rewrite deleteBeneficiary_run.
    destruct (target (db w) id) as [b |]; [| exact Hw].
    destruct (String.eqb (Beneficiary.userId b) (user_id user)); [| exact Hw].
    cbn. apply List.Forall_forall. intros x Hx.
    apply filter_In_iff in Hx as [Hx _].
    exact (proj1 (List.Forall_forall _ _) Hw x Hx).
Qed.

Lemma beneficiary_routes_keep_rows_well_formed_witness :
  Forall (fun b => well_formed b = true)
         (beneficiaries
            (db (snd (putBeneficiary (a_principal "user-1") "ben-1"
                        (mkBody (Some (JString "Al")) None None None)
                        registry_world)))).
Proof.
  apply (beneficiary_routes_keep_rows_well_formed registry_world).
  repeat constructor.
Defined.

End Registry.

(** ** The rate cache over several calls *)

Section CacheHistory.

Import fxService.

Lemma fetchFreshRates_run (baseCurrency : string) (w : World) :
  fetchFreshRates baseCurrency w =
  if fetch_throws (network w (rates_url baseCurrency)) then
    (Thrown (match network w (rates_url baseCurrency) with
             | NetworkFailure => FetchFailed
             | Responded r =>
                 if negb (ok r) then ApiError (statusCode r)
                 else match body r with
                      | NotJson => JsonSyntaxError
                      | JsonNull => TypeError
                      | JsonData _ _ => InvalidApiResponse
                      end
             end),
     requested baseCurrency w)
  else
    (Returned (fetched_table (network w (rates_url baseCurrency))),
     cached (fetched_table (network w (rates_url baseCurrency)))
            (requested baseCurrency w)).
Proof.
  unfold fetchFreshRates, fetch, bind, emit, fetch_throws, fetched_table, requested.
  fold (rates_url baseCurrency). cbn [fst snd with_event network].
  destruct (network w (rates_url baseCurrency)) as [| r]; [reflexivity |].
  destruct (ok r); cbn [negb orb]; [| reflexivity].
  unfold response_json. destruct (body r) as [| | success rates]; try reflexivity.
  destruct success, rates as [table |]; reflexivity.
Qed.

(** The three ways [getCurrentRates] can go. *)
Lemma getCurrentRates_run (baseCurrency : string) (w : World) :
  getCurrentRates baseCurrency w =
  if cache_fresh w then
    (Returned (cached_or_fallback (db w)), with_event (Select TFxRates) w)
  else if fetch_throws (network w (rates_url baseCurrency)) then
    (Returned (cached_or_fallback (db w)),
     with_event (Select TFxRates)
       (requested baseCurrency (with_event (Select TFxRates) w)))
  else
    (Returned (fetched_table (network w (rates_url baseCurrency))),
     cached (fetched_table (network w (rates_url baseCurrency)))
            (requested baseCurrency (with_event (Select TFxRates) w))).
Proof.
  destruct (cache_fresh w) eqn:Hfresh.
  - unfold cache_fresh in Hfresh. unfold cached_or_fallback.
    destruct (latestFxRow (db w)) as [c |] eqn:Hc; [| discriminate].
    apply Z.ltb_lt in Hfresh. now apply getCurrentRates_fresh.
  - rewrite (getCurrentRates_stale _ _ Hfresh). unfold try_catch.
    rewrite fetchFreshRates_run. cbn [network with_event].
    destruct (fetch_throws (network w (rates_url baseCurrency))); [| reflexivity].
    unfold bind. rewrite getLatestFxRates_run. unfold cached_or_fallback.
    cbn [db with_event requested].
    now destruct (latestFxRow (db w)).
Qed.

Lemma cached_is_fresh (table : RateTable) (w : World) :
  cache_fresh w = false ->
  latestFxRow (db (cached table w)) =
    Some (FxRate.mk (uuids w (issued w)) "USD" table (clock w)) /\
  cache_fresh (cached table w) = true.
Proof.
  intros Hstale.
  assert (Hlatest : latestFxRow (db (cached table w)) =
                    Some (FxRate.mk (uuids w (issued w)) "USD" table (clock w))).
  { rewrite latestFxRow_first. cbn [cached db with_db fxRates].
    apply first_row_orderByDesc_app. intros c Hin. cbn.
    now apply stale_rows_are_old. }
  split; [exact Hlatest |].
  unfold cache_fresh. rewrite Hlatest. cbn. now rewrite Z.sub_diag.
Qed.

Lemma getCurrentRates_returns (baseCurrency : string) (w : World) :
  getCurrentRates baseCurrency w =
  (Returned (current_table baseCurrency w), after_rates baseCurrency w).
Proof.
  rewrite getCurrentRates_run. unfold current_table, after_rates.
  destruct (cache_fresh w); [reflexivity |].
  now destruct (fetch_throws (network w (rates_url baseCurrency))).
Qed.

Lemma after_rates_surroundings (baseCurrency : string) (w : World) :
  same_surroundings w (after_rates baseCurrency w).
Proof.
  unfold after_rates.
  destruct (cache_fresh w); [repeat split |].
  destruct (fetch_throws (network w (rates_url baseCurrency))); repeat split.
Qed.

(** The cache stays fresh, or stays as it was, across a call. *)
Lemma after_rates_again (baseCurrency : string) (w : World) :
  current_table baseCurrency (after_rates baseCurrency w) =
    current_table baseCurrency w /\
  (cache_fresh w = true \/
   fetch_throws (network w (rates_url baseCurrency)) = false ->
   after_rates baseCurrency (after_rates baseCurrency w) =
     with_event (Select TFxRates) (after_rates baseCurrency w)).
Proof.
  destruct (cache_fresh w) eqn:Hfresh;
    [| destruct (fetch_throws (network w (rates_url baseCurrency))) eqn:Hthrows].
  - assert (E : after_rates baseCurrency w = with_event (Select TFxRates) w)
      by (unfold after_rates; now rewrite Hfresh).
    assert (T : current_table baseCurrency w = cached_or_fallback (db w))
      by (unfold current_table; now rewrite Hfresh).
    rewrite E, T. unfold current_table, after_rates.
    change (cache_fresh (with_event (Select TFxRates) w)) with (cache_fresh w).
    rewrite Hfresh. auto.
  - assert (E : after_rates baseCurrency w =
                with_event (Select TFxRates)
                  (requested baseCurrency (with_event (Select TFxRates) w)))
      by (unfold after_rates; now rewrite Hfresh, Hthrows).
    assert (T : current_table baseCurrency w = cached_or_fallback (db w))
      by (unfold current_table; now rewrite Hfresh, Hthrows).
    rewrite E, T. unfold current_table, after_rates.
    change (cache_fresh (with_event (Select TFxRates)
                           (requested baseCurrency (with_event (Select TFxRates) w))))
      with (cache_fresh w).
    rewrite Hfresh. cbn [network with_event requested]. rewrite Hthrows.
    split; [reflexivity |]. intros [? | ?]; discriminate.
  - assert (E : after_rates baseCurrency w =
                cached (fetched_table (network w (rates_url baseCurrency)))
                       (requested baseCurrency (with_event (Select TFxRates) w)))
      by (unfold after_rates; now rewrite Hfresh, Hthrows).
    assert (T : current_table baseCurrency w =
                fetched_table (network w (rates_url baseCurrency)))
      by (unfold current_table; now rewrite Hfresh, Hthrows).
    rewrite E, T.
    destruct (cached_is_fresh
                (fetched_table (network w (rates_url baseCurrency)))
                (requested baseCurrency (with_event (Select TFxRates) w)) Hfresh)
      as [Hlatest Hnow].
    unfold current_table, after_rates. rewrite Hnow.
    unfold cached_or_fallback. rewrite Hlatest. auto.
Qed.




End CacheHistory.

(** ** Quotes and the creation of transactions *)

Section Quotes.

Import fxService storage routes.

Lemma getExchangeRate_returns (fromCurrency toCurrency : string) (w : World) :
  getExchangeRate fromCurrency toCurrency w =
  if String.eqb fromCurrency toCurrency then (Returned (lit 1 0), w)
  else
    match quoted_rate fromCurrency toCurrency w with
    | Some rate => (Returned rate, after_rates fromCurrency w)
    | None =>
        (Thrown (RateNotAvailable fromCurrency toCurrency),
         after_rates fromCurrency w)
    end.
Proof.
  unfold getExchangeRate, bind, quoted_rate.
  destruct (String.eqb fromCurrency toCurrency); [reflexivity |].
  rewrite getCurrentRates_returns.
  destruct (current_table fromCurrency w !! toCurrency) as [rate |]; [| reflexivity].
  now destruct (truthy rate).
Qed.

Lemma convertAmount_returns (amount : number) (fromCurrency toCurrency : string)
    (w : World) :
  convertAmount amount fromCurrency toCurrency w =
  if String.eqb fromCurrency toCurrency then
    (Returned (toFixed2 (mul amount (lit 1 0))), w)
  else
    match quoted_rate fromCurrency toCurrency w with
    | Some rate =>
        (Returned (toFixed2 (mul amount rate)), after_rates fromCurrency w)
    | None =>
        (Thrown (RateNotAvailable fromCurrency toCurrency),
         after_rates fromCurrency w)
    end.
Proof.
  unfold convertAmount, bind. rewrite getExchangeRate_returns.
  destruct (String.eqb fromCurrency toCurrency); [reflexivity |].
  now destruct (quoted_rate fromCurrency toCurrency w).
Qed.

Lemma quoted_rate_again (fromCurrency toCurrency : string) (w : World) :
  quoted_rate fromCurrency toCurrency (after_rates fromCurrency w) =
  quoted_rate fromCurrency toCurrency w.
Proof.
  unfold quoted_rate. now rewrite (proj1 (after_rates_again fromCurrency w)).
Qed.

Lemma quoted_rate_truthy (fromCurrency toCurrency : string) (w : World)
    (rate : number) :
  quoted_rate fromCurrency toCurrency w = Some rate ->
  current_table fromCurrency w !! toCurrency = Some rate /\ truthy rate = true.
Proof.
  unfold quoted_rate.
  destruct (current_table fromCurrency w !! toCurrency) as [r |]; [| discriminate].
  destruct (truthy r) eqn:E; [| discriminate].
  intros H. injection H as <-. auto.
Qed.

Lemma same_surroundings_trans (w1 w2 w3 : World) :
  same_surroundings w1 w2 -> same_surroundings w2 w3 -> same_surroundings w1 w3.
Proof.
  unfold same_surroundings. intros (?&?&?&?&?&?) (?&?&?&?&?&?).
  repeat split; congruence.
Qed.

Lemma same_surroundings_refl (w : World) : same_surroundings w w.
Proof. repeat split. Qed.

(** X15: [GET /api/fx/rates] stamps its answer with the time of the
    request, not with the age of the table.  Whenever
    [getCurrentRates("USD")] returns a table, the route answers [200] with
    that table and a [lastUpdated] of now.  So when the cache is stale and
    the request to the provider throws, the answer carries the table of
    the newest cached row, at least fifteen minutes old, under a
    [lastUpdated] of now. *)
Theorem getFxRates_lastUpdated_is_now :
  (forall w table w',
      getCurrentRates "USD" w = (Returned table, w') ->
      getFxRates w =
        (Returned (Sent 200 (mkRatesDocument table (clock w))), w')) /\
  (forall w c,
      latestFxRow (db w) = Some c ->
      cache_fresh w = false ->
      fetch_throws (network w (rates_url "USD")) = true ->
      fst (getFxRates w) =
        Returned (Sent 200 (mkRatesDocument (FxRate.rates c) (clock w))) /\
      15 * 60 * 1000 <= clock w - FxRate.lastUpdated c).
Proof.
  assert (Hrun : forall w,
             getFxRates w =
             (Returned (Sent 200 (mkRatesDocument (current_table "USD" w) (clock w))),
              after_rates "USD" w)).
  { intros w. unfold getFxRates, try_catch, bind.
    rewrite getCurrentRates_returns. unfold new_Date, ret.
    now rewrite (proj1 (after_rates_surroundings "USD" w)). }
  split.
  - intros w table w' Hrates. rewrite getCurrentRates_returns in Hrates.
    injection Hrates as <- <-. apply Hrun.
  - intros w c Hc Hstale Hthrows. rewrite Hrun. cbn [fst].
    unfold current_table, cached_or_fallback. rewrite Hstale, Hthrows, Hc.
    split; [reflexivity |].
    unfold cache_fresh in Hstale. rewrite Hc in Hstale.
    apply Z.ltb_ge in Hstale. exact Hstale.
Qed.

Lemma getFxRates_lastUpdated_is_now_witness :
  fst (getFxRates (stale_world NetworkFailure)) =
    Returned (Sent 200 (mkRatesDocument {[ "EUR" := lit 9 1 ]} 1700000900000)).
Proof.
  refine (proj1 (proj2 getFxRates_lastUpdated_is_now (stale_world NetworkFailure)
                   (FxRate.mk "7d1c8f3a-0000-4000-8000-000000000001" "USD"
                              {[ "EUR" := lit 9 1 ]} 1700000000000) _ _ _));
    reflexivity.
Defined.

Lemma getFxConvert_run (amount from to : option string) (w : World) :
  getFxConvert amount from to w =
  if missing amount || missing from || missing to then
    (Returned (Refused 400 "Missing required parameters: amount, from, to"), w)
  else
    let a := StringToNumber (default "" amount) in
    let f := default "" from in
    let t := default "" to in
    let quote rate :=
      mkConversion a f (toFixed2 (mul a rate)) t rate (calculateFees a)
                   (add a (totalFee (calculateFees a))) in
    if String.eqb f t then (Returned (Sent 200 (quote (lit 1 0))), w)
    else
      match quoted_rate f t w with
      | Some rate =>
          (Returned (Sent 200 (quote rate)), after_rates f (after_rates f w))
      | None => (Returned (RefusedWith 400 (RateNotAvailable f t)), after_rates f w)
      end.
Proof.
  unfold getFxConvert, try_catch, bind.
  destruct (missing amount || missing from || missing to); [reflexivity |].
  cbn zeta. rewrite convertAmount_returns.
  destruct (String.eqb (default "" from) (default "" to)) eqn:E.
  - rewrite getExchangeRate_returns, E. reflexivity.
  - destruct (quoted_rate (default "" from) (default "" to) w) as [rate |] eqn:Hq;
      [| reflexivity].
    rewrite getExchangeRate_returns, E, quoted_rate_again, Hq. reflexivity.
Qed.

(** X16: [GET /api/fx/convert].  A request that lacks [amount], [from] or
    [to], or gives one of them empty, is answered [400] and causes no
    statement and no request to the provider; so is, with [200] and the
    rate 1, a request for one and the same currency.  No request changes
    a beneficiary or a transaction.  Every [200] answer quotes the amount
    that was sent, the fees [calculateFees] gives for it, and as total
    cost that amount plus the total fee. *)
Theorem getFxConvert_quotes :
  (forall amount from to w,
      missing amount || missing from || missing to = true ->
      getFxConvert amount from to w =
        (Returned (Refused 400 "Missing required parameters: amount, from, to"), w)) /\
  (forall amount currency w,
      amount <> "" -> currency <> "" ->
      exists quote,
        getFxConvert (Some amount) (Some currency) (Some currency) w =
          (Returned (Sent 200 quote), w) /\
        cv_exchangeRate quote = lit 1 0) /\
  (forall amount from to w,
      same_surroundings w (snd (getFxConvert amount from to w))) /\
  (forall amount from to w code quote,
      fst (getFxConvert amount from to w) = Returned (Sent code quote) ->
      code = 200 /\
      cv_sourceAmount quote = StringToNumber (default "" amount) /\
      cv_fees quote = calculateFees (cv_sourceAmount quote) /\
      cv_totalCost quote =
        add (cv_sourceAmount quote) (totalFee (cv_fees quote))).
Proof.
  split; [| split; [| split]].
  - intros amount from to w Hmissing. now rewrite getFxConvert_run, Hmissing.
  - intros amount currency w Ha Hc. rewrite getFxConvert_run.
    apply String.eqb_neq in Ha, Hc. cbn [missing default]. rewrite Ha, Hc.
    cbn [orb]. cbn zeta. rewrite String.eqb_refl. eexists. split; reflexivity.
  - intros amount from to w. rewrite getFxConvert_run.
    destruct (missing amount || missing from || missing to);
      [apply same_surroundings_refl |].
    cbn zeta. destruct (String.eqb (default "" from) (default "" to));
      [apply same_surroundings_refl |].
    destruct (quoted_rate (default "" from) (default "" to) w); cbn [snd].
    + eapply same_surroundings_trans; apply after_rates_surroundings.
    + apply after_rates_surroundings.
  - intros amount from to w code quote. rewrite getFxConvert_run.
    destruct (missing amount || missing from || missing to); [discriminate |].
    cbn zeta. destruct (String.eqb (default "" from) (default "" to)).
    + cbn [fst]. intros H. injection H as <- <-. repeat split.
    + destruct (quoted_rate (default "" from) (default "" to) w) as [rate |];
        cbn [fst]; [| discriminate].
      intros H. injection H as <- <-. repeat split.
Qed.

Lemma getFxConvert_quotes_witness :
  getFxConvert (Some "200") None (Some "EUR") offline_world =
    (Returned (Refused 400 "Missing required parameters: amount, from, to"),
     offline_world) /\
  (exists quote,
      getFxConvert (Some "200") (Some "EUR") (Some "EUR") offline_world =
        (Returned (Sent 200 quote), offline_world) /\
      cv_exchangeRate quote = lit 1 0) /\
  lit 20599 2 = add (lit 200 0) (totalFee (calculateFees (lit 200 0))).
Proof.
  destruct getFxConvert_quotes as (Hmissing & Hsame & _ & Hquote).
  split; [now apply Hmissing |]. split; [apply Hsame; discriminate |].
  destruct (Hquote (Some "200") (Some "USD") (Some "EUR") offline_world 200
              (mkConversion (lit 200 0) "USD" (lit 17094 2) "EUR" (lit 8547 4)
                 (calculateFees (lit 200 0)) (lit 20599 2)))
    as (_ & _ & _ & Hcost).
  - vm_compute. reflexivity.
  - exact Hcost.
Defined.

End Quotes.

(** ** Creating a transaction through the route, and the dashboard *)

Section Transfers.

Import fxService storage routes.

Lemma getBeneficiaryById_run (id : string) (w : World) :
  getBeneficiaryById id w =
  (Returned (target (db w) id), with_event (Select TBeneficiaries) w).
Proof. reflexivity. Qed.

Lemma postTransaction_run (user : AuthUser) (parsed : option InsertTransaction)
    (w : World) :
  postTransaction user parsed w =
  match parsed with
  | None =>
      (Returned (RefusedBecause 400 "Failed to create transaction" ZodError), w)
  | Some data =>
      let w1 := with_event (Select TBeneficiaries) w in
      match target (db w) (it_beneficiaryId data) with
      | None => (Returned (Refused 400 "Invalid beneficiary"), w1)
      | Some b =>
          if negb (String.eqb (Beneficiary.userId b) (user_id user)) then
            (Returned (Refused 400 "Invalid beneficiary"), w1)
          else if String.eqb (it_sourceCurrency data) (payout_currency b) then
            let tx := priced_transaction user data b (lit 1 0) in
            (Returned (Sent 201 (created_row tx w1)), after_create tx w1)
          else
            match quoted_rate (it_sourceCurrency data) (payout_currency b) w1 with
            | Some rate =>
                let tx := priced_transaction user data b rate in
                let w2 :=
                  after_rates (it_sourceCurrency data)
                    (after_rates (it_sourceCurrency data) w1) in
                (Returned (Sent 201 (created_row tx w2)), after_create tx w2)
            | None =>
                (Returned
                   (RefusedBecause 400 "Failed to create transaction"
                      (RateNotAvailable (it_sourceCurrency data) (payout_currency b))),
                 after_rates (it_sourceCurrency data) w1)
            end
      end
  end.
Proof.
  unfold postTransaction, try_catch.
  destruct parsed as [data |]; [| reflexivity].
  unfold bind at 1. unfold ret at 1. unfold bind at 1.
  rewrite getBeneficiaryById_run. cbn zeta.
  destruct (target (db w) (it_beneficiaryId data)) as [b |]; [| reflexivity].
  destruct (negb (String.eqb (Beneficiary.userId b) (user_id user))); [reflexivity |].
  fold (payout_currency b). unfold bind.
  rewrite getExchangeRate_returns.
  destruct (String.eqb (it_sourceCurrency data) (payout_currency b)) eqn:E.
  - rewrite convertAmount_returns, E, createTransaction_run. reflexivity.
  - destruct (quoted_rate (it_sourceCurrency data) (payout_currency b)
                (with_event (Select TBeneficiaries) w)) as [rate |] eqn:Hq;
      [| reflexivity].
    rewrite convertAmount_returns, E, quoted_rate_again, Hq, createTransaction_run.
    reflexivity.
Qed.




(** X19: the prices a client sends are ignored.  Two requests that agree
    on the beneficiary, the source amount, the source currency and the
    purpose get the same answer and leave the same state, whatever
    target amount, target currency, exchange rate and fees they
    carry. *)
Theorem postTransaction_ignores_sent_prices
    (user : AuthUser) (data data' : InsertTransaction) (w : World) :
  request_of data = request_of data' ->
  postTransaction user (Some data) w = postTransaction user (Some data') w.
Proof.
  unfold request_of. intros H. injection H as Hb Ha Hc Hp.
  rewrite !postTransaction_run. cbn zeta. unfold priced_transaction.
  now rewrite Hb, Ha, Hc, Hp.
Qed.

Lemma postTransaction_ignores_sent_prices_witness :
  postTransaction (a_principal "user-1")
    (Some (mkInsertTransaction "ben-1" "200" "USD" "170.94" "EUR" "0.8547"
             "4.99" "1" "5.99" "rent")) registry_world =
  postTransaction (a_principal "user-1")
    (Some (mkInsertTransaction "ben-1" "200" "USD" "999999" "JPY" "5000"
             "0" "0" "0" "rent")) registry_world.
Proof.
  apply postTransaction_ignores_sent_prices. reflexivity.
Defined.

Lemma getDashboardStats_run (user : AuthUser) (w : World) :
  getDashboardStats user w =
  let transactions :=
    firstn 50
      (orderByDesc Transaction.createdAt
         (filter (owned_by (user_id user)) (transactions (db w)))) in
  let beneficiaries :=
    orderByDesc Beneficiary.createdAt
      (filter (fun b => String.eqb (Beneficiary.userId b) (user_id user))
              (beneficiaries (db w))) in
  (Returned
     (Sent 200
        (mkDashboardStats
           (JsString.toFixed
              (fold_left
                 (fun sum t => add sum (StringToNumber (Transaction.sourceAmount t)))
                 (filter (fun t => String.eqb (Transaction.status t) "completed")
                         transactions)
                 (lit 0 0)))
           (length transactions) (length beneficiaries) (firstn 5 transactions))),
   with_event (Select TBeneficiaries) (with_event (Select TTransactions) w)).
Proof. reflexivity. Qed.

(** X20: [GET /api/dashboard/stats] reads and never writes.  It answers
    [200]; the transaction count is the number of the caller's
    transactions capped at 50, the limit [getTransactionsByUserId]
    applies by default; the beneficiary count is the number of the
    caller's beneficiaries; the recent transactions are at most five,
    all of them the caller's, newest first, and no transaction of the
    caller that is left out is newer than one that is listed. *)
Theorem getDashboardStats_counts (user : AuthUser) (w : World) :
  exists stats,
    fst (getDashboardStats user w) = Returned (Sent 200 stats) /\
    db (snd (getDashboardStats user w)) = db w /\
    ds_transactionCount stats =
      Nat.min 50 (length (filter (owned_by (user_id user)) (transactions (db w)))) /\
    ds_beneficiaryCount stats =
      length (filter (fun b => String.eqb (Beneficiary.userId b) (user_id user))
                     (beneficiaries (db w))) /\
    (length (ds_recentTransactions stats) <= 5)%nat /\
    descending Transaction.createdAt (ds_recentTransactions stats) /\
    (forall t, In t (ds_recentTransactions stats) ->
               In t (transactions (db w)) /\
               Transaction.userId t = user_id user) /\
    (forall t t',
        In t (ds_recentTransactions stats) ->
        In t' (transactions (db w)) ->
        Transaction.userId t' = user_id user ->
        Transaction.createdAt t < Transaction.createdAt t' ->
        In t' (ds_recentTransactions stats)).
Proof.
  rewrite getDashboardStats_run. cbn zeta. cbn [fst snd]. eexists.
  split; [reflexivity |].
  cbn [ds_transactionCount ds_beneficiaryCount ds_recentTransactions].
  set (mine := filter (owned_by (user_id user)) (transactions (db w))).
  assert (Hrecent : firstn 5 (firstn 50 (orderByDesc Transaction.createdAt mine)) =
                    firstn 5 (orderByDesc Transaction.createdAt mine)).
  { rewrite take_take. reflexivity. }
  rewrite Hrecent.
  assert (Hsub : forall t,
             In t (firstn 5 (orderByDesc Transaction.createdAt mine)) -> In t mine).
  { intros t Ht.
    apply (Permutation_in t (orderByDesc_Permutation Transaction.createdAt mine)).
    rewrite <- (firstn_skipn 5 (orderByDesc _ mine)). apply in_or_app. now left. }
  split; [reflexivity |].
  split.
  { rewrite length_take.
    now rewrite (Permutation_length (orderByDesc_Permutation Transaction.createdAt mine)). }
  split.
  { now rewrite (Permutation_length
                   (orderByDesc_Permutation Beneficiary.createdAt _)). }
  split.
  { rewrite length_take. lia. }
  split; [apply descending_firstn, orderByDesc_descending |].
  split.
  - intros t Ht. apply Hsub in Ht. apply filter_In_iff in Ht as [Hin Ho].
    split; [exact Hin |]. now apply String.eqb_eq in Ho.
  - intros t t' Ht Ht' Ho Hlt.
    assert (Hin : In t' (orderByDesc Transaction.createdAt mine)).
    { apply (Permutation_in t'
               (Permutation_sym (orderByDesc_Permutation Transaction.createdAt mine))).
      apply filter_In_iff. split; [exact Ht' |].
      unfold owned_by. now apply String.eqb_eq. }
    rewrite <- (firstn_skipn 5 (orderByDesc _ mine)) in Hin.
    apply in_app_or in Hin as [Hin | Hin]; [exact Hin |].
    pose proof (firstn_orderByDesc_newest Transaction.createdAt 5 mine t t' Ht Hin).
    lia.
Qed.

End Transfers.

(** ** Searching transactions *)

Section Searching.

Import storage.

Lemma like_percent (p t : list ascii) :
  like ("%"%char :: p) t =
  like p t || match t with [] => false | _ :: t' => like ("%"%char :: p) t' end.
Proof. destruct t; reflexivity. Qed.

(** A [%] matches any run of characters. *)
Lemma like_percent_iff (p t : list ascii) :
  like ("%"%char :: p) t = true <->
  exists skipped rest, t = (skipped ++ rest)%list /\ like p rest = true.
Proof.
  induction t as [| d t IH]; rewrite like_percent.
  - rewrite orb_false_r. split.
    + intros H. now exists [], [].
    + intros (skipped & rest & Ht & H).
      symmetry in Ht. apply app_eq_nil in Ht as [_ ->]. exact H.
  - rewrite orb_true_iff, IH. split.
    + intros [H | (skipped & rest & -> & H)].
      * now exists [], (d :: t).
      * now exists (d :: skipped), rest.
    + intros (skipped & rest & Ht & H). destruct skipped as [| s skipped].
      * cbn in Ht. subst rest. now left.
      * cbn in Ht. injection Ht as _ ->. right. now exists skipped, rest.
Qed.

(** A run of plain characters matches itself and nothing else. *)
Lemma like_plain_iff (p q t : list ascii) :
  forallb plain p = true ->
  like (p ++ q) t = true <-> exists rest, t = (p ++ rest)%list /\ like q rest = true.
Proof.
  revert t. induction p as [| c p IH]; intros t Hp.
  - cbn. split; [intros H; now exists t | now intros (rest & -> & H)].
  - cbn in Hp. apply andb_true_iff in Hp as [Hc Hp].
    unfold plain in Hc. rewrite !andb_true_iff, !negb_true_iff in Hc.
    destruct Hc as [[H1 H2] H3].
    cbn [app like]. rewrite H1, H2, H3.
    destruct t as [| d t].
    + split; [discriminate | intros (rest & Ht & _); discriminate].
    + rewrite andb_true_iff, Ascii.eqb_eq, (IH t Hp). split.
      * intros [-> (rest & -> & H)]. now exists rest.
      * intros (rest & Ht & H). injection Ht as -> ->. split; [reflexivity |].
        now exists rest.
Qed.

Lemma like_nil (t : list ascii) : like [] t = true <-> t = [].
Proof. destruct t; cbn; split; congruence. Qed.

Lemma plain_lower (c : ascii) : plain (lower c) = plain c.
Proof.
  destruct c as [[] [] [] [] [] [] [] []]; reflexivity.
Qed.

Lemma plain_lowered (l : list ascii) :
  forallb plain (map lower l) = forallb plain l.
Proof.
  induction l as [| c l IH]; cbn; [reflexivity |]. now rewrite plain_lower, IH.
Qed.

Lemma lowered_app (s1 s2 : string) :
  lowered (s1 +:+ s2) = (lowered s1 ++ lowered s2)%list.
Proof.
  unfold lowered. rewrite <- map_app. f_equal.
  induction s1 as [| c s1 IH]; cbn; [reflexivity |]. now rewrite <- IH.
Qed.

Lemma searchTransactions_by_name_run (userId query : string)
    (dateRange : option string) (w : World) :
  query <> "" ->
  searchTransactions userId query dateRange w =
  (Returned
     (orderByDesc Transaction.createdAt
        (flat_map
           (fun t =>
              map (fun _ => t)
                (filter
                   (fun b =>
                      String.eqb (Transaction.beneficiaryId t) (Beneficiary.id b)
                      && (String.eqb (Transaction.userId t) userId
                          && ilike (Beneficiary.name b) ("%" +:+ query +:+ "%")))
                   (beneficiaries (db w))))
           (transactions (db w)))),
   with_event (Select TTransactions) w).
Proof.
  intros Hq. apply String.eqb_neq in Hq.
  unfold searchTransactions. rewrite Hq. reflexivity.
Qed.

Lemma searchTransactions_by_date_run (userId range : string) (w : World) :
  range <> "" ->
  searchTransactions userId "" (Some range) w =
  (Returned
     (orderByDesc Transaction.createdAt
        (filter
           (fun t => String.eqb (Transaction.userId t) userId
                     && (date_threshold range w <=? Transaction.createdAt t))
           (transactions (db w)))),
   with_event (Select TTransactions) w).
Proof.
  intros Hr. apply String.eqb_neq in Hr.
  unfold searchTransactions, date_threshold. cbn [String.eqb negb].
  rewrite Hr. unfold bind, new_Date, year_start, ret.
  destruct (String.eqb range "30days"); [reflexivity |].
  destruct (String.eqb range "90days"); [reflexivity |].
  destruct (String.eqb range "year"); reflexivity.
Qed.

Lemma orderByDesc_In_iff {A} (key : A -> Z) (x : A) (l : list A) :
  In x (orderByDesc key l) <-> In x l.
Proof.
  split; apply Permutation_in;
    [| apply Permutation_sym]; apply orderByDesc_Permutation.
Qed.



(** X22: the query of a search is a [LIKE] pattern, compared without
    regard to case.  A query without [%], [_] and backslash matches a
    name exactly when the name contains it, letters compared in lower
    case.  A [%] inside the query is not taken literally: [a%b] matches
    every name that contains [a] and, somewhere after it, [b]. *)
Theorem ilike_query_is_a_pattern :
  (forall name query,
      forallb plain (list_ascii_of_string query) = true ->
      ilike name ("%" +:+ query +:+ "%") = true <->
      exists before after,
        lowered name = (before ++ lowered query ++ after)%list) /\
  (forall name a b,
      forallb plain (list_ascii_of_string a) = true ->
      forallb plain (list_ascii_of_string b) = true ->
      ilike name ("%" +:+ (a +:+ "%" +:+ b) +:+ "%") = true <->
      exists before between after,
        lowered name =
          (before ++ lowered a ++ between ++ lowered b ++ after)%list).
Proof.
  assert (Htail : forall t, like ["%"%char] t = true).
  { intros t. apply like_percent_iff. exists t, []. now rewrite app_nil_r. }
  assert (Hone : forall q t,
             forallb plain q = true ->
             like ("%"%char :: q ++ ["%"%char]) t = true <->
             exists before after, t = (before ++ q ++ after)%list).
  { intros q t Hq. rewrite like_percent_iff. split.
    - intros (before & rest & -> & H).
      apply (like_plain_iff q ["%"%char] rest Hq) in H as (after & -> & _).
      now exists before, after.
    - intros (before & after & ->). exists before, (q ++ after)%list.
      split; [reflexivity |].
      apply (like_plain_iff q ["%"%char] _ Hq). exists after. auto. }
  split.
  - intros name query Hq. unfold ilike. fold (lowered name).
    fold (lowered ("%" +:+ query +:+ "%")). rewrite !lowered_app.
    change (lowered "%") with ["%"%char]. cbn [app].
    apply Hone. unfold lowered. now rewrite plain_lowered.
  - intros name a b Ha Hb. unfold ilike. fold (lowered name).
    fold (lowered ("%" +:+ (a +:+ "%" +:+ b) +:+ "%")). rewrite !lowered_app.
    change (lowered "%") with ["%"%char]. cbn [app].
    assert (Ha' : forallb plain (lowered a) = true)
      by (unfold lowered; now rewrite plain_lowered).
    assert (Hb' : forallb plain (lowered b) = true)
      by (unfold lowered; now rewrite plain_lowered).
    rewrite like_percent_iff. split.
    + intros (before & rest & -> & H).
      rewrite <- app_assoc in H.
      apply (like_plain_iff (lowered a) _ rest Ha') in H as (rest' & -> & H).
      cbn [app] in H.
      apply (Hone (lowered b) rest' Hb') in H as (between & after & ->).
      now exists before, between, after.
    + intros (before & between & after & ->).
      exists before, (lowered a ++ between ++ lowered b ++ after)%list.
      split; [reflexivity |]. rewrite <- app_assoc.
      apply (like_plain_iff (lowered a) _ _ Ha').
      exists (between ++ lowered b ++ after)%list. split; [reflexivity |].
      cbn [app]. apply (Hone (lowered b) _ Hb'). now exists between, after.
Qed.

Lemma ilike_query_is_a_pattern_witness :
  ilike "Alice Martin" ("%" +:+ "ALI" +:+ "%") = true /\
  ilike "Alice Martin" ("%" +:+ ("al" +:+ "%" +:+ "tin") +:+ "%") = true.
Proof.
  destruct ilike_query_is_a_pattern as [Hplain Hpercent]. split.
  - apply Hplain; [reflexivity |].
    exists [], (lowered "ce Martin"). reflexivity.
  - apply Hpercent; [reflexivity | reflexivity |].
    exists [], (lowered "ice Mar"), []. reflexivity.
Defined.

(** X23: a search by date range only reads.  With an empty query and a
    date range that is not empty, [searchTransactions] returns, newest
    first, exactly the transactions of the given user created at or
    after the threshold: thirty or ninety days before now, the first
    day of the year, or, for any other range, the epoch. *)
Theorem searchTransactions_by_date (userId range : string) (w : World) :
  range <> "" ->
  exists rows,
    searchTransactions userId "" (Some range) w =
      (Returned rows, with_event (Select TTransactions) w) /\
    descending Transaction.createdAt rows /\
    (forall t,
        In t rows <->
        In t (transactions (db w)) /\ Transaction.userId t = userId /\
        date_threshold range w <= Transaction.createdAt t).
Proof.
  intros Hr. eexists. split; [now apply searchTransactions_by_date_run |].
  split; [apply orderByDesc_descending |].
  intros t. rewrite orderByDesc_In_iff, filter_In_iff, andb_true_iff.
  now rewrite String.eqb_eq, Z.leb_le.
Qed.

Lemma searchTransactions_by_date_witness :
  exists rows,
    searchTransactions "user-1" "" (Some "30days") history_world =
      (Returned rows, with_event (Select TTransactions) history_world) /\
    In recent_transfer rows /\ ~ In old_transfer rows.
Proof.
  destruct (searchTransactions_by_date "user-1" "30days" history_world)
    as (rows & Hrun & _ & Hrows); [discriminate |].
  exists rows. split; [exact Hrun |]. split.
  - apply Hrows. split; [right; now left |]. split; [reflexivity |].
    vm_compute. discriminate.
  - intros H. apply Hrows in H as (_ & _ & H). vm_compute in H. now apply H.
Defined.

(** X24: the date ranges nest.  With an empty query, what a search over
    thirty days finds a search over ninety days finds too, and what any
    date range finds is a transaction that the search without a date
    range finds. *)
Theorem searchTransactions_ranges_nest (userId : string) (w : World) :
  (forall t,
      In t (found userId "" (Some "30days") w) ->
      In t (found userId "" (Some "90days") w)) /\
  (forall range t,
      In t (found userId "" (Some range) w) ->
      In t (found userId "" None w)).
Proof.
  assert (Hall : forall t,
             In t (found userId "" None w) <->
             In t (transactions (db w)) /\ Transaction.userId t = userId).
  { intros t. unfold found. cbn [fst searchTransactions String.eqb negb].
    change (In t (orderByDesc Transaction.createdAt
                    (filter (fun t => String.eqb (Transaction.userId t) userId)
                            (transactions (db w)))) <->
            In t (transactions (db w)) /\ Transaction.userId t = userId).
    now rewrite orderByDesc_In_iff, filter_In_iff, String.eqb_eq. }
  assert (Hrange : forall range t,
             range <> "" ->
             In t (found userId "" (Some range) w) <->
             In t (transactions (db w)) /\ Transaction.userId t = userId /\
             date_threshold range w <= Transaction.createdAt t).
  { intros range t Hr. unfold found.
    rewrite (searchTransactions_by_date_run userId range w Hr). cbn [fst].
    rewrite orderByDesc_In_iff, filter_In_iff, andb_true_iff.
    now rewrite String.eqb_eq, Z.leb_le. }
  split.
  - intros t Ht. apply Hrange in Ht as (Hin & Ho & Hd); [| discriminate].
    apply Hrange; [discriminate |]. split; [exact Hin |]. split; [exact Ho |].
    change (date_threshold "30days" w) with (clock w - 30 * 24 * 60 * 60 * 1000) in Hd.
    change (date_threshold "90days" w) with (clock w - 90 * 24 * 60 * 60 * 1000).
    lia.
  - intros range t Ht. destruct (String.eqb range "") eqn:E.
    + apply String.eqb_eq in E. subst range. exact Ht.
    + apply String.eqb_neq in E. apply Hrange in Ht as (Hin & Ho & _); [| exact E].
      apply Hall. auto.
Qed.

Lemma searchTransactions_ranges_nest_witness :
  In recent_transfer (found "user-1" "" (Some "90days") history_world).
Proof.
  apply (proj1 (searchTransactions_ranges_nest "user-1" history_world)).
  vm_compute. now left.
Defined.

(** X25: [GET /api/transactions] never shows a transaction of another
    user.  For any [search] and [dateRange], and a [limit] that is a
    natural number or is not given, no table is changed, and the
    transactions of a [200] answer are all rows of the caller, newest
    first. *)
Theorem getTransactions_only_the_callers
    (user : AuthUser) (search dateRange : option string) (limit : option nat)
    (w : World) :
  db (snd (routes.getTransactions user search dateRange limit w)) = db w /\
  (forall code rows,
      fst (routes.getTransactions user search dateRange limit w) =
        Returned (mkReply code (TransactionsJson rows)) ->
      code = 200 /\
      descending Transaction.createdAt rows /\
      (forall t, In t rows ->
                 In t (transactions (db w)) /\
                 Transaction.userId t = user_id user)).
Proof.
  assert (H : exists rows,
             fst (routes.getTransactions user search dateRange limit w) =
               Returned (mkReply 200 (TransactionsJson rows)) /\
             db (snd (routes.getTransactions user search dateRange limit w)) = db w /\
             descending Transaction.createdAt rows /\
             (forall t, In t rows ->
                        In t (transactions (db w)) /\
                        Transaction.userId t = user_id user)).
  { unfold routes.getTransactions, try_catch, bind.
    destruct search as [query |]; [destruct (String.eqb query "") eqn:Eq |].
    2: { apply String.eqb_neq in Eq. cbn [negb orb default].
         rewrite (searchTransactions_by_name_run _ query dateRange w Eq).
         eexists. split; [reflexivity |]. split; [reflexivity |].
         split; [apply orderByDesc_descending |].
         intros t Ht. apply orderByDesc_In_iff, in_flat_map in Ht as (t' & Ht' & Hin).
         apply in_map_iff in Hin as (b & <- & Hb).
         apply filter_In_iff in Hb as [_ Hcond].
         apply andb_true_iff in Hcond as [_ Hcond].
         apply andb_true_iff in Hcond as [Ho _].
         apply String.eqb_eq in Ho. auto. }
    all: cbn [negb orb];
      (destruct dateRange as [range |]; [destruct (String.eqb range "") eqn:Er |]);
      cbn [negb].
    all: try (apply String.eqb_neq in Er;
              rewrite (searchTransactions_by_date_run _ range w Er);
              eexists; split; [reflexivity |]; split; [reflexivity |];
              split; [apply orderByDesc_descending |];
              intros t Ht; apply orderByDesc_In_iff, filter_In_iff in Ht as [Hin Hc];
              apply andb_true_iff in Hc as [Ho _]; apply String.eqb_eq in Ho; auto).
    all: eexists; (split; [reflexivity |]); (split; [reflexivity |]);
      (split; [apply descending_firstn, orderByDesc_descending |]);
      intros t Ht;
      assert (Hin : In t (filter (fun t => String.eqb (Transaction.userId t) (user_id user))
                                 (transactions (db w))));
      [ apply (Permutation_in t (orderByDesc_Permutation Transaction.createdAt _));
        rewrite <- (firstn_skipn (default 50%nat limit) (orderByDesc _ _));
        apply in_or_app; now left
      | apply filter_In_iff in Hin as [Hin Ho]; apply String.eqb_eq in Ho; auto ]. }
  destruct H as (rows & Hreply & Hdb & Hsorted & Hown).
  split; [exact Hdb |].
  intros code rows' Hsent. rewrite Hreply in Hsent. injection Hsent as <- <-.
  auto.
Qed.

Lemma getTransactions_only_the_callers_witness :
  In old_transfer (transactions (db history_world)) /\
  Transaction.userId old_transfer = "user-1".
Proof.
  destruct (getTransactions_only_the_callers (a_principal "user-1") (Some "ali")
              (Some "30days") None history_world) as (_ & H).
  destruct (H 200 [recent_transfer; old_transfer]) as (_ & _ & Hown).
  - vm_compute. reflexivity.
  - apply Hown. right. now left.
Defined.

End Searching.

(** ** Reading back what [toFixed(2)] prints *)

Section ReadingBack.

Import JsString.

Lemma is_digit_value (c : ascii) :
  is_digit c = true -> digit_value 10 c = Some (N_of_ascii c - 48)%N.
Proof.
  destruct c as [[] [] [] [] [] [] [] []]; cbv; congruence.
Qed.

Lemma read_digits_run (l rest : list ascii) (acc : N) (cnt : nat) :
  forallb is_digit l = true ->
  match rest with [] => true | c :: _ => negb (is_digit c) end = true ->
  read_digits 10 acc cnt (l ++ rest)%list =
    (digits_value acc l, (cnt + length l)%nat, rest).
Proof.
  intros Hl Hrest. revert acc cnt. induction l as [| c l IH]; intros acc cnt.
  - cbn [app length digits_value fold_left]. rewrite Nat.add_0_r.
    destruct rest as [| c r]; [reflexivity |].
    cbn [read_digits]. unfold is_digit in Hrest.
    now destruct (digit_value 10 c).
  - cbn [forallb] in Hl. apply andb_true_iff in Hl as [Hc Hl].
    cbn [app read_digits]. rewrite (is_digit_value c Hc), (IH Hl).
    cbn [length]. now rewrite Nat.add_succ_r.
Qed.

Lemma list_of_append (s1 s2 : string) :
  list_ascii_of_string (s1 ++ s2) =
    (list_ascii_of_string s1 ++ list_ascii_of_string s2)%list.
Proof.
  induction s1 as [| c s1 IH]; cbn; [reflexivity |]. now rewrite <- IH.
Qed.

Lemma list_of_substring (a b : nat) (s : string) :
  list_ascii_of_string (substring a b s) =
    firstn b (skipn a (list_ascii_of_string s)).
Proof.
  revert a b. induction s as [| c s IH]; intros a b.
  - destruct a, b; reflexivity.
  - destruct a as [| a].
    + destruct b as [| b]; [reflexivity |].
      cbn [substring list_ascii_of_string]. rewrite IH. reflexivity.
    + cbn [substring list_ascii_of_string]. rewrite IH. reflexivity.
Qed.

Lemma length_list_of (s : string) :
  length (list_ascii_of_string s) = String.length s.
Proof. induction s as [| c s IH]; cbn; congruence. Qed.

Lemma zeros_digits (k : nat) :
  forallb is_digit (list_ascii_of_string (zeros k)) = true /\
  digits_value 0 (list_ascii_of_string (zeros k)) = 0%N.
Proof.
  induction k as [| k [IH1 IH2]]; [split; reflexivity |].
  split; [exact IH1 | exact IH2].
Qed.

Lemma uint_digits (u : Decimal.uint) :
  forallb is_digit (list_ascii_of_string (NilEmpty.string_of_uint u)) = true.
Proof. induction u; cbn; auto. Qed.

Lemma uint_value_acc (u : Decimal.uint) (a : positive) :
  digits_value (Npos a) (list_ascii_of_string (NilEmpty.string_of_uint u)) =
    Npos (Pos.of_uint_acc u a).
Proof.
  revert a. unfold digits_value.
  induction u as [| u IH | u IH | u IH | u IH | u IH | u IH | u IH | u IH | u IH | u IH];
    intros a; [reflexivity | ..];
    cbn [NilEmpty.string_of_uint list_ascii_of_string fold_left Pos.of_uint_acc];
    rewrite <- IH; f_equal; cbn [N_of_ascii N_of_digits]; lia.
Qed.

Lemma uint_value (u : Decimal.uint) :
  digits_value 0 (list_ascii_of_string (NilEmpty.string_of_uint u)) = N.of_uint u.
Proof.
  unfold N.of_uint.
  induction u as [| u IH | u IH | u IH | u IH | u IH | u IH | u IH | u IH | u IH | u IH];
    [reflexivity | exact IH | ..];
    cbn [Pos.of_uint]; rewrite <- uint_value_acc; reflexivity.
Qed.

Lemma digits_spec (n : N) :
  forallb is_digit (list_ascii_of_string (digits n)) = true /\
  digits_value 0 (list_ascii_of_string (digits n)) = n /\
  (1 <= String.length (digits n))%nat.
Proof.
  unfold digits.
  assert (H : NilZero.string_of_uint (N.to_uint n) =
              NilEmpty.string_of_uint (N.to_uint n) /\
              N.to_uint n <> Decimal.Nil).
  { destruct n as [| p]; [split; [reflexivity | discriminate] |].
    cbn [N.to_uint].
    pose proof (DecimalPos.Unsigned.to_uint_nonnil p) as Hp.
    destruct (Pos.to_uint p); [contradiction | ..]; split; (reflexivity || discriminate). }
  destruct H as [-> Hnil].
  split; [apply uint_digits |].
  split; [rewrite uint_value; apply DecimalN.Unsigned.of_to |].
  destruct (N.to_uint n); [contradiction | ..]; cbn; lia.
Qed.

Lemma trim_plain (cs : list ascii) (c d : ascii) (l : list ascii) :
  cs = (c :: l ++ [d])%list ->
  is_space c = false -> is_space d = false ->
  trim cs = cs.
Proof.
  intros -> Hc Hd. unfold trim. cbn [trim_start]. rewrite Hc.
  assert (H : rev (c :: l ++ [d])%list = (d :: rev l ++ [c])%list).
  { cbn [rev]. rewrite rev_app_distr. reflexivity. }
  rewrite H. cbn [trim_start]. rewrite Hd, <- H. apply rev_involutive.
Qed.

Lemma digit_is_plain (c : ascii) :
  is_digit c = true ->
  is_space c = false /\
  Ascii.eqb c "I" = false /\
  In c ["0"; "1"; "2"; "3"; "4"; "5"; "6"; "7"; "8"; "9"]%char.
Proof.
  destruct c as [[] [] [] [] [] [] [] []]; cbv; try congruence;
    (split; [reflexivity |]); (split; [reflexivity |]); tauto.
Qed.

Lemma second_is_no_radix (c : ascii) :
  is_digit c = true \/ c = "."%char ->
  (Ascii.eqb c "x" || Ascii.eqb c "X") = false /\
  (Ascii.eqb c "o" || Ascii.eqb c "O") = false /\
  (Ascii.eqb c "b" || Ascii.eqb c "B") = false.
Proof.
  intros [H | ->]; [| repeat split].
  destruct c as [[] [] [] [] [] [] [] []]; cbv in H; try discriminate; repeat split.
Qed.

Lemma unsigned_decimal_plain (s : bool) (i : ascii) (I F : list ascii) :
  forallb is_digit (i :: I) = true -> forallb is_digit F = true -> F <> [] ->
  unsigned_decimal s ((i :: I) ++ "."%char :: F)%list =
    of_decimal s (digits_value 0 ((i :: I) ++ F)%list) (- Z.of_nat (length F)).
Proof.
  intros HI HF Hne. unfold unsigned_decimal.
  assert (Hi : is_digit i = true) by (cbn in HI; now apply andb_true_iff in HI).
  destruct (digit_is_plain i Hi) as (_ & Hinf & _).
  cbn [app string_of_list_ascii String.eqb]. rewrite Hinf. cbn [andb].
  change (i :: (I ++ "."%char :: F))%list with ((i :: I) ++ "."%char :: F)%list.
  rewrite (read_digits_run (i :: I) ("."%char :: F) 0 0 HI); [| reflexivity].
  cbv iota beta.
  pose proof (read_digits_run F [] (digits_value 0 (i :: I)) 0 HF eq_refl) as HrF.
  rewrite app_nil_r in HrF. rewrite HrF.
  cbn [Nat.add length read_exponent].
  assert (Happ : digits_value 0 ((i :: I) ++ F)%list =
                 digits_value (digits_value 0 (i :: I)) F)
    by (unfold digits_value; apply fold_left_app).
  rewrite <- Happ, Z.sub_0_l. reflexivity.
Qed.

(** [Number] reads a decimal with digits on both sides of the point as
    the double nearest to it. *)
Lemma Number_of_plain_decimal (s : bool) (i : ascii) (I F : list ascii) :
  forallb is_digit (i :: I) = true -> forallb is_digit F = true -> F <> [] ->
  StringToNumber
    (string_of_list_ascii
       ((if s then ["-"%char] else []) ++ (i :: I) ++ "."%char :: F)%list) =
    of_decimal s (digits_value 0 ((i :: I) ++ F)%list) (- Z.of_nat (length F)).
Proof.
  intros HI HF Hne. rewrite <- (unsigned_decimal_plain s i I F HI HF Hne).
  unfold StringToNumber. rewrite list_ascii_of_string_of_list_ascii.
  assert (Hi : is_digit i = true) by (cbn in HI; now apply andb_true_iff in HI).
  destruct (digit_is_plain i Hi) as (Hsp & _ & Hzero).
  destruct (exists_last Hne) as (F' & d & ->).
  assert (Hd : is_space d = false).
  { rewrite forallb_app in HF. apply andb_true_iff in HF as [_ HF].
    cbn in HF. rewrite andb_true_r in HF. now apply digit_is_plain in HF. }
  assert (Hlast : (I ++ "."%char :: F' ++ [d])%list =
                  ((I ++ "."%char :: F') ++ [d])%list)
    by (now rewrite <- app_assoc).
  destruct s.
  - cbn [app]. rewrite Hlast.
    rewrite (trim_plain ("-"%char :: i :: (I ++ "."%char :: F') ++ [d])%list
               "-" d (i :: I ++ "."%char :: F') eq_refl eq_refl Hd).
    reflexivity.
  - cbn [app]. rewrite Hlast.
    rewrite (trim_plain (i :: (I ++ "."%char :: F') ++ [d])%list
               i d (I ++ "."%char :: F') eq_refl Hsp Hd).
    cbn [In] in Hzero.
    destruct Hzero as [<- | Hother].
    + destruct I as [| c I].
      * reflexivity.
      * assert (Hc : is_digit c = true).
        { cbn [forallb] in HI. apply andb_true_iff in HI as [_ HI].
          now apply andb_true_iff in HI as [HI _]. }
        destruct (second_is_no_radix c (or_introl Hc)) as (Hx & Ho & Hb).
        cbn [app]. rewrite Hx, Ho, Hb. reflexivity.
    + repeat (destruct Hother as [<- | Hother]; [reflexivity |]). contradiction.
Qed.

(** The digits [toFixed(2)] prints for a number of hundredths: at least
    three, the last two after the point. *)
Lemma cents_digits (n : N) :
  let padded :=
    list_ascii_of_string (zeros (3 - String.length (digits n)) ++ digits n) in
  exists i I F,
    firstn (length padded - 2) padded = (i :: I)%list /\
    skipn (length padded - 2) padded = F /\
    length F = 2%nat /\
    forallb is_digit (i :: I) = true /\ forallb is_digit F = true /\
    digits_value 0 ((i :: I) ++ F)%list = n.
Proof.
  cbn zeta. destruct (digits_spec n) as (Hds & Hval & Hlen).
  destruct (zeros_digits (3 - String.length (digits n))) as (Hzs & Hzero).
  set (P := list_ascii_of_string (zeros (3 - String.length (digits n)) ++ digits n)).
  assert (HP : P = (list_ascii_of_string (zeros (3 - String.length (digits n)))
                    ++ list_ascii_of_string (digits n))%list)
    by apply list_of_append.
  assert (Hlong : (3 <= length P)%nat).
  { rewrite HP, length_app, !length_list_of.
    assert (Hz : forall k, String.length (zeros k) = k)
      by (induction k; cbn; congruence).
    rewrite Hz. lia. }
  assert (Hdigits : forallb is_digit P = true).
  { rewrite HP, forallb_app, Hzs, Hds. reflexivity. }
  assert (Hvalue : digits_value 0 P = n).
  { rewrite HP. unfold digits_value. rewrite fold_left_app.
    fold (digits_value 0 (list_ascii_of_string (zeros (3 - String.length (digits n))))).
    rewrite Hzero. exact Hval. }
  pose proof (firstn_skipn (length P - 2) P) as Hsplit.
  assert (HlenI : length (firstn (length P - 2) P) = (length P - 2)%nat)
    by (rewrite length_firstn; lia).
  assert (HlenF : length (skipn (length P - 2) P) = 2%nat)
    by (rewrite length_skipn; lia).
  rewrite <- Hsplit, forallb_app in Hdigits.
  apply andb_true_iff in Hdigits as [HdI HdF].
  destruct (firstn (length P - 2) P) as [| i I] eqn:EI.
  { cbn in HlenI. lia. }
  exists i, I, (skipn (length P - 2) P).
  repeat split; auto. now rewrite Hsplit.
Qed.

(** X26: [Number] reads back what [toFixed(2)] prints.  For every number
    that is not a finite number of magnitude [10^21] or more,
    [Number(x.toFixed(2))], computed by printing [x] with [toFixed] and
    reading the string with [Number], is the double nearest to the
    nearest number of hundredths: the value that [calculateFees] and
    [convertAmount] are specified with. *)
Theorem Number_reads_back_toFixed (x : number) :
  below_1e21 x = true ->
  StringToNumber (toFixed x) = toFixed2 x.
Proof.
  destruct x as [z | [] | | s m e]; try reflexivity.
  unfold below_1e21, toFixed, toFixed2. intros H.
  apply negb_true_iff in H. rewrite H.
  set (n := Z.to_N (nearest_cents m e)).
  destruct (cents_digits n) as (i & I & F & HI & HF & HlenF & HdI & HdF & Hval).
  cbn zeta in HI, HF.
  rewrite <- (string_of_list_ascii_of_string
                ((if s then "-" else "") ++ _ ++ "." ++ _)).
  set (padded := zeros (3 - String.length (digits n)) ++ digits n) in *.
  rewrite !list_of_append, !list_of_substring, <- (length_list_of padded).
  rewrite skipn_O, HI, HF.
  assert (HF2 : firstn 2 F = F) by (rewrite <- HlenF; apply firstn_all).
  rewrite HF2.
  assert (Hsign : list_ascii_of_string (if s then "-" else "") =
                  (if s then ["-"%char] else [])) by (now destruct s).
  rewrite Hsign. change (list_ascii_of_string ".") with ["."%char]. cbn [app].
  assert (HneF : F <> []) by (intros ->; discriminate).
  pose proof (Number_of_plain_decimal s i I F HdI HdF HneF) as Hread.
  rewrite Hval, HlenF in Hread. exact Hread.
Qed.

Lemma Number_reads_back_toFixed_witness :
  StringToNumber (toFixed (add (lit 499 2) (lit 3 2))) = lit 502 2.
Proof.
  rewrite (Number_reads_back_toFixed (add (lit 499 2) (lit 3 2)));
    [| reflexivity].
  vm_compute. reflexivity.
Defined.

End ReadingBack.
